(** * Personal-assistant bot: intent detection, dispatch and deferred work

    A shallow embedding of the decision logic of the Telegram personal
    assistant (src/ai_handler.py, src/email_service.py,
    src/reminder_service.py, src/calendar_handler.py,
    src/handlers/ai_chat.py, src/handlers/scheduled_tasks.py) together with
    the properties its specification states about it.

    Conventions of the embedding:
    - Python [str] values are [string]s of ASCII characters;
    - the wall clock ([datetime.now]) is an explicit argument of every
      function that reads it;
    - a raised exception is a value of type [exn] in the [Raise] branch of
      [result];
    - collaborators (SMTP, Telegram, the calendar API, the text oracle) are
      explicit arguments that give the outcome of each call. *)

From Stdlib Require Import ZArith Lia List Bool Ascii String.
From Stdlib Require Import Sorting.Sorted.
From stdpp Require Import gmap strings.
Import ListNotations.

Local Open Scope string_scope.
Local Open Scope bool_scope.

(** ** Python text primitives *)

Module Text.

(** [str.lower] on ASCII text: only [A]..[Z] change. *)
Definition lower_char (c : ascii) : ascii :=
  let n := nat_of_ascii c in
  if (65 <=? n)%nat && (n <=? 90)%nat then ascii_of_nat (n + 32) else c.

Fixpoint lower (s : string) : string :=
  match s with
  | EmptyString => EmptyString
  | String c s' => String (lower_char c) (lower s')
  end.

(** [s.startswith(p)] *)
Fixpoint startswith (p s : string) : bool :=
  match p, s with
  | EmptyString, _ => true
  | String _ _, EmptyString => false
  | String a p', String b s' => Ascii.eqb a b && startswith p' s'
  end.

(** [p in s] for strings: [p] occurs as a contiguous substring of [s]. *)
Fixpoint contains (p s : string) : bool :=
  startswith p s ||
  match s with
  | EmptyString => false
  | String _ s' => contains p s'
  end.

(** [any(pattern in s for pattern in patterns)] *)
Definition any_in (patterns : list string) (s : string) : bool :=
  existsb (fun p => contains p s) patterns.

(** [c in s] for a single character. *)
Fixpoint has_char (c : ascii) (s : string) : bool :=
  match s with
  | EmptyString => false
  | String d s' => Ascii.eqb c d || has_char c s'
  end.

(** [len(s)] *)
Definition len (s : string) : nat := String.length s.

End Text.

(** ** The fragment of Python's [re] the detectors use

    [re.search] is used only for its truth value, so the matcher decides
    whether some match exists; greedy versus lazy choice plays no role.
    The position in the subject is the character before it ([None] at the
    start) and the remaining text, which is what [^] and [\b] look at. *)

Module Regex.

Inductive re : Type :=
| Eps                         (* empty pattern *)
| Chr (c : ascii)             (* a literal character *)
| Cls (p : ascii -> bool)     (* a character class *)
| Cat (r1 r2 : re)
| Alt (r1 r2 : re)
| Star (r : re)
| Bol                         (* ^ without MULTILINE *)
| WordB.                      (* \b *)

Definition Plus (r : re) : re := Cat r (Star r).
Definition Opt (r : re) : re := Alt r Eps.

(** A literal string. *)
Fixpoint Lit (s : string) : re :=
  match s with
  | EmptyString => Eps
  | String c s' => Cat (Chr c) (Lit s')
  end.

Definition between (lo hi : nat) (c : ascii) : bool :=
  (lo <=? nat_of_ascii c)%nat && (nat_of_ascii c <=? hi)%nat.

Definition is_digit (c : ascii) : bool := between 48 57 c.
Definition is_upper (c : ascii) : bool := between 65 90 c.
Definition is_lower (c : ascii) : bool := between 97 122 c.
Definition is_alnum (c : ascii) : bool := is_digit c || is_upper c || is_lower c.
(** [\w] *)
Definition is_word (c : ascii) : bool := is_alnum c || Ascii.eqb c "_".
(** [\s]: tab, newline, vertical tab, form feed, carriage return, the
    four separators 28..31 and the space. *)
Definition is_space (c : ascii) : bool :=
  between 9 13 c || between 28 31 c || Ascii.eqb c " ".
(** [.] matches everything but a newline. *)
Definition not_newline (c : ascii) : bool := negb (Ascii.eqb c "010").
Definition one_of (s : string) (c : ascii) : bool := Text.has_char c s.

Definition digit : re := Cls is_digit.
Definition space : re := Cls is_space.
Definition dot : re := Cls not_newline.

Definition word_opt (o : option ascii) : bool :=
  match o with Some c => is_word c | None => false end.

Definition head (s : string) : option ascii :=
  match s with EmptyString => None | String c _ => Some c end.

(** [m r prev s k]: can [r] match a prefix of [s] (the character before
    [s] being [prev]) so that the continuation [k] accepts the rest? *)
Fixpoint m (r : re) (prev : option ascii) (s : string)
           (k : option ascii -> string -> bool) {struct r} : bool :=
  match r with
  | Eps => k prev s
  | Chr c =>
      match s with
      | String d s' => if Ascii.eqb c d then k (Some d) s' else false
      | EmptyString => false
      end
  | Cls p =>
      match s with
      | String d s' => if p d then k (Some d) s' else false
      | EmptyString => false
      end
  | Cat r1 r2 => m r1 prev s (fun p' s' => m r2 p' s' k)
  | Alt r1 r2 => if m r1 prev s k then true else m r2 prev s k
  | Star r1 =>
      (fix loop (fuel : nat) (prev : option ascii) (s : string) : bool :=
         if k prev s then true
         else
           match fuel with
           | O => false
           | S fuel' =>
               m r1 prev s
                 (fun p' s' =>
                    if (String.length s' <? String.length s)%nat
                    then loop fuel' p' s' else false)
           end) (String.length s) prev s
  | Bol => match prev with None => k prev s | Some _ => false end
  | WordB =>
      if xorb (word_opt prev) (word_opt (head s)) then k prev s else false
  end.

Definition accept : option ascii -> string -> bool := fun _ _ => true.

(** Is there a match starting at some position of [s]? *)
Fixpoint search_from (r : re) (prev : option ascii) (s : string) : bool :=
  if m r prev s accept then true
  else
    match s with
    | EmptyString => false
    | String c s' => search_from r (Some c) s'
    end.

(** [bool(re.search(r, s))] *)
Definition search (r : re) (s : string) : bool := search_from r None s.

(** A sufficient syntactic test that every text matched by [r] holds the
    character [c]. *)
Fixpoint must_char (c : ascii) (r : re) : bool :=
  match r with
  | Chr d => Ascii.eqb c d
  | Cat r1 r2 => must_char c r1 || must_char c r2
  | Alt r1 r2 => must_char c r1 && must_char c r2
  | _ => false
  end.

End Regex.

(** ** Intent detection (src/ai_handler.py, src/handlers/ai_chat.py) *)

Module Classifier.
Import Regex.

Inductive calendar_action : Type :=
| CalCreate
| CalDeletePattern (pattern : string)
| CalClearAll (confirmed : bool).

Inductive email_action : Type :=
| ActSendEmail (message : string).

Inductive reminder_action : Type :=
| ActSetReminder (message : string).

Definition create_patterns : list string :=
  [ "schedule a"; "add to calendar"; "create meeting"; "book appointment";
    "set reminder"; "plan meeting"; "i have class at"; "i have meeting at";
    "schedule meeting"; "book a"; "arrange meeting"; "set up meeting";
    "create appointment"; "can you set me"; "set me a"; "can you schedule";
    "can you create"; "can you add"; "can you book"; "set a schedule";
    "make me a"; "add a"; "put on my calendar"; "schedule for me" ].

Definition delete_patterns : list string :=
  [ "remove my"; "delete my"; "cancel my"; "clear my schedule";
    "remove my schedule"; "delete all events"; "clear all events";
    "remove all meetings"; "cancel all"; "clear my calendar";
    "remove everything"; "delete everything"; "i want to remove all";
    "delete all my"; "remove all of my"; "remove all my meetings";
    "delete all my meetings"; "cancel all my meetings";
    "clear all my events"; "remove all my events"; "delete all my events" ].

Definition query_patterns : list string :=
  [ "what's on my"; "what do i have"; "am i free"; "do i have"; "check my";
    "show my"; "when is my"; "any meetings"; "any events today";
    "any events tomorrow"; "schedule today"; "schedule tomorrow";
    "busy today"; "busy tomorrow" ].

Definition confirmation_words : list string :=
  [ "yes"; "sure"; "confirm"; "definitely"; "absolutely" ].

(** The quoted-substring search of [_extract_delete_pattern] (a double
    quote, any run of characters other than a double quote, a double
    quote) and its group 1: the text between the first double quote and
    the next one, when there is a next one. *)
Fixpoint until_quote (s : string) : option string :=
  match s with
  | EmptyString => None
  | String c s' =>
      if Ascii.eqb c (ascii_of_nat 34) then Some EmptyString
      else option_map (String c) (until_quote s')
  end.

Fixpoint quoted_match (s : string) : option string :=
  match s with
  | EmptyString => None
  | String c s' =>
      if Ascii.eqb c (ascii_of_nat 34) then until_quote s'
      else quoted_match s'
  end.

Definition _extract_delete_pattern (message : string) : string :=
  let message_lower := Text.lower message in
  if Text.contains "meeting" message_lower then "meeting"
  else if Text.contains "class" message_lower then "class"
  else if Text.contains "appointment" message_lower then "appointment"
  else if Text.contains "call" message_lower then "call"
  else match quoted_match message with
       | Some g => g
       | None => ""
       end.

Definition detect_calendar_action (user_message : string)
  : option calendar_action :=
  let message_lower := Text.lower user_message in
  let creation :=
    if Text.any_in create_patterns message_lower then Some CalCreate
    else None in
  if Text.any_in query_patterns message_lower then None
  else if Text.any_in delete_patterns message_lower then
    if Text.contains "all my meetings" message_lower
       || Text.contains "all my events" message_lower then
      if Text.contains "meetings" message_lower then
        Some (CalDeletePattern "meeting")
      else if Text.contains "events" message_lower then
        Some (CalDeletePattern "event")
      else creation
    else if Text.contains "clear my schedule" message_lower
            || Text.contains "clear my calendar" message_lower
            || Text.contains "clear all" message_lower then
      Some (CalClearAll (Text.any_in confirmation_words message_lower))
    else Some (CalDeletePattern (_extract_delete_pattern user_message))
  else creation.

Definition email_patterns : list string :=
  [ "send email"; "email"; "send an email"; "send a message";
    "send to"; "email to"; "message to"; "write to";
    "send reminder"; "send notification"; "notify";
    "compose email"; "draft email"; "send mail" ].

Fixpoint Seq (l : list re) : re :=
  match l with
  | [] => Eps
  | r :: l' => Cat r (Seq l')
  end.

(** [r'\b[A-Za-z0-9._%+-]+@[A-Za-z0-9.-]+\.[A-Z|a-z]{2,}\b'] *)
Definition local_part (c : ascii) : bool := is_alnum c || one_of "._%+-" c.
Definition domain_part (c : ascii) : bool := is_alnum c || one_of ".-" c.
Definition tld_part (c : ascii) : bool :=
  is_upper c || one_of "|" c || is_lower c.

Definition email_regex : re :=
  Seq [ WordB; Plus (Cls local_part); Chr "@"; Plus (Cls domain_part);
        Chr "."; Cls tld_part; Cls tld_part; Star (Cls tld_part); WordB ].

Definition detect_email_action (user_message : string)
  : option email_action :=
  let message_lower := Text.lower user_message in
  let has_email_address := search email_regex user_message in
  let has_email_pattern := Text.any_in email_patterns message_lower in
  if has_email_pattern && has_email_address
  then Some (ActSendEmail user_message)
  else None.

Definition reminder_patterns : list string :=
  [ "remind me"; "reminds me"; "notify me"; "tell me"; "alert me";
    "set a reminder"; "set reminder"; "reminder";
    "wake me up"; "ping me"; "buzz me";
    "don't let me forget"; "make sure i remember";
    "you have to notify"; "you have to remind";
    "you have to tell"; "need to remind"; "need to notify" ].

Definition am_pm : re := Alt (Lit "am") (Lit "pm").
(** [\d{1,2}] *)
Definition d12 : re := Cat digit (Opt digit).
(** [\d{1,2}:\d{2}(am|pm)?] *)
Definition clock : re := Seq [ d12; Chr ":"; digit; digit; Opt am_pm ].
(** [in \d+\s*(minute|hour|min|hr)] *)
Definition relative_offset : re :=
  Seq [ Lit "in "; Plus digit; Star space;
        Alt (Lit "minute") (Alt (Lit "hour") (Alt (Lit "min") (Lit "hr"))) ].

Definition time_patterns : list re :=
  [ Seq [ Lit "at "; clock ];
    Seq [ Lit "at "; d12; am_pm ];
    relative_offset;
    Seq [ Lit "tomorrow at "; digit ];
    Lit "later today";
    Lit "tonight at";
    Seq [ Lit "today at "; digit ];
    Seq [ clock; Star dot; Lit "remind" ];
    Seq [ d12; am_pm; Star dot; Lit "remind" ] ].

Definition time_start_patterns : list re :=
  [ Seq [ Bol; Lit "at "; clock ];
    Seq [ Bol; Lit "at "; d12; am_pm ];
    Seq [ Bol; clock ] ].

Definition email_exclusion_patterns : list string :=
  [ "send email"; "email to"; "email "; "send to"; "compose email" ].

Definition calendar_exclusion_patterns : list string :=
  [ "schedule"; "calendar"; "create meeting"; "add to calendar";
    "meeting with"; "appointment with"; "book "; "i have class";
    "i have meeting"; "schedule meeting" ].

Definition any_search (patterns : list re) (s : string) : bool :=
  existsb (fun r => search r s) patterns.

Definition detect_reminder_action (user_message : string)
  : option reminder_action :=
  let message_lower := Text.lower user_message in
  if Text.contains "@" user_message then None
  else if Text.any_in email_exclusion_patterns message_lower then None
  else if Text.any_in calendar_exclusion_patterns message_lower then None
  else
    let has_reminder_pattern := Text.any_in reminder_patterns message_lower in
    let has_time_pattern := any_search time_patterns message_lower in
    let has_time_start_pattern :=
      any_search time_start_patterns message_lower in
    if has_reminder_pattern then Some (ActSetReminder user_message)
    else if (has_time_pattern || has_time_start_pattern)
            && (Text.contains "me" message_lower
                || Text.contains "i" message_lower)
    then Some (ActSetReminder user_message)
    else if has_time_start_pattern && (20 <? Text.len user_message)%nat
    then Some (ActSetReminder user_message)
    else None.

(** The intent of a message, as [handle_message] resolves it: calendar
    detection runs first and only with an authenticated calendar, then
    reminder detection, then email detection. *)
Inductive Intent : Type :=
| IntentNone
| CreateEvent
| DeletePattern (pattern : string)
| ClearAll (confirmed : bool)
| SendEmail
| SetReminder.

Definition intent_of_calendar (a : calendar_action) : Intent :=
  match a with
  | CalCreate => CreateEvent
  | CalDeletePattern p => DeletePattern p
  | CalClearAll c => ClearAll c
  end.

Definition classify (calendar_authenticated : bool) (user_message : string)
  : Intent :=
  match (if calendar_authenticated
         then detect_calendar_action user_message else None) with
  | Some a => intent_of_calendar a
  | None =>
      match detect_reminder_action user_message with
      | Some _ => SetReminder
      | None =>
          match detect_email_action user_message with
          | Some _ => SendEmail
          | None => IntentNone
          end
      end
  end.

End Classifier.

(** ** Exceptions and results *)

Module Py.

Inductive exn_class : Type :=
| ValueError
| JSONDecodeError        (* a subclass of ValueError *)
| UnicodeDecodeError     (* a subclass of ValueError *)
| FileNotFoundError      (* a subclass of OSError *)
| PermissionError        (* a subclass of OSError *)
| OSError
| TypeError
| KeyError
| RuntimeError.          (* any other subclass of Exception *)

Record exn : Type := Exn { exn_cls : exn_class; exn_msg : string }.

(** [isinstance(e, c)] along the class hierarchy above. *)
Definition subclass (c d : exn_class) : bool :=
  match c, d with
  | ValueError, ValueError | JSONDecodeError, JSONDecodeError
  | UnicodeDecodeError, UnicodeDecodeError
  | FileNotFoundError, FileNotFoundError
  | PermissionError, PermissionError | OSError, OSError
  | TypeError, TypeError | KeyError, KeyError
  | RuntimeError, RuntimeError => true
  | JSONDecodeError, ValueError | UnicodeDecodeError, ValueError => true
  | FileNotFoundError, OSError | PermissionError, OSError => true
  | _, _ => false
  end.

Definition caught_by (handlers : list exn_class) (e : exn) : bool :=
  existsb (subclass (exn_cls e)) handlers.

Inductive result (A : Type) : Type :=
| Return (a : A)
| Raise (e : exn).
Arguments Return {A} a.
Arguments Raise {A} e.

Definition bind {A B} (x : result A) (f : A -> result B) : result B :=
  match x with
  | Return a => f a
  | Raise e => Raise e
  end.

(** [try: x  except handlers: h] *)
Definition try_except {A} (x : result A) (handlers : list exn_class)
           (h : exn -> result A) : result A :=
  match x with
  | Return a => Return a
  | Raise e => if caught_by handlers e then h e else Raise e
  end.

Definition raised {A} (x : result A) : bool :=
  match x with Return _ => false | Raise _ => true end.

End Py.

Import Py.

#[global] Instance result_ret : MRet result := @Return.
#[global] Instance result_bind : MBind result := fun A B f x => Py.bind x f.

(** ** Timestamps of the home timezone

    Every timestamp of the program is attached to the one fixed zone
    Asia/Phnom_Penh (UTC+7, no daylight saving), so a timestamp is modelled
    by its civil fields in that zone. *)

Module DateTime.
Local Open Scope Z_scope.

Record datetime : Type := mkdt {
  year : Z; month : Z; day : Z;
  hour : Z; minute : Z; second : Z; microsecond : Z }.

Definition fields (d : datetime) : list Z :=
  [year d; month d; day d; hour d; minute d; second d; microsecond d].

Fixpoint lex_compare (a b : list Z) : comparison :=
  match a, b with
  | [], [] => Eq
  | [], _ :: _ => Lt
  | _ :: _, [] => Gt
  | x :: a', y :: b' =>
      match x ?= y with
      | Eq => lex_compare a' b'
      | c => c
      end
  end.

Definition compare (a b : datetime) : comparison :=
  lex_compare (fields a) (fields b).

(** [a == b], [a <= b], [a < b], [a > b] *)
Definition eqb (a b : datetime) : bool :=
  match compare a b with Eq => true | _ => false end.
Definition leb (a b : datetime) : bool :=
  match compare a b with Gt => false | _ => true end.
Definition ltb (a b : datetime) : bool :=
  match compare a b with Lt => true | _ => false end.
Definition gtb (a b : datetime) : bool := ltb b a.

Definition in_range (lo hi x : Z) : bool := (lo <=? x) && (x <=? hi).

(** The check the constructor runs on the time fields. *)
Definition check_time_fields (h mi s us : Z) : result unit :=
  if negb (in_range 0 23 h) then
    Raise (Exn ValueError "hour must be in 0..23")
  else if negb (in_range 0 59 mi) then
    Raise (Exn ValueError "minute must be in 0..59")
  else if negb (in_range 0 59 s) then
    Raise (Exn ValueError "second must be in 0..59")
  else if negb (in_range 0 999999 us) then
    Raise (Exn ValueError "microsecond must be in 0..999999")
  else Return tt.

Definition or_else (o : option Z) (d : Z) : Z :=
  match o with Some x => x | None => d end.

(** [dt.replace(hour=.., minute=.., second=.., microsecond=..)]: a new
    timestamp is built from the given fields and the remaining ones of
    [dt]; the constructor rejects a field outside its range. *)
Definition replace (dt : datetime) (h mi s us : option Z)
  : result datetime :=
  let h' := or_else h (hour dt) in
  let mi' := or_else mi (minute dt) in
  let s' := or_else s (second dt) in
  let us' := or_else us (microsecond dt) in
  _ ← check_time_fields h' mi' s' us';
  Return (mkdt (year dt) (month dt) (day dt) h' mi' s' us').

Definition is_leap (y : Z) : bool :=
  ((y mod 4 =? 0) && negb (y mod 100 =? 0)) || (y mod 400 =? 0).

Definition days_in_month (y mo : Z) : Z :=
  if mo =? 2 then (if is_leap y then 29 else 28)
  else if (mo =? 4) || (mo =? 6) || (mo =? 9) || (mo =? 11) then 30
  else 31.

Definition days_before_year (y : Z) : Z :=
  let y1 := y - 1 in y1 * 365 + y1 / 4 - y1 / 100 + y1 / 400.

Definition days_before_month (y mo : Z) : Z :=
  fold_right Z.add 0
    (map (days_in_month y) (map Z.of_nat (seq 1 (Z.to_nat (mo - 1))))).

(** [dt.toordinal()] *)
Definition toordinal (d : datetime) : Z :=
  days_before_year (year d) + days_before_month (year d) (month d) + day d.

(** Microseconds since the start of day 0 of the proleptic calendar:
    [a - b] is [to_us a - to_us b] microseconds. *)
Definition to_us (d : datetime) : Z :=
  (((toordinal d * 24 + hour d) * 60 + minute d) * 60 + second d) * 1000000
  + microsecond d.

(** A timestamp the constructor accepts. *)
Definition valid (d : datetime) : bool :=
  in_range 1 9999 (year d) && in_range 1 12 (month d)
  && in_range 1 (days_in_month (year d) (month d)) (day d)
  && in_range 0 23 (hour d) && in_range 0 59 (minute d)
  && in_range 0 59 (second d) && in_range 0 999999 (microsecond d).

(** The start of the minute of a timestamp. *)
Definition minute_start (d : datetime) : datetime :=
  mkdt (year d) (month d) (day d) (hour d) (minute d) 0 0.

(** Do two timestamps fall within the same whole minute? *)
Definition same_minute (a b : datetime) : bool :=
  eqb (minute_start a) (minute_start b).

Definition digit_char (d : Z) : ascii := ascii_of_nat (48 + Z.to_nat d).

Fixpoint dec_digits (fuel : nat) (n : Z) (acc : string) : string :=
  match fuel with
  | O => acc
  | S fuel' =>
      let acc' := String (digit_char (n mod 10)) acc in
      if n <? 10 then acc' else dec_digits fuel' (n / 10) acc'
  end.

(** [str(n)] for an integer. *)
Definition str_Z (n : Z) : string :=
  if n <? 0 then String "-" (dec_digits (S (Z.to_nat (Z.log2 (- n)))) (- n) "")
  else dec_digits (S (Z.to_nat (Z.log2 n))) n "".

Fixpoint zeros (k : nat) : string :=
  match k with O => "" | S k' => String "0" (zeros k') end.

(** The zero-padded format [%0wd] for a non-negative [n]. *)
Definition pad (w : nat) (n : Z) : string :=
  let s := str_Z n in
  (zeros (w - String.length s) ++ s)%string.

(** [dt.isoformat()] of a timestamp of the home zone at its offset of
    +07:00, the offset of every timestamp from April 1920 on; the earlier
    offsets of the zone are not modelled. *)
Definition isoformat (d : datetime) : string :=
  (pad 4 (year d) ++ "-" ++ pad 2 (month d) ++ "-" ++ pad 2 (day d) ++ "T"
   ++ pad 2 (hour d) ++ ":" ++ pad 2 (minute d) ++ ":" ++ pad 2 (second d)
   ++ (if (microsecond d =? 0)%Z then "" else "." ++ pad 6 (microsecond d))
   ++ "+07:00")%string.

End DateTime.

Abbreviation datetime := DateTime.datetime.
Abbreviation mkdt := DateTime.mkdt.

(** ** Resolving a time string (parse_send_time, parse_remind_time)

    [datetime.strptime] belongs to the Python library; the resolver is
    stated over any function of its type. *)

Class Strptime : Type :=
  strptime : string -> string -> result datetime.

Module TimeResolver.

Fixpoint lstrip (s : string) : string :=
  match s with
  | EmptyString => EmptyString
  | String c s' => if Regex.is_space c then lstrip s' else s
  end.

Fixpoint rstrip (s : string) : string :=
  match s with
  | EmptyString => EmptyString
  | String c s' =>
      match rstrip s' with
      | EmptyString => if Regex.is_space c then EmptyString
                       else String c EmptyString
      | t => String c t
      end
  end.

(** [s.strip()] *)
Definition strip (s : string) : string := rstrip (lstrip s).

(** [datetime.combine(today, time_part)] with the date of [today] and the
    time of day of [time_part]. *)
Definition combine (today time_part : datetime) : datetime :=
  mkdt (DateTime.year today) (DateTime.month today) (DateTime.day today)
       (DateTime.hour time_part) (DateTime.minute time_part)
       (DateTime.second time_part) (DateTime.microsecond time_part).

Definition formats_to_try : list string :=
  [ "%Y-%m-%d %I:%M %p"; "%Y-%m-%d %H:%M:%S"; "%m/%d/%Y %H:%M";
    "%m/%d/%Y %I:%M %p"; "%B %d, %Y %H:%M"; "%B %d, %Y %I:%M %p" ].

(** The attempts run in order: the first that returns wins, one that
    raises ValueError passes to the next, any other exception reaches the
    outer handler, which returns None. *)
Fixpoint first_parsed (attempts : list (result datetime)) : option datetime :=
  match attempts with
  | [] => None
  | Return dt :: _ => Some dt
  | Raise e :: rest =>
      if caught_by [ValueError] e then first_parsed rest else None
  end.

Section Parse.
Context `{Strptime}.

(** The body shared, word for word, by [EmailService.parse_send_time]
    and [ReminderService.parse_remind_time]; [now] is the clock reading
    taken inside the call.  A timestamp stands for the wall-clock time of
    the home zone: [self.timezone.localize] is the identity on it, and
    the overflow it raises for a date at either end of the calendar is
    not modelled. *)
Definition parse_time (now : datetime) (time_str : string)
  : option datetime :=
  if (Text.len time_str =? 0)%nat || String.eqb (Text.lower time_str) "now"
  then Some now
  else
    let time_str := strip time_str in
    first_parsed
      ((if (Text.len time_str =? 16)%nat && Text.contains " " time_str
        then [strptime time_str "%Y-%m-%d %H:%M"] else [])
       ++ (if (Text.len time_str =? 10)%nat && Text.contains "-" time_str
           then [dt ← strptime time_str "%Y-%m-%d";
                 DateTime.replace dt (Some 12%Z) None None None]
           else [])
       ++ (if Text.contains ":" time_str && (Text.len time_str <=? 5)%nat
           then [time_part ← strptime time_str "%H:%M";
                 Return (combine now time_part)]
           else [])
       ++ map (strptime time_str) formats_to_try)%list.
End Parse.

End TimeResolver.

(** ** A model of [datetime.strptime]

    Used to run the resolver on concrete time strings.  It follows the
    library for the directives of the formats above: the format becomes a
    pattern (a directive becomes its alternatives in the order the library
    lists them, a run of blanks becomes one or more blanks, any other
    character stands for itself without regard to case), the pattern is
    matched with backtracking at the start of the text, text left over
    after the match is an error, and the fields found must form a date
    and time the constructor accepts. *)

Module PyStrptime.
Local Open Scope Z_scope.

Inductive directive : Type :=
| DY | Dm | Dd | DH | DM | DS | DI | Dp | DB
| DBlank
| DLit (c : ascii).

Fixpoint skip_blanks (s : string) : string :=
  match s with
  | String c s' => if Regex.is_space c then skip_blanks s' else s
  | EmptyString => s
  end.

Fixpoint compile (fuel : nat) (fmt : string) : option (list directive) :=
  match fuel with
  | O => None
  | S fuel' =>
      match fmt with
      | EmptyString => Some []
      | String "%" (String c rest) =>
          let d :=
            if Ascii.eqb c "Y" then Some DY else if Ascii.eqb c "m" then Some Dm
            else if Ascii.eqb c "d" then Some Dd else if Ascii.eqb c "H" then Some DH
            else if Ascii.eqb c "M" then Some DM else if Ascii.eqb c "S" then Some DS
            else if Ascii.eqb c "I" then Some DI else if Ascii.eqb c "p" then Some Dp
            else if Ascii.eqb c "B" then Some DB else None in
          match d, compile fuel' rest with
          | Some d, Some ds => Some (d :: ds)
          | _, _ => None
          end
      | String c rest =>
          if Regex.is_space c then
            option_map (cons DBlank) (compile fuel' (skip_blanks rest))
          else option_map (cons (DLit c)) (compile fuel' rest)
      end
  end.

(** One alternative of a directive: a sequence of character tests. *)
Definition alternative : Type := list (ascii -> bool).

Fixpoint match_alt (a : alternative) (s : string) : option (string * string) :=
  match a with
  | [] => Some (EmptyString, s)
  | p :: a' =>
      match s with
      | String c s' =>
          if p c then
            match match_alt a' s' with
            | Some (w, rest) => Some (String c w, rest)
            | None => None
            end
          else None
      | EmptyString => None
      end
  end.

Definition ch (c : ascii) : ascii -> bool := Ascii.eqb c.
Definition rng (lo hi : ascii) : ascii -> bool :=
  Regex.between (nat_of_ascii lo) (nat_of_ascii hi).
Definition dig : ascii -> bool := Regex.is_digit.

Definition alts_d : list alternative :=
  [ [ch "3"; rng "0" "1"]; [rng "1" "2"; dig]; [ch "0"; rng "1" "9"];
    [rng "1" "9"]; [ch " "; rng "1" "9"] ].
Definition alts_H : list alternative :=
  [ [ch "2"; rng "0" "3"]; [rng "0" "1"; dig]; [dig] ].
Definition alts_I : list alternative :=
  [ [ch "1"; rng "0" "2"]; [ch "0"; rng "1" "9"]; [rng "1" "9"] ].
Definition alts_m : list alternative := alts_I.
Definition alts_M : list alternative := [ [rng "0" "5"; dig]; [dig] ].
Definition alts_S : list alternative :=
  [ [ch "6"; rng "0" "1"]; [rng "0" "5"; dig]; [dig] ].
Definition alts_Y : list alternative := [ [dig; dig; dig; dig] ].

Definition matches_of (alts : list alternative) (s : string)
  : list (string * string) :=
  omap (fun a => match_alt a s) alts.

(** [int(w)] for a run of digits, a leading blank dropped. *)
Fixpoint int_of (acc : Z) (w : string) : Z :=
  match w with
  | EmptyString => acc
  | String c w' =>
      if Regex.is_digit c
      then int_of (acc * 10 + Z.of_nat (nat_of_ascii c - 48)) w'
      else int_of acc w'
  end.

(** A word matched without regard to case. *)
Fixpoint match_word (w s : string) : option string :=
  match w with
  | EmptyString => Some s
  | String a w' =>
      match s with
      | String c s' =>
          if Ascii.eqb a (Text.lower_char c) then match_word w' s' else None
      | EmptyString => None
      end
  end.

Definition month_names : list (string * Z) :=
  [ ("september", 9); ("february", 2); ("november", 11); ("december", 12);
    ("january", 1); ("october", 10); ("august", 8); ("march", 3);
    ("april", 4); ("june", 6); ("july", 7); ("may", 5) ]%string.

(** Every way to match one or more blanks, longest first. *)
Fixpoint blank_runs (s : string) : list string :=
  match s with
  | String c s' =>
      if Regex.is_space c then (blank_runs s' ++ [s'])%list else []
  | EmptyString => []
  end.

Record found : Type := {
  fY : Z; fm : Z; fd : Z; fH : Z; fI : option Z; fM : Z; fS : Z;
  fp : option bool }.

Definition found0 : found :=
  {| fY := 1900; fm := 1; fd := 1; fH := 0; fI := None; fM := 0; fS := 0;
     fp := None |}.

Definition step (d : directive) (acc : found) (s : string)
  : list (found * string) :=
  let num (alts : list alternative) (upd : Z -> found) :=
    map (fun '(w, rest) => (upd (int_of 0 w), rest)) (matches_of alts s) in
  match d with
  | DY => num alts_Y (fun v => {| fY := v; fm := fm acc; fd := fd acc; fH := fH acc; fI := fI acc; fM := fM acc; fS := fS acc; fp := fp acc |})
  | Dm => num alts_m (fun v => {| fY := fY acc; fm := v; fd := fd acc; fH := fH acc; fI := fI acc; fM := fM acc; fS := fS acc; fp := fp acc |})
  | Dd => num alts_d (fun v => {| fY := fY acc; fm := fm acc; fd := v; fH := fH acc; fI := fI acc; fM := fM acc; fS := fS acc; fp := fp acc |})
  | DH => num alts_H (fun v => {| fY := fY acc; fm := fm acc; fd := fd acc; fH := v; fI := fI acc; fM := fM acc; fS := fS acc; fp := fp acc |})
  | DI => num alts_I (fun v => {| fY := fY acc; fm := fm acc; fd := fd acc; fH := fH acc; fI := Some v; fM := fM acc; fS := fS acc; fp := fp acc |})
  | DM => num alts_M (fun v => {| fY := fY acc; fm := fm acc; fd := fd acc; fH := fH acc; fI := fI acc; fM := v; fS := fS acc; fp := fp acc |})
  | DS => num alts_S (fun v => {| fY := fY acc; fm := fm acc; fd := fd acc; fH := fH acc; fI := fI acc; fM := fM acc; fS := v; fp := fp acc |})
  | Dp =>
      omap (fun '(w, pm) =>
              option_map (fun rest => ({| fY := fY acc; fm := fm acc; fd := fd acc; fH := fH acc; fI := fI acc; fM := fM acc; fS := fS acc; fp := Some pm |}, rest))
                         (match_word w s))
           [("am", false); ("pm", true)]%string
  | DB =>
      omap (fun '(w, v) =>
              option_map (fun rest => ({| fY := fY acc; fm := v; fd := fd acc; fH := fH acc; fI := fI acc; fM := fM acc; fS := fS acc; fp := fp acc |}, rest))
                         (match_word w s))
           month_names
  | DBlank => map (fun rest => (acc, rest)) (blank_runs s)
  | DLit c =>
      match s with
      | String c' s' =>
          if Ascii.eqb (Text.lower_char c) (Text.lower_char c')
          then [(acc, s')] else []
      | EmptyString => []
      end
  end.

(** All matches of the pattern at the start of the text, the one the
    backtracking matcher finds first at the head. *)
Fixpoint go (ds : list directive) (acc : found) (s : string)
  : list (found * string) :=
  match ds with
  | [] => [(acc, s)]
  | d :: ds' =>
      flat_map (fun '(acc', s') => go ds' acc' s') (step d acc s)
  end.

(** The hour of a 12-hour clock reading. *)
Definition hour_of (acc : found) : Z :=
  match fI acc with
  | None => fH acc
  | Some h =>
      match fp acc with
      | Some true => if h =? 12 then 12 else h + 12
      | _ => if h =? 12 then 0 else h
      end
  end.

Definition strptime_model (data format : string) : result datetime :=
  match compile (S (String.length format)) format with
  | None => Raise (Exn ValueError "bad directive in format")
  | Some ds =>
      match go ds found0 data with
      | [] => Raise (Exn ValueError "time data does not match format")
      | (acc, rest) :: _ =>
          if negb (String.eqb rest "") then
            Raise (Exn ValueError "unconverted data remains")
          else
            let dt := mkdt (fY acc) (fm acc) (fd acc) (hour_of acc)
                           (fM acc) (fS acc) 0 in
            if DateTime.valid dt then Return dt
            else Raise (Exn ValueError "field out of range")
      end
  end.

Definition cpython : Strptime := strptime_model.

End PyStrptime.

(** ** Persistence documents

    A JSON document on disk is either absent, present but failing to load
    ([open] or [json.load] raises), or present with a decoded value.  A
    Python [dict] keeps its keys in insertion order, which the scans rely
    on, so it is an association list with unique keys. *)

Module Store.

Inductive file (A : Type) : Type :=
| Absent                  (* os.path.exists is False *)
| Broken (e : exn)        (* open or json.load raises e *)
| Doc (d : A).            (* json.load returns d *)
Arguments Absent {A}.
Arguments Broken {A} e.
Arguments Doc {A} d.

(** [os.path.exists(f)] *)
Definition exists_ {A} (f : file A) : bool :=
  match f with Absent => false | _ => true end.

(** [with open(f, 'r') as h: json.load(h)] *)
Definition read {A} (f : file A) : result A :=
  match f with
  | Absent => Raise (Exn FileNotFoundError "No such file or directory")
  | Broken e => Raise e
  | Doc d => Return d
  end.

Definition dict (V : Type) : Type := list (string * V).

(** [k in d] and [d[k]] *)
Fixpoint dict_get {V} (k : string) (d : dict V) : option V :=
  match d with
  | [] => None
  | (k', v) :: d' => if String.eqb k k' then Some v else dict_get k d'
  end.

(** [d[k] = v]: an existing key keeps its place, a new key goes last. *)
Fixpoint dict_set {V} (k : string) (v : V) (d : dict V) : dict V :=
  match d with
  | [] => [(k, v)]
  | (k', v') :: d' =>
      if String.eqb k k' then (k', v) :: d' else (k', v') :: dict_set k v d'
  end.

Definition keys {V} (d : dict V) : list string := map fst d.
Definition values {V} (d : dict V) : list V := map snd d.

Inductive status : Type := Pending | Sent | Failed | Cancelled.

Definition status_eqb (a b : status) : bool :=
  match a, b with
  | Pending, Pending | Sent, Sent | Failed, Failed
  | Cancelled, Cancelled => true
  | _, _ => false
  end.

(** [list.sort(key=...)] on text keys: a stable insertion sort. *)
Section Sort.
Context {A : Type} (key : A -> string).

Fixpoint insert_sorted (x : A) (l : list A) : list A :=
  match l with
  | [] => [x]
  | y :: l' =>
      if String.leb (key x) (key y) then x :: l
      else y :: insert_sorted x l'
  end.

Definition sort_by (l : list A) : list A :=
  fold_right insert_sorted [] l.
End Sort.

(** Ascending order of the text keys. *)
Definition key_le {A : Type} (key : A -> string) (x y : A) : Prop :=
  String.leb (key x) (key y) = true.

End Store.

Import Store.

(** ** The email service (src/email_service.py) *)

Module EmailService.
Local Open Scope Z_scope.

(** The structured object the text oracle returns for an email request. *)
Record email_data : Type := {
  recipient_email : string;
  ed_subject : string;
  ed_body : string;
  send_time : string;
  ed_priority : option string }.

Record email_record : Type := {
  id : string;
  recipient : string;
  subject : string;
  body : string;
  priority : string;
  scheduled_time : datetime;
  created_time : datetime;
  status : Store.status;
  sent_time : option datetime;
  error : option string }.

Definition set_sent (r : email_record) (t : datetime) : email_record :=
  {| id := id r; recipient := recipient r; subject := subject r;
     body := body r; priority := priority r;
     scheduled_time := scheduled_time r; created_time := created_time r;
     status := Sent; sent_time := Some t; error := error r |}.

Definition set_failed (r : email_record) (msg : string) : email_record :=
  {| id := id r; recipient := recipient r; subject := subject r;
     body := body r; priority := priority r;
     scheduled_time := scheduled_time r; created_time := created_time r;
     status := Failed; sent_time := sent_time r; error := Some msg |}.

(** The outcome dictionary of [send_email_now]. *)
Record send_result : Type := { success : bool; message : string }.

(** The SMTP transport: the outcome of the [n]-th transaction of the
    process, given recipient, subject and body. *)
Definition transport : Type :=
  nat -> string -> string -> string -> result unit.

(** The transactions attempted so far. *)
Definition smtp_log : Type := list (string * string * string).

Definition send_email_now (available : bool) (smtp : transport)
           (log : smtp_log) (recipient subject body : string)
  : send_result * smtp_log :=
  if negb available then
    ({| success := false;
        message := "Email service not configured or disabled" |}, log)
  else
    let log' := (log ++ [(recipient, subject, body)])%list in
    match smtp (List.length log) recipient subject body with
    | Return _ =>
        ({| success := true;
            message := "Email sent successfully to " ++ recipient |}, log')
    | Raise e =>
        ({| success := false;
            message := "Failed to send email: " ++ exn_msg e |}, log')
    end.

(** [parse_send_time] *)
Definition parse_send_time `{Strptime} (now : datetime)
           (send_time_str : string) : option datetime :=
  TimeResolver.parse_time now send_time_str.

(** [load_pending_emails] *)
Definition load_pending_emails (f : file (dict email_record))
  : result (dict email_record) :=
  if exists_ f then
    try_except (read f) [JSONDecodeError; FileNotFoundError]
      (fun _ => Return [])
  else Return [].

(** [int(datetime.now().timestamp())] for a clock reading given in
    microseconds since the epoch. *)
Definition int_timestamp (now_us : Z) : Z := Z.quot now_us 1000000.

(** [save_pending_email]: [now_us] is the clock reading the id is made
    from, [created] the one recorded as creation time. *)
Definition save_pending_email (data : email_data) (scheduled : datetime)
           (now_us : Z) (created : datetime) (f : file (dict email_record))
  : result (string * file (dict email_record)) :=
  let email_id := "email_" ++ DateTime.str_Z (int_timestamp now_us) in
  let email_record :=
    {| id := email_id;
       recipient := recipient_email data;
       subject := ed_subject data;
       body := ed_body data;
       priority := match ed_priority data with
                   | Some p => p | None => "normal" end;
       scheduled_time := scheduled;
       created_time := created;
       status := Pending;
       sent_time := None;
       error := None |} in
  pending_emails ← load_pending_emails f;
  Return (email_id, Doc (dict_set email_id email_record pending_emails)).

(** [get_pending_emails] *)
Definition get_pending_emails (f : file (dict email_record))
  : result (list email_record) :=
  pending_emails ← load_pending_emails f;
  let pending_list :=
    List.filter (fun e => status_eqb (status e) Pending) (values pending_emails) in
  Return (sort_by (fun x => DateTime.isoformat (scheduled_time x)) pending_list).

(** One entry of the list [check_and_send_scheduled_emails] returns. *)
Record sent_email : Type := {
  se_email_id : string;
  se_recipient : string;
  se_subject : string;
  se_result : send_result }.

(** An item the scan acts on: still pending, and due at the reading of the
    clock. *)
Definition due (current_time : datetime) (kv : string * email_record) : bool :=
  status_eqb (status (snd kv)) Pending
  && DateTime.leb (scheduled_time (snd kv)) current_time.

(** The SMTP transaction an item calls for. *)
Definition transaction (kv : string * email_record)
  : string * string * string :=
  (recipient (snd kv), subject (snd kv), body (snd kv)).

(** The loop of [check_and_send_scheduled_emails] over the items of the
    document, in the order of the document. *)
Fixpoint scan (available : bool) (smtp : transport) (current_time : datetime)
         (items : dict email_record) (log : smtp_log)
  : dict email_record * list sent_email * smtp_log :=
  match items with
  | [] => ([], [], log)
  | (email_id, email) :: rest =>
      if negb (status_eqb (status email) Pending) then
        let '(rest', sent, log') :=
          scan available smtp current_time rest log in
        ((email_id, email) :: rest', sent, log')
      else if DateTime.leb (scheduled_time email) current_time then
        let '(result, log1) :=
          send_email_now available smtp log
            (recipient email) (subject email) (body email) in
        let email' :=
          if success result then set_sent email current_time
          else set_failed email (message result) in
        let '(rest', sent, log') :=
          scan available smtp current_time rest log1 in
        ((email_id, email') :: rest',
         {| se_email_id := email_id; se_recipient := recipient email;
            se_subject := subject email; se_result := result |} :: sent,
         log')
      else
        let '(rest', sent, log') :=
          scan available smtp current_time rest log in
        ((email_id, email) :: rest', sent, log')
  end.

(** [check_and_send_scheduled_emails]: the returned list, the document
    after the scan and the transport log after it. *)
Definition check_and_send_scheduled_emails
           (available : bool) (smtp : transport) (current_time : datetime)
           (f : file (dict email_record)) (log : smtp_log)
  : result (list sent_email) * file (dict email_record) * smtp_log :=
  if negb available then (Return [], f, log)
  else
    match load_pending_emails f with
    | Raise e => (Raise e, f, log)
    | Return pending_emails =>
        let '(pending', sent_emails, log') :=
          scan available smtp current_time pending_emails log in
        match sent_emails with
        | [] => (Return sent_emails, f, log')
        | _ :: _ => (Return sent_emails, Doc pending', log')
        end
    end.

End EmailService.

(** ** The reminder service (src/reminder_service.py) and its scheduled
    task (src/handlers/scheduled_tasks.py) *)

Module ReminderService.
Local Open Scope Z_scope.

(** The structured object the text oracle returns for a reminder. *)
Record reminder_data : Type := {
  rd_reminder_text : string;
  remind_time : string;
  rd_priority : option string }.

Record reminder_record : Type := {
  id : string;
  reminder_text : string;
  priority : string;
  scheduled_time : datetime;
  created_time : datetime;
  status : Store.status;
  sent_time : option datetime }.

Definition set_sent (r : reminder_record) (t : datetime) : reminder_record :=
  {| id := id r; reminder_text := reminder_text r; priority := priority r;
     scheduled_time := scheduled_time r; created_time := created_time r;
     status := Sent; sent_time := Some t |}.

(** [parse_remind_time] *)
Definition parse_remind_time `{Strptime} (now : datetime)
           (remind_time_str : string) : option datetime :=
  TimeResolver.parse_time now remind_time_str.

(** [load_pending_reminders] *)
Definition load_pending_reminders (f : file (dict reminder_record))
  : result (dict reminder_record) :=
  if exists_ f then
    try_except (read f) [JSONDecodeError; FileNotFoundError]
      (fun _ => Return [])
  else Return [].

(** [save_pending_reminder]: [now_us] is the clock reading the id is made
    from, [created] the one recorded as creation time. *)
Definition save_pending_reminder (data : reminder_data) (scheduled : datetime)
           (now_us : Z) (created : datetime)
           (f : file (dict reminder_record))
  : result (string * file (dict reminder_record)) :=
  let reminder_id :=
    "reminder_" ++ DateTime.str_Z (EmailService.int_timestamp now_us) in
  let reminder_record :=
    {| id := reminder_id;
       reminder_text := rd_reminder_text data;
       priority := match rd_priority data with
                   | Some p => p | None => "normal" end;
       scheduled_time := scheduled;
       created_time := created;
       status := Pending;
       sent_time := None |} in
  pending_reminders ← load_pending_reminders f;
  Return (reminder_id,
          Doc (dict_set reminder_id reminder_record pending_reminders)).

(** [get_pending_reminders] *)
Definition get_pending_reminders (f : file (dict reminder_record))
  : result (list reminder_record) :=
  pending_reminders ← load_pending_reminders f;
  let pending_list :=
    List.filter (fun r => status_eqb (status r) Pending)
           (values pending_reminders) in
  Return (sort_by (fun x => DateTime.isoformat (scheduled_time x))
                  pending_list).

(** One entry of the list [check_and_send_scheduled_reminders] returns. *)
Record due_reminder : Type := {
  dr_reminder_id : string;
  dr_reminder_text : string;
  dr_priority : string;
  dr_scheduled_time : datetime }.

(** An item the scan acts on: still pending, and due at the reading of the
    clock. *)
Definition due (current_time : datetime) (kv : string * reminder_record)
  : bool :=
  status_eqb (status (snd kv)) Pending
  && DateTime.leb (scheduled_time (snd kv)) current_time.

(** The loop of [check_and_send_scheduled_reminders]: every pending item
    that is due is marked sent and collected. *)
Fixpoint scan (current_time : datetime) (items : dict reminder_record)
  : dict reminder_record * list due_reminder :=
  match items with
  | [] => ([], [])
  | (reminder_id, reminder) :: rest =>
      let '(rest', due) := scan current_time rest in
      if negb (status_eqb (status reminder) Pending) then
        ((reminder_id, reminder) :: rest', due)
      else if DateTime.leb (scheduled_time reminder) current_time then
        ((reminder_id, set_sent reminder current_time) :: rest',
         {| dr_reminder_id := reminder_id;
            dr_reminder_text := reminder_text reminder;
            dr_priority := priority reminder;
            dr_scheduled_time := scheduled_time reminder |} :: due)
      else ((reminder_id, reminder) :: rest', due)
  end.

(** [check_and_send_scheduled_reminders] *)
Definition check_and_send_scheduled_reminders (current_time : datetime)
           (f : file (dict reminder_record))
  : result (list due_reminder) * file (dict reminder_record) :=
  match load_pending_reminders f with
  | Raise e => (Raise e, f)
  | Return pending_reminders =>
      let '(pending', reminders_to_send) :=
        scan current_time pending_reminders in
      match reminders_to_send with
      | [] => (Return reminders_to_send, f)
      | _ :: _ => (Return reminders_to_send, Doc pending')
      end
  end.

Definition seven_days_us : Z := 7 * 86400 * 1000000.

(** [cleanup_old_reminders(days_old=7)]: sent and cancelled items created
    before the cutoff leave the document. *)
Definition cleanup_old_reminders (now : datetime)
           (f : file (dict reminder_record))
  : result (file (dict reminder_record)) :=
  pending_reminders ← load_pending_reminders f;
  let old (kv : string * reminder_record) : bool :=
    (status_eqb (status (snd kv)) Sent
     || status_eqb (status (snd kv)) Cancelled)
    && (DateTime.to_us (created_time (snd kv))
        <? DateTime.to_us now - seven_days_us) in
  match List.filter old pending_reminders with
  | [] => Return f
  | _ :: _ => Return (Doc (List.filter (fun kv => negb (old kv)) pending_reminders))
  end.

(** The Telegram channel: the outcome of the [n]-th [send_message] of the
    process, for the reminder text it carries. *)
Definition channel : Type := nat -> string -> result unit.

(** The deliveries attempted so far: the id of the reminder and whether
    [send_message] returned. *)
Definition channel_log : Type := list (string * bool).

(** [if not USER_CHAT_ID] is taken for None and for 0. *)
Definition chat_id_set (user_chat_id : option Z) : bool :=
  match user_chat_id with
  | Some c => negb (c =? 0)
  | None => false
  end.

(** The delivery loop of [send_scheduled_reminders]; an exception of one
    delivery is logged and the loop goes on. *)
Fixpoint deliver (telegram : channel) (reminders : list due_reminder)
         (log : channel_log) : channel_log :=
  match reminders with
  | [] => log
  | reminder :: rest =>
      let ok := negb (raised (telegram (List.length log)
                                       (dr_reminder_text reminder))) in
      deliver telegram rest (log ++ [(dr_reminder_id reminder, ok)])%list
  end.

(** [send_scheduled_reminders]: one tick of the reminder scan.
    [current_time] is the clock reading of the scan, [cleanup_time] the
    one of the cleanup. *)
Definition send_scheduled_reminders (user_chat_id : option Z)
           (telegram : channel) (current_time cleanup_time : datetime)
           (f : file (dict reminder_record)) (log : channel_log)
  : file (dict reminder_record) * channel_log :=
  if negb (chat_id_set user_chat_id) then (f, log)
  else
    match check_and_send_scheduled_reminders current_time f with
    | (Raise _, f1) => (f1, log)
    | (Return reminders_to_send, f1) =>
        let log' := deliver telegram reminders_to_send log in
        match reminders_to_send with
        | [] => (f1, log')
        | _ :: _ =>
            match cleanup_old_reminders cleanup_time f1 with
            | Return f2 => (f2, log')
            | Raise _ => (f1, log')
            end
        end
    end.

End ReminderService.

(** ** Calendar reminders (src/calendar_handler.py) and their scheduled
    task (src/handlers/scheduled_tasks.py) *)

Module CalendarHandler.
Local Open Scope Z_scope.

(** The part of the state of the handler object that the reminder scan
    reads and writes. *)
Record handler : Type := {
  is_authenticated : bool;
  sent_reminders : gset string }.

(** An event of the calendar listing, its start already converted to a
    timestamp of the home zone. *)
Record event : Type := {
  ev_id : string;
  summary : option string;
  description : option string;
  location : option string;
  event_datetime : datetime;
  is_all_day : bool }.

Inductive reminder_type : Type := before | at_time.


Record event_info : Type := {
  ei_id : string;
  title : string;
  ei_start_datetime : datetime;
  ei_reminder_type : reminder_type;
  reminder_id : string;
  minutes_until : Z }.

Definition before_reminder_id (event_id : string) (minutes_before : Z)
  : string :=
  event_id ++ "_before_" ++ DateTime.str_Z minutes_before.

Definition at_time_reminder_id (event_id : string) : string :=
  event_id ++ "_at_time".

Definition minute_us : Z := 60 * 1000000.

(** [load_sent_reminders]: the set of the listed identifiers when the
    document exists, the empty set otherwise. *)
Definition load_sent_reminders (f : file (list string))
  : result (gset string) :=
  if exists_ f then
    l ← read f;
    Return (list_to_set l)
  else Return ∅.

(** The body of the loop of [get_events_needing_reminders] for one
    event.  The source compares the float
    [(event_datetime - now).total_seconds() / 60] with whole minutes;
    the comparisons are taken on the exact microsecond difference. *)
Definition needs_reminder (sent : gset string) (now : datetime)
           (minutes_before : Z) (at_event_time : bool) (ev : event)
  : option event_info :=
  if DateTime.leb (event_datetime ev) now then None
  else
    let delta_us :=
      DateTime.to_us (event_datetime ev) - DateTime.to_us now in
    let before_reminder_id := before_reminder_id (ev_id ev) minutes_before in
    let at_time_reminder_id := at_time_reminder_id (ev_id ev) in
    let info (ty : reminder_type) (rid : string) :=
      {| ei_id := ev_id ev;
         title := match summary ev with
                  | Some t => t | None => "Untitled Event" end;
         ei_start_datetime := event_datetime ev;
         ei_reminder_type := ty;
         reminder_id := rid;
         minutes_until := Z.quot delta_us minute_us |} in
    if (minutes_before * minute_us <=? delta_us)
       && (delta_us <=? (minutes_before + 5) * minute_us)
       && negb (bool_decide (before_reminder_id ∈ sent))
    then Some (info before before_reminder_id)
    else if at_event_time
            && (0 <=? delta_us) && (delta_us <=? 5 * minute_us)
            && negb (bool_decide (at_time_reminder_id ∈ sent))
    then Some (info at_time at_time_reminder_id)
    else None.

(** [get_events_needing_reminders]; [listing] is what the calendar API
    answers for the next hour. *)
Definition get_events_needing_reminders (h : handler) (now : datetime)
           (minutes_before : Z) (at_event_time : bool)
           (listing : result (list event)) : list event_info :=
  if negb (is_authenticated h) then []
  else
    match listing with
    | Raise _ => []
    | Return events =>
        omap (needs_reminder (sent_reminders h) now minutes_before
                             at_event_time) events
    end.

(** [mark_reminder_sent] *)
Definition mark_reminder_sent (h : handler) (rid : string) : handler :=
  {| is_authenticated := is_authenticated h;
     sent_reminders := {[ rid ]} ∪ sent_reminders h |}.

(** [cleanup_old_reminders]: the whole set is dropped once it holds more
    than 1000 identifiers. *)
Definition cleanup_old_reminders (h : handler) : handler :=
  if (1000 <? Z.of_nat (size (sent_reminders h))) then
    {| is_authenticated := is_authenticated h; sent_reminders := ∅ |}
  else h.

(** The Telegram channel: the outcome of the [n]-th [send_message] of
    the ticks, for the reminder it carries. *)
Definition channel : Type := nat -> event_info -> result unit.

(** One entry per invocation of the format-and-send step: the event, the
    reminder class and whether [send_message] returned. *)
Definition send_log : Type := list (string * reminder_type * bool).

(** The loop of [send_calendar_reminders]: format, send, then mark; an
    exception of the send skips the mark and the loop goes on. *)
Fixpoint send_each (telegram : channel) (events : list event_info)
         (h : handler) (log : send_log) : handler * send_log :=
  match events with
  | [] => (h, log)
  | ev :: rest =>
      match telegram (List.length log) ev with
      | Return _ =>
          send_each telegram rest (mark_reminder_sent h (reminder_id ev))
                    (log ++ [(ei_id ev, ei_reminder_type ev, true)])%list
      | Raise _ =>
          send_each telegram rest h
                    (log ++ [(ei_id ev, ei_reminder_type ev, false)])%list
      end
  end.

(** What one tick reads from outside: the chat id registered at that
    moment, the clock and the answer of the calendar API. *)
Record tick_input : Type := {
  user_chat_id : option Z;
  now : datetime;
  listing : result (list event) }.

(** [send_calendar_reminders]: one tick of the calendar-reminder scan. *)
Definition send_calendar_reminders
           (minutes_before : Z) (at_event_time : bool)
           (telegram : channel) (t : tick_input)
           (h : handler) (log : send_log) : handler * send_log :=
  if negb (ReminderService.chat_id_set (user_chat_id t)) then (h, log)
  else if negb (is_authenticated h) then (h, log)
  else
    let events_needing_reminders :=
      get_events_needing_reminders h (now t) minutes_before at_event_time
                                   (listing t) in
    let '(h', log') := send_each telegram events_needing_reminders h log in
    match events_needing_reminders with
    | [] => (h', log')
    | _ :: _ => (cleanup_old_reminders h', log')
    end.








(** A sequence of ticks. *)
Fixpoint run (minutes_before : Z) (at_event_time : bool)
         (telegram : channel) (ticks : list tick_input)
         (h : handler) (log : send_log) : handler * send_log :=
  match ticks with
  | [] => (h, log)
  | t :: rest =>
      let '(h', log') :=
        send_calendar_reminders minutes_before at_event_time
                                telegram t h log in
      run minutes_before at_event_time telegram rest h' log'
  end.



End CalendarHandler.

(** ** Deciding between scheduling and immediate execution
    (src/ai_handler.py, execute_email_action and execute_reminder_action) *)

Module Dispatcher.
Local Open Scope Z_scope.
Import Classifier.

(** The block both [execute_email_action] (lines 519-538) and
    [execute_reminder_action] (lines 741-760) run on the parsed time:
    the same-minute adjustment, then the comparison with the current
    time.  [Some t] is the decision to schedule at [t], [None] the
    decision to act at once. *)
Definition schedule_or_send (send_time : option datetime)
           (current_time : datetime) : result (option datetime) :=
  match send_time with
  | Some send_time =>
      current_minute ←
        DateTime.replace current_time None None (Some 0) (Some 0);
      scheduled_minute ←
        DateTime.replace send_time None None (Some 0) (Some 0);
      send_time ←
        (if DateTime.eqb scheduled_minute current_minute then
           DateTime.replace send_time None
             (Some (DateTime.minute send_time + 1)) (Some 0) (Some 0)
         else Return send_time);
      if DateTime.gtb send_time current_time then Return (Some send_time)
      else Return None
  | None => Return None
  end.

(** The time string is handed to the parser only when it is non-empty
    and not the word now. *)
Definition requested_time (parser : string -> option datetime)
           (time_str : string) : option datetime :=
  if negb (Text.len time_str =? 0)%nat
     && negb (String.eqb (Text.lower time_str) "now")
  then parser time_str
  else None.

Inductive email_reply : Type :=
| EmailNotConfigured
| EmailCouldNotParse
| EmailScheduled (email_id : string) (send_time : datetime)
| EmailSent
| EmailFailed (message : string)
| EmailUnknownAction
| EmailError (message : string).

(** The clock readings of one dispatch. *)
Record clock : Type := {
  parse_now : datetime;     (* inside the time parser *)
  current_time : datetime;  (* the reference time of the decision *)
  id_now_us : Z;            (* the reading the item id is made from *)
  created_now : datetime }. (* the reading stored as creation time *)

Definition execute_email_action `{Strptime}
           (available : bool)
           (parse_email_request : string -> option EmailService.email_data)
           (smtp : EmailService.transport) (clk : clock)
           (action_info : option email_action) (user_message : string)
           (f : file (dict EmailService.email_record))
           (log : EmailService.smtp_log)
  : email_reply * file (dict EmailService.email_record)
    * EmailService.smtp_log :=
  if negb available then (EmailNotConfigured, f, log)
  else
    match action_info with
    | Some (ActSendEmail _) =>
        match parse_email_request user_message with
        | None => (EmailCouldNotParse, f, log)
        | Some email_data =>
            let send_time :=
              requested_time (EmailService.parse_send_time (parse_now clk))
                             (EmailService.send_time email_data) in
            match schedule_or_send send_time (current_time clk) with
            | Raise e =>
                (EmailError ("Error performing email action: " ++ exn_msg e),
                 f, log)
            | Return (Some send_time) =>
                match EmailService.save_pending_email email_data send_time
                        (id_now_us clk) (created_now clk) f with
                | Raise e =>
                    (EmailError
                       ("Error performing email action: " ++ exn_msg e),
                     f, log)
                | Return (email_id, f') =>
                    (EmailScheduled email_id send_time, f', log)
                end
            | Return None =>
                let '(result, log') :=
                  EmailService.send_email_now available smtp log
                    (EmailService.recipient_email email_data)
                    (EmailService.ed_subject email_data)
                    (EmailService.ed_body email_data) in
                if EmailService.success result then (EmailSent, f, log')
                else (EmailFailed (EmailService.message result), f, log')
            end
        end
    | None => (EmailUnknownAction, f, log)
    end.

Inductive reminder_reply : Type :=
| ReminderCouldNotParse
| ReminderSet (reminder_id : string) (remind_time : datetime)
| ReminderImmediate (reminder_text : string)
| ReminderUnknownAction
| ReminderError (message : string).

Definition execute_reminder_action `{Strptime}
           (parse_reminder_request :
              string -> option ReminderService.reminder_data)
           (clk : clock)
           (action_info : option reminder_action) (user_message : string)
           (f : file (dict ReminderService.reminder_record))
  : reminder_reply * file (dict ReminderService.reminder_record) :=
  match action_info with
  | Some (ActSetReminder _) =>
      match parse_reminder_request user_message with
      | None => (ReminderCouldNotParse, f)
      | Some reminder_data =>
          let remind_time :=
            requested_time
              (ReminderService.parse_remind_time (parse_now clk))
              (ReminderService.remind_time reminder_data) in
          match schedule_or_send remind_time (current_time clk) with
          | Raise e =>
              (ReminderError ("Error setting reminder: " ++ exn_msg e), f)
          | Return (Some remind_time) =>
              match ReminderService.save_pending_reminder reminder_data
                      remind_time (id_now_us clk) (created_now clk) f with
              | Raise e =>
                  (ReminderError ("Error setting reminder: " ++ exn_msg e),
                   f)
              | Return (reminder_id, f') =>
                  (ReminderSet reminder_id remind_time, f')
              end
          | Return None =>
              (ReminderImmediate
                 (ReminderService.rd_reminder_text reminder_data), f)
          end
      end
  | None => (ReminderUnknownAction, f)
  end.

(** The calendar collaborator: what each call answers. *)
Record meeting_details : Type := {
  md_title : string; md_date : string; md_start_time : string;
  md_end_time : string; md_description : string;
  md_attendees : list string }.

Record calendar_api : Type := {
  clear_all_events : result string;
  delete_events_by_title : string -> result string;
  parse_meeting_request : string -> result (option meeting_details);
  create_calendar_event : meeting_details -> result string }.

(** The calls made to the calendar collaborator, oldest first. *)
Inductive calendar_call : Type :=
| CallClearAllEvents
| CallDeleteEventsByTitle (pattern : string)
| CallParseMeetingRequest (user_message : string)
| CallCreateCalendarEvent (details : meeting_details).

Inductive calendar_reply : Type :=
| CalendarNotAvailable
| CalendarCleared (result : string)
| CalendarConfirmClearAll
| CalendarEventsDeleted (result : string)
| CalendarSpecifyWhatToDelete
| CalendarEventCreated (result : string)
| CalendarCouldNotUnderstand
| CalendarUnknownAction
| CalendarError (message : string).

Definition calendar_error (e : exn) : calendar_reply :=
  CalendarError ("Error performing calendar action: " ++ exn_msg e).

(** [execute_calendar_action]; [calendar_handler] is the handler injected
    into the AI handler, None before the injection. *)
Definition execute_calendar_action (api : calendar_api)
           (calendar_handler : option CalendarHandler.handler)
           (action_info : option calendar_action) (user_message : string)
           (calls : list calendar_call)
  : calendar_reply * list calendar_call :=
  let available :=
    match calendar_handler with
    | Some h => CalendarHandler.is_authenticated h
    | None => false
    end in
  if negb available then (CalendarNotAvailable, calls)
  else
    match action_info with
    | Some (CalClearAll confirmed) =>
        if confirmed then
          let calls' := (calls ++ [CallClearAllEvents])%list in
          match clear_all_events api with
          | Return r => (CalendarCleared r, calls')
          | Raise e => (calendar_error e, calls')
          end
        else (CalendarConfirmClearAll, calls)
    | Some (CalDeletePattern pattern) =>
        if negb (Text.len pattern =? 0)%nat then
          let calls' := (calls ++ [CallDeleteEventsByTitle pattern])%list in
          match delete_events_by_title api pattern with
          | Return r => (CalendarEventsDeleted r, calls')
          | Raise e => (calendar_error e, calls')
          end
        else (CalendarSpecifyWhatToDelete, calls)
    | Some CalCreate =>
        let calls1 := (calls ++ [CallParseMeetingRequest user_message])%list in
        match parse_meeting_request api user_message with
        | Return (Some details) =>
            let calls2 := (calls1 ++ [CallCreateCalendarEvent details])%list in
            match create_calendar_event api details with
            | Return r => (CalendarEventCreated r, calls2)
            | Raise e => (calendar_error e, calls2)
            end
        | Return None => (CalendarCouldNotUnderstand, calls1)
        | Raise e => (calendar_error e, calls1)
        end
    | None => (CalendarUnknownAction, calls)
    end.

(** The calendar branch of [handle_message]: detection runs only with
    an authenticated handler, and a detected action is executed at
    once.  The handler the AI handler holds is the handler of the
    calendar commands, injected by [start_bot] before polling begins. *)
Definition handle_calendar (api : calendar_api)
           (calendar_handler : CalendarHandler.handler)
           (user_message : string) (calls : list calendar_call)
  : option (calendar_action * calendar_reply * list calendar_call) :=
  if CalendarHandler.is_authenticated calendar_handler then
    match detect_calendar_action user_message with
    | Some calendar_action =>
        let '(reply, calls') :=
          execute_calendar_action api (Some calendar_handler)
            (Some calendar_action) user_message calls in
        Some (calendar_action, reply, calls')
    | None => None
    end
  else None.

End Dispatcher.

(** ** What a scan leaves in the document *)

Module Marks.

(** How the email scan at [now] relates an item to the item left in its
    place, [log'] being the transport log after the scan: an item the
    scan acts on was handed to the transport in some transaction [n] and
    is marked by the outcome of that transaction; any other item is left
    as it was. *)
Definition email_marked (smtp : EmailService.transport) (now : datetime)
           (log' : EmailService.smtp_log)
           (kv kv' : string * EmailService.email_record) : Prop :=
  fst kv' = fst kv
  /\ if EmailService.due now kv then
       exists n,
         log' !! n = Some (EmailService.transaction kv)
         /\ EmailService.status (snd kv')
            = if raised (smtp n (EmailService.recipient (snd kv))
                              (EmailService.subject (snd kv))
                              (EmailService.body (snd kv)))
              then Failed else Sent
     else kv' = kv.



(** How the reminder scan at [now] relates an item to the item left in
    its place. *)
Definition reminder_marked (now : datetime)
           (kv kv' : string * ReminderService.reminder_record) : Prop :=
  fst kv' = fst kv
  /\ if ReminderService.due now kv then
       ReminderService.status (snd kv') = Sent
     else kv' = kv.

End Marks.

(** ** Sample collaborators and inputs

    The concrete values the examples below are run on. *)

Module Samples.

Definition api : Dispatcher.calendar_api :=
  {| Dispatcher.clear_all_events := Return "Deleted 3 events";
     Dispatcher.delete_events_by_title := fun _ => Return "Deleted 0 events";
     Dispatcher.parse_meeting_request := fun _ => Return None;
     Dispatcher.create_calendar_event := fun _ => Return "created" |}.

Definition authenticated : CalendarHandler.handler :=
  {| CalendarHandler.is_authenticated := true;
     CalendarHandler.sent_reminders := ∅ |}.

(** An SMTP transport that delivers everything. *)
Definition smtp_ok : EmailService.transport := fun _ _ _ _ => Return tt.

(** An SMTP transport that refuses everything. *)
Definition smtp_down : EmailService.transport :=
  fun _ _ _ _ => Raise (Exn OSError "Connection refused").

(** The text oracle answering an email request with a given send time. *)
Definition email_oracle (send_time : string)
  : string -> option EmailService.email_data :=
  fun _ =>
    Some {| EmailService.recipient_email := "bob@example.com";
            EmailService.ed_subject := "Hello";
            EmailService.ed_body := "See you soon";
            EmailService.send_time := send_time;
            EmailService.ed_priority := None |}.

(** The text oracle answering a reminder request with a given time. *)
Definition reminder_oracle (remind_time : string)
  : string -> option ReminderService.reminder_data :=
  fun _ =>
    Some {| ReminderService.rd_reminder_text := "call mom";
            ReminderService.remind_time := remind_time;
            ReminderService.rd_priority := None |}.

(** A dispatch at 14:59:30 on 15 January 2024. *)
Definition clock_1459 : Dispatcher.clock :=
  {| Dispatcher.parse_now := mkdt 2024 1 15 14 59 30 0;
     Dispatcher.current_time := mkdt 2024 1 15 14 59 30 250000;
     Dispatcher.id_now_us := 1705305570500000;
     Dispatcher.created_now := mkdt 2024 1 15 14 59 30 500000 |}.

(** A dispatch at 14:30:30 on 15 January 2024. *)
Definition clock_1430 : Dispatcher.clock :=
  {| Dispatcher.parse_now := mkdt 2024 1 15 14 30 30 0;
     Dispatcher.current_time := mkdt 2024 1 15 14 30 30 250000;
     Dispatcher.id_now_us := 1705303830500000;
     Dispatcher.created_now := mkdt 2024 1 15 14 30 30 500000 |}.

Definition email_for (recipient subject : string) : EmailService.email_data :=
  {| EmailService.recipient_email := recipient;
     EmailService.ed_subject := subject;
     EmailService.ed_body := "See you soon";
     EmailService.send_time := "2024-01-15 16:00";
     EmailService.ed_priority := None |}.


Definition telegram_ok : ReminderService.channel := fun _ _ => Return tt.

(** A pending-emails document written by two inserts: first an email for
    10:00, a minute later an email for 09:00. *)
Definition out_of_order : dict EmailService.email_record :=
      [ ("email_1705280400",
         {| EmailService.id := "email_1705280400";
            EmailService.recipient := "ten@example.com";
            EmailService.subject := "At ten";
            EmailService.body := "See you soon";
            EmailService.priority := "normal";
            EmailService.scheduled_time := mkdt 2024 1 15 10 0 0 0;
            EmailService.created_time := mkdt 2024 1 15 8 0 0 0;
            EmailService.status := Pending;
            EmailService.sent_time := None;
            EmailService.error := None |});
        ("email_1705280460",
         {| EmailService.id := "email_1705280460";
            EmailService.recipient := "nine@example.com";
            EmailService.subject := "At nine";
            EmailService.body := "See you soon";
            EmailService.priority := "normal";
            EmailService.scheduled_time := mkdt 2024 1 15 9 0 0 0;
            EmailService.created_time := mkdt 2024 1 15 8 1 0 0;
            EmailService.status := Pending;
            EmailService.sent_time := None;
            EmailService.error := None |}) ].

(** A pending-reminders document with one reminder for 14:00. *)
Definition one_reminder : dict ReminderService.reminder_record :=
      [ ("reminder_1705298400",
         {| ReminderService.id := "reminder_1705298400";
            ReminderService.reminder_text := "call mom";
            ReminderService.priority := "normal";
            ReminderService.scheduled_time := mkdt 2024 1 15 14 0 0 0;
            ReminderService.created_time := mkdt 2024 1 15 13 0 0 0;
            ReminderService.status := Pending;
            ReminderService.sent_time := None |}) ].

(** A lecture at 14:15. *)
Definition lecture : CalendarHandler.event :=
  {| CalendarHandler.ev_id := "evt1";
     CalendarHandler.summary := Some "Lecture";
     CalendarHandler.description := None;
     CalendarHandler.location := None;
     CalendarHandler.event_datetime := mkdt 2024 1 15 14 15 0 0;
     CalendarHandler.is_all_day := false |}.

(** The ticks of 13:55 and 14:00, both told about the lecture. *)
Definition two_ticks : list CalendarHandler.tick_input :=
  [ {| CalendarHandler.user_chat_id := Some 42%Z;
       CalendarHandler.now := mkdt 2024 1 15 13 55 0 0;
       CalendarHandler.listing := Return [lecture] |};
    {| CalendarHandler.user_chat_id := Some 42%Z;
       CalendarHandler.now := mkdt 2024 1 15 14 0 0 0;
       CalendarHandler.listing := Return [lecture] |} ].


Definition always_delivers : CalendarHandler.channel := fun _ _ => Return tt.


End Samples.

(** ** Cancelling and purging deferred items
    (src/email_service.py, src/reminder_service.py) *)

Module Purge.
Local Open Scope Z_scope.

(** [del d[k]] *)
Definition dict_del {V} (k : string) (d : dict V) : dict V :=
  List.filter (fun kv => negb (String.eqb k (fst kv))) d.

Definition cancelled_email (r : EmailService.email_record)
  : EmailService.email_record :=
  {| EmailService.id := EmailService.id r;
     EmailService.recipient := EmailService.recipient r;
     EmailService.subject := EmailService.subject r;
     EmailService.body := EmailService.body r;
     EmailService.priority := EmailService.priority r;
     EmailService.scheduled_time := EmailService.scheduled_time r;
     EmailService.created_time := EmailService.created_time r;
     EmailService.status := Cancelled;
     EmailService.sent_time := EmailService.sent_time r;
     EmailService.error := EmailService.error r |}.

(** [EmailService.cancel_pending_email]: the answer and the document
    after the call. *)
Definition cancel_pending_email (email_id : string)
           (f : file (dict EmailService.email_record))
  : result (bool * file (dict EmailService.email_record)) :=
  pending_emails ← EmailService.load_pending_emails f;
  match dict_get email_id pending_emails with
  | Some r =>
      if status_eqb (EmailService.status r) Pending then
        Return (true,
                Doc (dict_set email_id (cancelled_email r) pending_emails))
      else Return (false, f)
  | None => Return (false, f)
  end.

Definition cancelled_reminder (r : ReminderService.reminder_record)
  : ReminderService.reminder_record :=
  {| ReminderService.id := ReminderService.id r;
     ReminderService.reminder_text := ReminderService.reminder_text r;
     ReminderService.priority := ReminderService.priority r;
     ReminderService.scheduled_time := ReminderService.scheduled_time r;
     ReminderService.created_time := ReminderService.created_time r;
     ReminderService.status := Cancelled;
     ReminderService.sent_time := ReminderService.sent_time r |}.

(** [ReminderService.cancel_pending_reminder] *)
Definition cancel_pending_reminder (reminder_id : string)
           (f : file (dict ReminderService.reminder_record))
  : result (bool * file (dict ReminderService.reminder_record)) :=
  pending_reminders ← ReminderService.load_pending_reminders f;
  match dict_get reminder_id pending_reminders with
  | Some r =>
      if status_eqb (ReminderService.status r) Pending then
        Return (true,
                Doc (dict_set reminder_id (cancelled_reminder r)
                              pending_reminders))
      else Return (false, f)
  | None => Return (false, f)
  end.

(** An email the purge removes: sent, failed or cancelled, and created
    before the cutoff [now - days_old]. *)
Definition old_email (days_old : Z) (now : datetime)
           (kv : string * EmailService.email_record) : bool :=
  (status_eqb (EmailService.status (snd kv)) Sent
   || status_eqb (EmailService.status (snd kv)) Failed
   || status_eqb (EmailService.status (snd kv)) Cancelled)
  && (DateTime.to_us (EmailService.created_time (snd kv))
      <? DateTime.to_us now - days_old * 86400 * 1000000).

(** [EmailService.cleanup_old_emails(days_old)]: the ids of the old items
    are collected, then deleted one by one; the document is written only
    when something was deleted. *)
Definition cleanup_old_emails (days_old : Z) (now : datetime)
           (f : file (dict EmailService.email_record))
  : result (file (dict EmailService.email_record)) :=
  pending_emails ← EmailService.load_pending_emails f;
  let emails_to_remove :=
    map fst (List.filter (old_email days_old now) pending_emails) in
  match emails_to_remove with
  | [] => Return f
  | _ :: _ =>
      Return (Doc (fold_left (fun d email_id => dict_del email_id d)
                             emails_to_remove pending_emails))
  end.

(** The channel on which [send_scheduled_emails] tells the user about an
    email that went out: the outcome of the [n]-th notification. *)
Definition notifier : Type := nat -> EmailService.sent_email -> result unit.

(** The notifications attempted so far: the id of the email and whether
    [send_message] returned. *)
Definition notify_log : Type := list (string * bool).

(** The loop of [send_scheduled_emails] over the emails the scan acted
    on: a notification for each one that was sent, nothing for the
    others. *)
Fixpoint notify_each (telegram : notifier)
         (sent_emails : list EmailService.sent_email) (log : notify_log)
  : notify_log :=
  match sent_emails with
  | [] => log
  | email_info :: rest =>
      if EmailService.success (EmailService.se_result email_info) then
        let ok := negb (raised (telegram (List.length log) email_info)) in
        notify_each telegram rest
          (log ++ [(EmailService.se_email_id email_info, ok)])%list
      else notify_each telegram rest log
  end.

(** What the world looks like around the email scan: the pending-emails
    document, the transport log and the notification log. *)
Record email_world : Type := {
  emails_file : file (dict EmailService.email_record);
  transport_log : EmailService.smtp_log;
  notifications : notify_log }.

(** [send_scheduled_emails]: one tick of the email scan.  [dice] is the
    draw of [random.randint(1, 1440)], [cleanup_time] the clock reading of
    the purge. *)
Definition send_scheduled_emails (available : bool)
           (smtp : EmailService.transport) (telegram : notifier)
           (user_chat_id : option Z) (current_time cleanup_time : datetime)
           (dice : Z) (w : email_world) : email_world :=
  if negb available then w
  else
    match EmailService.check_and_send_scheduled_emails available smtp
            current_time (emails_file w) (transport_log w) with
    | (Raise _, f1, log1) =>
        {| emails_file := f1; transport_log := log1;
           notifications := notifications w |}
    | (Return sent_emails, f1, log1) =>
        let notes :=
          match sent_emails with
          | [] => notifications w
          | _ :: _ =>
              if ReminderService.chat_id_set user_chat_id
              then notify_each telegram sent_emails (notifications w)
              else notifications w
          end in
        let f2 :=
          if dice =? 1 then
            match cleanup_old_emails 7 cleanup_time f1 with
            | Return f2 => f2
            | Raise _ => f1
            end
          else f1 in
        {| emails_file := f2; transport_log := log1; notifications := notes |}
    end.

(** The ids of a document are unique, as the keys of any dictionary. *)
Definition unique_keys {V} (d : dict V) : Prop := List.NoDup (keys d).

End Purge.

(** ** Deleting calendar events in bulk (src/calendar_handler.py) *)

Module BulkDelete.

(** The fields of an entry of [get_events_data] that the bulk deletions
    read. *)
Record listed_event : Type := { title : string; event_id : string }.

(** [get_events_data(max_results=100, days_ahead=30)]; [listing] is what
    the service call and the conversion of its entries give.  Nothing is
    returned without authentication, and nothing when either raises. *)
Definition get_events_data (is_authenticated : bool)
           (listing : result (list listed_event)) : list listed_event :=
  if negb is_authenticated then []
  else
    match listing with
    | Return structured_events => structured_events
    | Raise _ => []
    end.

(** The delete request of the calendar service: the outcome of the
    [n]-th request of the process, for the event id it names. *)
Definition delete_service : Type := nat -> string -> result unit.

(** The event ids for which a delete request was made, oldest first. *)
Definition delete_log : Type := list string.

(** The loop shared by [clear_all_events] and [delete_events_by_title]:
    one request per event, counted as deleted when it returns and as
    failed when it raises. *)
Fixpoint delete_each (service : delete_service) (events : list listed_event)
         (deleted_count failed_count : nat) (log : delete_log)
  : nat * nat * delete_log :=
  match events with
  | [] => (deleted_count, failed_count, log)
  | event :: rest =>
      let log' := (log ++ [event_id event])%list in
      match service (List.length log) (event_id event) with
      | Return _ =>
          delete_each service rest (S deleted_count) failed_count log'
      | Raise _ =>
          delete_each service rest deleted_count (S failed_count) log'
      end
  end.

(** The answers of the two functions; the text of the source is
    determined by the constructor and its counts. *)
Inductive delete_reply : Type :=
| PleaseAuthenticate
| NoUpcomingEvents
| NoEventsMatching (title_pattern : string)
| SuccessfullyDeleted (deleted_count failed_count : nat)
| DeletedMatching (title_pattern : string) (deleted_count failed_count : nat).

(** [clear_all_events(days_ahead=30)] *)
Definition clear_all_events (is_authenticated : bool)
           (listing : result (list listed_event)) (service : delete_service)
           (log : delete_log) : delete_reply * delete_log :=
  if negb is_authenticated then (PleaseAuthenticate, log)
  else
    let events := get_events_data is_authenticated listing in
    match events with
    | [] => (NoUpcomingEvents, log)
    | _ :: _ =>
        let '(deleted_count, failed_count, log') :=
          delete_each service events 0 0 log in
        (SuccessfullyDeleted deleted_count failed_count, log')
    end.

(** [title_pattern.lower() in event['title'].lower()] *)
Definition title_matches (title_pattern : string) (event : listed_event)
  : bool :=
  Text.contains (Text.lower title_pattern) (Text.lower (title event)).

(** [delete_events_by_title(title_pattern, days_ahead=30)] *)
Definition delete_events_by_title (is_authenticated : bool)
           (listing : result (list listed_event)) (service : delete_service)
           (title_pattern : string) (log : delete_log)
  : delete_reply * delete_log :=
  if negb is_authenticated then (PleaseAuthenticate, log)
  else
    let events := get_events_data is_authenticated listing in
    let matching_events := List.filter (title_matches title_pattern) events in
    match matching_events with
    | [] => (NoEventsMatching title_pattern, log)
    | _ :: _ =>
        let '(deleted_count, failed_count, log') :=
          delete_each service matching_events 0 0 log in
        (DeletedMatching title_pattern deleted_count failed_count, log')
    end.

End BulkDelete.

(** ** Splitting a long reply (src/ai_handler.py, src/config.py) *)

Module Splitter.

Definition MAX_MESSAGE_LENGTH : nat := 4000.

Definition newline : ascii := ascii_of_nat 10.

(** [s[n:]] *)
Fixpoint drop (n : nat) (s : string) : string :=
  match n, s with
  | O, _ => s
  | S _, EmptyString => EmptyString
  | S n', String _ s' => drop n' s'
  end.

(** [s[:n]] *)
Fixpoint take (n : nat) (s : string) : string :=
  match n, s with
  | O, _ => EmptyString
  | S _, EmptyString => EmptyString
  | S n', String c s' => String c (take n' s')
  end.

(** [s[a:b]] for indices that are not negative. *)
Definition slice (s : string) (a b : nat) : string := take (b - a) (drop a s).

(** [s[i]] where there is one. *)
Definition char_at (i : nat) (s : string) : option ascii :=
  match drop i s with
  | String c _ => Some c
  | EmptyString => None
  end.

(** The highest of the [n] indices from [start] on that holds [c]. *)
Fixpoint rfind_below (c : ascii) (s : string) (start n : nat) : option nat :=
  match n with
  | O => None
  | S n' =>
      match char_at (start + n') s with
      | Some d =>
          if Ascii.eqb c d then Some (start + n')
          else rfind_below c s start n'
      | None => rfind_below c s start n'
      end
  end.

(** [s.rfind(c, start, end)] for a single character; None stands for the
    answer -1. *)
Definition rfind (c : ascii) (s : string) (start end_ : nat) : option nat :=
  rfind_below c s start (end_ - start).

(** The loop of [split_long_message] for a limit of [limit] characters;
    None when [fuel] iterations do not finish it. *)
Fixpoint split_loop (limit fuel : nat) (message : string)
         (current_pos : nat) (chunks : list string) : option (list string) :=
  match fuel with
  | O => None
  | S fuel' =>
      if (current_pos <? Text.len message)%nat then
        let end_pos := (current_pos + limit)%nat in
        if (Text.len message <=? end_pos)%nat then
          Some (chunks ++ [drop current_pos message])%list
        else
          let break_pos :=
            match rfind newline message current_pos end_pos with
            | Some p => p
            | None =>
                match rfind " " message current_pos end_pos with
                | Some p => p
                | None => end_pos
                end
            end in
          split_loop limit fuel' message
            (if (break_pos <? end_pos)%nat then (break_pos + 1)%nat
             else break_pos)
            (chunks ++ [slice message current_pos break_pos])%list
      else Some chunks
  end.

Definition split_at (limit : nat) (message : string)
  : option (list string) :=
  if (Text.len message <=? limit)%nat then Some [message]
  else split_loop limit (S (Text.len message)) message 0 [].

(** [split_long_message] *)
Definition split_long_message (message : string) : option (list string) :=
  split_at MAX_MESSAGE_LENGTH message.

(** The message the chunks and the characters dropped between them stand
    for: each chunk followed by the text of its separator. *)
Fixpoint rejoined (chunks seps : list string) : string :=
  match chunks, seps with
  | chunk :: chunks', sep :: seps' =>
      (chunk ++ sep ++ rejoined chunks' seps')%string
  | _, _ => EmptyString
  end.

(** What may be dropped after a chunk: nothing, one blank or one line
    break. *)
Definition separator (s : string) : Prop :=
  s = "" \/ s = " " \/ s = String newline "".

End Splitter.

(** ** Numerals of fixed width

    The text of a number written with exactly [w] digits, most
    significant first; the zero-padded fields of [isoformat] are compared
    with it. *)

Module Numerals.
Local Open Scope Z_scope.

Fixpoint fixed_width (w : nat) (n : Z) : string :=
  match w with
  | O => EmptyString
  | S w' =>
      (fixed_width w' (n / 10)
       ++ String (DateTime.digit_char (n mod 10)) EmptyString)%string
  end.

(** A timestamp the constructor accepts, of a year from 1921 on: the
    home zone is at +07:00 then, the offset [isoformat] writes. *)
Definition at_plus_seven (d : datetime) : bool :=
  DateTime.valid d && (1921 <=? DateTime.year d).

(** Chronological order of the scheduled times of two items. *)
Definition scheduled_le (a b : EmailService.email_record) : Prop :=
  DateTime.leb (EmailService.scheduled_time a)
               (EmailService.scheduled_time b) = true.

End Numerals.

(** ** Further sample inputs *)

Module MoreSamples.

Definition sent_email : EmailService.email_record :=
  {| EmailService.id := "email_1704070800";
     EmailService.recipient := "ann@example.com";
     EmailService.subject := "Old";
     EmailService.body := "Done";
     EmailService.priority := "normal";
     EmailService.scheduled_time := mkdt 2024 1 1 9 0 0 0;
     EmailService.created_time := mkdt 2024 1 1 8 0 0 0;
     EmailService.status := Sent;
     EmailService.sent_time := Some (mkdt 2024 1 1 9 0 30 0);
     EmailService.error := None |}.

Definition failed_email : EmailService.email_record :=
  {| EmailService.id := "email_1705194000";
     EmailService.recipient := "bob@example.com";
     EmailService.subject := "Recent";
     EmailService.body := "Bounced";
     EmailService.priority := "normal";
     EmailService.scheduled_time := mkdt 2024 1 14 9 0 0 0;
     EmailService.created_time := mkdt 2024 1 14 8 0 0 0;
     EmailService.status := Failed;
     EmailService.sent_time := None;
     EmailService.error := Some "Failed to send email: refused" |}.

Definition waiting_email : EmailService.email_record :=
  {| EmailService.id := "email_1704074400";
     EmailService.recipient := "cat@example.com";
     EmailService.subject := "Waiting";
     EmailService.body := "Later";
     EmailService.priority := "normal";
     EmailService.scheduled_time := mkdt 2024 3 1 9 0 0 0;
     EmailService.created_time := mkdt 2024 1 1 9 0 0 0;
     EmailService.status := Pending;
     EmailService.sent_time := None;
     EmailService.error := None |}.

(** A pending-emails document with one email sent on 1 January, one
    failed on 14 January and one still pending since 1 January. *)
Definition mixed_emails : dict EmailService.email_record :=
  [ ("email_1704070800", sent_email);
    ("email_1705194000", failed_email);
    ("email_1704074400", waiting_email) ].

(** The same document once the pending email has been cancelled. *)
Definition mixed_emails_cancelled : dict EmailService.email_record :=
  dict_set "email_1704074400" (Purge.cancelled_email waiting_email)
           mixed_emails.

(** The document after a first save into an empty one, at 14:59:30.5 on
    15 January 2024, and after a second save one second later. *)
Definition after_first_save : file (dict EmailService.email_record) :=
  match EmailService.save_pending_email
          (Samples.email_for "ann@example.com" "First")
          (mkdt 2024 1 15 16 0 0 0) 1705305570500000
          (mkdt 2024 1 15 14 59 30 500000) (Doc []) with
  | Return (_, f) => f
  | Raise _ => Absent
  end.

Definition after_second_save : file (dict EmailService.email_record) :=
  match EmailService.save_pending_email
          (Samples.email_for "bob@example.com" "Second")
          (mkdt 2024 1 15 17 0 0 0) 1705305571500000
          (mkdt 2024 1 15 14 59 31 500000) after_first_save with
  | Return (_, f) => f
  | Raise _ => Absent
  end.

(** A notification channel that delivers everything, and the world
    around the email task before its first tick. *)
Definition notifier_ok : Purge.notifier := fun _ _ => Return tt.

Definition first_world : Purge.email_world :=
  {| Purge.emails_file := Doc mixed_emails;
     Purge.transport_log := [];
     Purge.notifications := [] |}.

(** A word of 4000 letters. *)
Definition long_word : string :=
  string_of_list_ascii (repeat "a"%char Splitter.MAX_MESSAGE_LENGTH).

(** The reminder chosen for the lecture at 13:55, twenty minutes before
    its start. *)
Definition lecture_reminder : CalendarHandler.event_info :=
  {| CalendarHandler.ei_id := "evt1";
     CalendarHandler.title := "Lecture";
     CalendarHandler.ei_start_datetime := mkdt 2024 1 15 14 15 0 0;
     CalendarHandler.ei_reminder_type := CalendarHandler.before;
     CalendarHandler.reminder_id := "evt1_before_15";
     CalendarHandler.minutes_until := 20 |}.

End MoreSamples.

(** * Properties *)

(** ** Text and pattern matching *)

Section TextFacts.

Lemma string_app_cons a (u v : string) :
  (String a u ++ v)%string = String a (u ++ v)%string.
Proof. reflexivity. Qed.

Lemma string_app_assoc (u v w : string) :
  (u ++ v ++ w)%string = ((u ++ v) ++ w)%string.
Proof.
  induction u as [|a u IH]; [reflexivity|].
  rewrite !string_app_cons. now rewrite IH.
Qed.

Lemma has_char_app c (u v : string) :
  Text.has_char c (u ++ v) = Text.has_char c u || Text.has_char c v.
Proof.
  induction u as [|d u IH]; simpl; [reflexivity|].
  rewrite IH. now rewrite orb_assoc.
Qed.

Lemma contains_char c (s : string) :
  Text.contains (String c EmptyString) s = Text.has_char c s.
Proof.
  induction s as [|d s IH]; simpl; [reflexivity|].
  rewrite IH. now rewrite andb_true_r.
Qed.

(** Whatever a pattern consumes is a prefix of the subject, and it holds
    every character the pattern cannot do without. *)
Lemma m_consumes c r :
  forall prev s k,
    Regex.m r prev s k = true ->
    exists w p' s',
      s = (w ++ s')%string /\ k p' s' = true
      /\ (Regex.must_char c r = true -> Text.has_char c w = true).
Proof.
  induction r as [|d|p|r1 IH1 r2 IH2|r1 IH1 r2 IH2|r1 IH1| |];
    intros prev s k Hm; simpl in Hm.
  - exists EmptyString, prev, s. simpl. intuition discriminate.
  - destruct s as [|e s']; [discriminate|].
    destruct (Ascii.eqb d e) eqn:Hd; [|discriminate].
    apply Ascii.eqb_eq in Hd. subst e.
    exists (String d EmptyString), (Some d), s'. simpl.
    rewrite Hm. repeat split. intros Hc. now rewrite Hc.
  - destruct s as [|e s']; [discriminate|].
    destruct (p e); [|discriminate].
    exists (String e EmptyString), (Some e), s'. simpl.
    rewrite Hm. repeat split. discriminate.
  - apply IH1 in Hm as (w1 & p1 & s1 & -> & Hm2 & Hc1).
    apply IH2 in Hm2 as (w2 & p2 & s2 & -> & Hk & Hc2).
    exists (w1 ++ w2)%string, p2, s2. repeat split.
    + apply string_app_assoc.
    + exact Hk.
    + simpl. intros Hc. rewrite has_char_app.
      apply orb_prop in Hc as [Hc|Hc]; [rewrite Hc1|rewrite Hc2];
        auto using orb_true_r.
  - destruct (Regex.m r1 prev s k) eqn:Hm1.
    + apply IH1 in Hm1 as (w & p' & s' & -> & Hk & Hc).
      exists w, p', s'. repeat split; auto.
      simpl. intros H. apply andb_prop in H as [H _]. auto.
    + apply IH2 in Hm as (w & p' & s' & -> & Hk & Hc).
      exists w, p', s'. repeat split; auto.
      simpl. intros H. apply andb_prop in H as [_ H]. auto.
  - remember (String.length s) as fuel eqn:E. clear E.
    revert prev s Hm.
    induction fuel as [|fuel IHf]; intros prev s Hm.
    + destruct (k prev s) eqn:Hk; [|discriminate].
      exists EmptyString, prev, s. simpl. intuition discriminate.
    + destruct (k prev s) eqn:Hk.
      * exists EmptyString, prev, s. simpl. intuition discriminate.
      * apply IH1 in Hm as (w1 & p1 & s1 & -> & Hm & _).
        destruct (String.length s1 <? String.length (w1 ++ s1))%nat;
          [|discriminate].
        apply IHf in Hm as (w2 & p2 & s2 & -> & Hk2 & _).
        exists (w1 ++ w2)%string, p2, s2. repeat split.
        -- apply string_app_assoc.
        -- exact Hk2.
        -- simpl. discriminate.
  - destruct prev; [discriminate|].
    exists EmptyString, None, s. simpl. intuition discriminate.
  - destruct (xorb _ _); [|discriminate].
    exists EmptyString, prev, s. simpl. intuition discriminate.
Qed.

Lemma search_from_must_char c r :
  Regex.must_char c r = true ->
  forall s prev, Regex.search_from r prev s = true -> Text.has_char c s = true.
Proof.
  intros Hc s. induction s as [|d s IH]; intros prev Hs; simpl in Hs.
  - destruct (Regex.m r prev "" Regex.accept) eqn:Hm; [|discriminate].
    apply (m_consumes c) in Hm as (w & _ & s' & E & _ & Hw).
    rewrite E, has_char_app, (Hw Hc). reflexivity.
  - destruct (Regex.m r prev (String d s) Regex.accept) eqn:Hm.
    + apply (m_consumes c) in Hm as (w & _ & s' & E & _ & Hw).
      rewrite E, has_char_app, (Hw Hc). reflexivity.
    + simpl. rewrite (IH _ Hs). apply orb_true_r.
Qed.

Lemma search_must_char c r s :
  Regex.must_char c r = true ->
  Regex.search r s = true -> Text.has_char c s = true.
Proof. intros Hc Hs. exact (search_from_must_char c r Hc s None Hs). Qed.

End TextFacts.

(** ** Intent detection *)

Section DetectionFacts.
Import Classifier.

Lemma email_address_has_at msg :
  Regex.search email_regex msg = true -> Text.contains "@" msg = true.
Proof.
  intros H. rewrite contains_char.
  apply (search_must_char "@" email_regex); [reflexivity|exact H].
Qed.

Lemma relative_offset_has_i s :
  Regex.search relative_offset s = true -> Text.contains "i" s = true.
Proof.
  intros H. rewrite contains_char.
  apply (search_must_char "i" relative_offset); [reflexivity|exact H].
Qed.

Lemma relative_offset_is_time_pattern s :
  Regex.search relative_offset s = true -> any_search time_patterns s = true.
Proof.
  intros H. unfold any_search. apply existsb_exists.
  exists relative_offset. split; [|exact H].
  unfold time_patterns. simpl. tauto.
Qed.

Lemma detect_reminder_time_and_person msg :
  Text.contains "@" msg = false ->
  Text.any_in email_exclusion_patterns (Text.lower msg) = false ->
  Text.any_in calendar_exclusion_patterns (Text.lower msg) = false ->
  any_search time_patterns (Text.lower msg)
  || any_search time_start_patterns (Text.lower msg) = true ->
  Text.contains "me" (Text.lower msg) || Text.contains "i" (Text.lower msg)
  = true ->
  detect_reminder_action msg = Some (ActSetReminder msg).
Proof.
  intros Hat Hem Hcal Htime Hperson. unfold detect_reminder_action.
  rewrite Hat, Hem, Hcal, Htime, Hperson. cbv zeta.
  now destruct (Text.any_in reminder_patterns (Text.lower msg)).
Qed.

End DetectionFacts.

(** C3 (classification exclusivity).  The message
    [send email to a@b.com reminder tomorrow at 9am] is classified as
    SendEmail whether or not the calendar is authenticated, although it
    holds a reminder keyword; and in general a message holding an email
    address token is rejected by reminder detection, and accepted by email
    detection as soon as it also holds an email-action keyword. *)
Theorem classification_exclusivity :
  (forall calendar_authenticated,
      Classifier.classify calendar_authenticated
        "send email to a@b.com reminder tomorrow at 9am" = Classifier.SendEmail)
  /\ Text.any_in Classifier.reminder_patterns
       (Text.lower "send email to a@b.com reminder tomorrow at 9am") = true
  /\ (forall msg,
        Regex.search Classifier.email_regex msg = true ->
        Classifier.detect_reminder_action msg = None)
  /\ (forall msg,
        Regex.search Classifier.email_regex msg = true ->
        Text.any_in Classifier.email_patterns (Text.lower msg) = true ->
        Classifier.detect_email_action msg
        = Some (Classifier.ActSendEmail msg)).
Proof.
  split; [intros []; vm_compute; reflexivity|].
  split; [vm_compute; reflexivity|].
  split.
  - intros msg H. unfold Classifier.detect_reminder_action.
    now rewrite (email_address_has_at msg H).
  - intros msg Haddr Hpat. unfold Classifier.detect_email_action.
    now rewrite Haddr, Hpat.
Qed.

Lemma classification_exclusivity_witness :
  Classifier.detect_reminder_action
    "send email to a@b.com reminder tomorrow at 9am" = None
  /\ Classifier.detect_email_action
       "send email to a@b.com reminder tomorrow at 9am"
     = Some (Classifier.ActSendEmail
               "send email to a@b.com reminder tomorrow at 9am").
Proof.
  destruct classification_exclusivity as (_ & _ & Hrem & Hemail).
  split.
  - apply Hrem. vm_compute. reflexivity.
  - apply Hemail; vm_compute; reflexivity.
Defined.

(** C10 (time pattern with personal context).  A message without an at
    sign and without an email or calendar exclusion phrase, whose
    lower-cased text matches a time pattern and holds the substring [me]
    or the letter [i] anywhere, is detected as a reminder; and since the
    relative-offset pattern (in N minutes, in N hours) begins with the
    letter [i], every such message matching it is detected as a reminder
    with no condition on pronouns. *)
Theorem reminder_detection_substring_context :
  (forall msg,
      Text.contains "@" msg = false ->
      Text.any_in Classifier.email_exclusion_patterns (Text.lower msg) = false ->
      Text.any_in Classifier.calendar_exclusion_patterns (Text.lower msg)
      = false ->
      Classifier.any_search Classifier.time_patterns (Text.lower msg)
      || Classifier.any_search Classifier.time_start_patterns (Text.lower msg)
      = true ->
      Text.contains "me" (Text.lower msg) || Text.contains "i" (Text.lower msg)
      = true ->
      Classifier.detect_reminder_action msg
      = Some (Classifier.ActSetReminder msg))
  /\ (forall msg,
        Text.contains "@" msg = false ->
        Text.any_in Classifier.email_exclusion_patterns (Text.lower msg)
        = false ->
        Text.any_in Classifier.calendar_exclusion_patterns (Text.lower msg)
        = false ->
        Regex.search Classifier.relative_offset (Text.lower msg) = true ->
        Classifier.detect_reminder_action msg
        = Some (Classifier.ActSetReminder msg)).
Proof.
  split.
  - exact detect_reminder_time_and_person.
  - intros msg Hat Hem Hcal Hrel.
    apply detect_reminder_time_and_person; auto.
    + now rewrite (relative_offset_is_time_pattern _ Hrel).
    + rewrite (relative_offset_has_i _ Hrel). apply orb_true_r.
Qed.

Lemma reminder_detection_substring_context_witness :
  Classifier.detect_reminder_action "at 2pm lunch time"
  = Some (Classifier.ActSetReminder "at 2pm lunch time")
  /\ Classifier.detect_reminder_action "the oven goes off in 30 minutes"
     = Some (Classifier.ActSetReminder "the oven goes off in 30 minutes").
Proof.
  destruct reminder_detection_substring_context as (Hperson & Hrel).
  split.
  - apply Hperson; vm_compute; reflexivity.
  - apply Hrel; vm_compute; reflexivity.
Defined.

(** A clock-time message with neither [me] nor [i] is left alone, so the
    personal-context test is what decides. *)
Example clock_time_without_context :
  Classifier.detect_reminder_action "at 2pm call bob" = None.
Proof. vm_compute. reflexivity. Qed.

(** ** Calendar actions *)

(** C4 (ClearAll confirmation safety).  [clear my schedule] is detected as
    ClearAll without confirmation, [clear my schedule, yes I'm sure] as
    ClearAll with confirmation; executing an unconfirmed ClearAll never
    calls the calendar collaborator, answers with the confirmation request
    when the calendar is set up, and every unconfirmed ClearAll that
    message handling executes is answered with the confirmation request
    and leaves the list of calendar calls as it was. *)
Theorem clear_all_confirmation_safety :
  Classifier.detect_calendar_action "clear my schedule"
  = Some (Classifier.CalClearAll false)
  /\ Classifier.detect_calendar_action "clear my schedule, yes I'm sure"
     = Some (Classifier.CalClearAll true)
  /\ (forall api handler msg calls,
        snd (Dispatcher.execute_calendar_action api handler
               (Some (Classifier.CalClearAll false)) msg calls) = calls)
  /\ (forall api h msg calls,
        CalendarHandler.is_authenticated h = true ->
        Dispatcher.execute_calendar_action api (Some h)
          (Some (Classifier.CalClearAll false)) msg calls
        = (Dispatcher.CalendarConfirmClearAll, calls))
  /\ (forall api h msg calls reply calls',
        Dispatcher.handle_calendar api h msg calls
        = Some (Classifier.CalClearAll false, reply, calls') ->
        reply = Dispatcher.CalendarConfirmClearAll /\ calls' = calls).
Proof.
  split; [vm_compute; reflexivity|].
  split; [vm_compute; reflexivity|].
  split; [|split].
  - intros api [h|] msg calls; unfold Dispatcher.execute_calendar_action;
      [destruct (CalendarHandler.is_authenticated h)|]; reflexivity.
  - intros api h msg calls Hauth.
    unfold Dispatcher.execute_calendar_action. now rewrite Hauth.
  - intros api h msg calls reply calls' H.
    unfold Dispatcher.handle_calendar in H.
    destruct (CalendarHandler.is_authenticated h) eqn:Hauth; [|discriminate].
    destruct (Classifier.detect_calendar_action msg) as [a|]; [|discriminate].
    destruct (Dispatcher.execute_calendar_action api (Some h) (Some a) msg calls)
      as [r c] eqn:E.
    injection H as -> -> ->.
    unfold Dispatcher.execute_calendar_action in E. rewrite Hauth in E.
    simpl in E. now injection E as <- <-.
Qed.

Lemma clear_all_confirmation_safety_witness :
  Dispatcher.execute_calendar_action Samples.api (Some Samples.authenticated)
    (Some (Classifier.CalClearAll false)) "clear my schedule" []
  = (Dispatcher.CalendarConfirmClearAll, [])
  /\ Dispatcher.handle_calendar Samples.api Samples.authenticated
       "clear my schedule" []
     = Some (Classifier.CalClearAll false,
             Dispatcher.CalendarConfirmClearAll, []).
Proof.
  destruct clear_all_confirmation_safety as (_ & _ & _ & Hexec & Hhandle).
  split.
  - apply Hexec. reflexivity.
  - destruct (Dispatcher.handle_calendar Samples.api Samples.authenticated
                "clear my schedule" [])
      as [[[a r] c]|] eqn:E; [|vm_compute in E; discriminate].
    assert (a = Classifier.CalClearAll false) as ->
      by (vm_compute in E; congruence).
    destruct (Hhandle Samples.api Samples.authenticated
                "clear my schedule" [] r c E) as [-> ->].
    reflexivity.
Defined.

(** A confirmed ClearAll does reach the collaborator. *)
Example confirmed_clear_all_calls_calendar :
  Dispatcher.handle_calendar Samples.api Samples.authenticated
    "clear my schedule, yes I'm sure" []
  = Some (Classifier.CalClearAll true,
          Dispatcher.CalendarCleared "Deleted 3 events",
          [Dispatcher.CallClearAllEvents]).
Proof. vm_compute. reflexivity. Qed.

(** ** The same-minute adjustment *)

Section SameMinute.
Local Open Scope Z_scope.

Lemma valid_time_fields d :
  DateTime.valid d = true ->
  DateTime.in_range 0 23 (DateTime.hour d) = true
  /\ DateTime.in_range 0 59 (DateTime.minute d) = true.
Proof.
  unfold DateTime.valid. intros H.
  repeat (apply andb_prop in H as [H ?]). auto.
Qed.

Lemma replace_minute_start d :
  DateTime.valid d = true ->
  DateTime.replace d None None (Some 0) (Some 0) = Return (DateTime.minute_start d).
Proof.
  intros H. destruct (valid_time_fields d H) as [Hh Hm].
  unfold DateTime.replace, DateTime.check_time_fields. simpl.
  now rewrite Hh, Hm.
Qed.

Lemma lex_compare_refl l : DateTime.lex_compare l l = Eq.
Proof. induction l; simpl; [reflexivity|]. now rewrite Z.compare_refl. Qed.

Lemma lex_compare_eq a : forall b,
  List.length a = List.length b -> DateTime.lex_compare a b = Eq -> a = b.
Proof.
  induction a as [|x a IH]; intros [|y b] Hl H; simpl in *;
    try discriminate; [reflexivity|].
  destruct (x ?= y) eqn:E; try discriminate.
  apply Z.compare_eq in E. subst. f_equal. apply IH; congruence.
Qed.

Lemma same_minute_fields a b :
  DateTime.same_minute a b = true -> DateTime.minute_start a = DateTime.minute_start b.
Proof.
  unfold DateTime.same_minute, DateTime.eqb, DateTime.compare. intros H.
  destruct (DateTime.lex_compare (DateTime.fields (DateTime.minute_start a))
              (DateTime.fields (DateTime.minute_start b))) eqn:E; try discriminate.
  apply lex_compare_eq in E; [|reflexivity].
  unfold DateTime.fields, DateTime.minute_start in *. simpl in E.
  injection E as -> -> -> -> ->. reflexivity.
Qed.

(** Below minute 59 the adjustment does what it is meant to do: the
    item is scheduled for the start of the next minute. *)
Lemma same_minute_bump send_time current_time :
  DateTime.valid send_time = true ->
  DateTime.valid current_time = true ->
  DateTime.same_minute send_time current_time = true ->
  DateTime.minute send_time < 59 ->
  exists bumped,
    Dispatcher.schedule_or_send (Some send_time) current_time
    = Return (Some bumped)
    /\ DateTime.second bumped = 0 /\ DateTime.microsecond bumped = 0
    /\ DateTime.to_us bumped
       = DateTime.to_us (DateTime.minute_start current_time) + 60 * 1000000.
Proof.
  intros Hs Hc Hsame Hlt.
  pose proof (same_minute_fields _ _ Hsame) as E.
  destruct (valid_time_fields _ Hs) as [Hh Hm].
  exists (mkdt (DateTime.year send_time) (DateTime.month send_time)
               (DateTime.day send_time) (DateTime.hour send_time)
               (DateTime.minute send_time + 1) 0 0).
  split; [|split; [reflexivity|split; [reflexivity|]]].
  - unfold Dispatcher.schedule_or_send.
    rewrite (replace_minute_start _ Hc), (replace_minute_start _ Hs).
    cbn [mbind result_bind Py.bind].
    fold (DateTime.same_minute send_time current_time). rewrite Hsame.
    unfold DateTime.replace, DateTime.check_time_fields.
    cbn [DateTime.or_else]. rewrite Hh.
    unfold DateTime.in_range in *.
    apply andb_prop in Hm as [Hm1 Hm2].
    apply Z.leb_le in Hm1, Hm2.
    replace (0 <=? DateTime.minute send_time + 1) with true
      by (symmetry; apply Z.leb_le; lia).
    replace (DateTime.minute send_time + 1 <=? 59) with true
      by (symmetry; apply Z.leb_le; lia).
    cbn [negb andb mbind result_bind Py.bind Z.leb Z.compare].
    unfold DateTime.gtb, DateTime.ltb, DateTime.compare, DateTime.fields.
    unfold DateTime.minute_start in E. injection E as <- <- <- <- <-.
    cbn [DateTime.year DateTime.month DateTime.day DateTime.hour
         DateTime.minute DateTime.second DateTime.microsecond
         DateTime.lex_compare].
    rewrite !Z.compare_refl.
    replace (DateTime.minute send_time ?= DateTime.minute send_time + 1)
      with Lt by (symmetry; apply Z.compare_lt_iff; lia).
    reflexivity.
  - unfold DateTime.minute_start in E. injection E as E1 E2 E3 E4 E5.
    unfold DateTime.to_us, DateTime.toordinal, DateTime.minute_start.
    cbn [DateTime.year DateTime.month DateTime.day DateTime.hour
         DateTime.minute DateTime.second DateTime.microsecond].
    rewrite E1, E2, E3, E4, E5. lia.
Qed.

End SameMinute.

(** C1 (same-minute correction).  At minute 59 the adjustment does not
    move the timestamp to the next minute: building the timestamp with
    minute 60 raises ValueError, for every resolved timestamp in the same
    minute as the reference time whose minute component is 59. *)
Theorem same_minute_bump_raises_at_minute_59 :
  forall send_time current_time,
    DateTime.valid send_time = true ->
    DateTime.valid current_time = true ->
    DateTime.same_minute send_time current_time = true ->
    DateTime.minute send_time = 59%Z ->
    Dispatcher.schedule_or_send (Some send_time) current_time
    = Raise (Exn ValueError "minute must be in 0..59").
Proof.
  intros send_time current_time Hs Hc Hsame H59.
  destruct (valid_time_fields _ Hs) as [Hh _].
  unfold Dispatcher.schedule_or_send.
  rewrite (replace_minute_start _ Hc), (replace_minute_start _ Hs).
  cbn [mbind result_bind Py.bind].
  fold (DateTime.same_minute send_time current_time). rewrite Hsame.
  unfold DateTime.replace, DateTime.check_time_fields.
  cbn [DateTime.or_else]. rewrite Hh, H59. reflexivity.
Qed.

Lemma same_minute_bump_raises_at_minute_59_witness :
  Dispatcher.schedule_or_send (Some (mkdt 2024 1 15 14 59 0 0))
                              (mkdt 2024 1 15 14 59 30 250000)
  = Raise (Exn ValueError "minute must be in 0..59").
Proof.
  apply same_minute_bump_raises_at_minute_59; reflexivity.
Defined.

Lemma same_minute_bump_witness :
  exists bumped,
    Dispatcher.schedule_or_send (Some (mkdt 2024 1 15 14 30 0 0))
                                (mkdt 2024 1 15 14 30 30 250000)
    = Return (Some bumped)
    /\ DateTime.second bumped = 0%Z /\ DateTime.microsecond bumped = 0%Z
    /\ DateTime.to_us bumped
       = (DateTime.to_us (DateTime.minute_start (mkdt 2024 1 15 14 30 30 250000))
          + 60 * 1000000)%Z.
Proof.
  apply same_minute_bump; [reflexivity|reflexivity|reflexivity|].
  simpl. lia.
Defined.

(** The user asks at 14:59:30 for an email at 14:59: the dispatch answers
    with an error, schedules nothing and sends nothing. *)
Example email_at_minute_59 :
  @Dispatcher.execute_email_action PyStrptime.cpython true
    (Samples.email_oracle "2024-01-15 14:59") Samples.smtp_ok
    Samples.clock_1459 (Some (Classifier.ActSendEmail "email bob at 14:59"))
    "email bob at 14:59" Absent []
  = (Dispatcher.EmailError
       "Error performing email action: minute must be in 0..59",
     Absent, []).
Proof. vm_compute. reflexivity. Qed.

(** The same request for a reminder. *)
Example reminder_at_minute_59 :
  @Dispatcher.execute_reminder_action PyStrptime.cpython
    (Samples.reminder_oracle "14:59") Samples.clock_1459
    (Some (Classifier.ActSetReminder "remind me at 14:59 to call mom"))
    "remind me at 14:59 to call mom" Absent
  = (Dispatcher.ReminderError
       "Error setting reminder: minute must be in 0..59", Absent).
Proof. vm_compute. reflexivity. Qed.

(** One minute of the hour earlier the same request is scheduled. *)
Example email_at_minute_30 :
  @Dispatcher.execute_email_action PyStrptime.cpython true
    (Samples.email_oracle "2024-01-15 14:30") Samples.smtp_ok
    Samples.clock_1430 (Some (Classifier.ActSendEmail "email bob at 14:30"))
    "email bob at 14:30" Absent []
  = (Dispatcher.EmailScheduled "email_1705303830" (mkdt 2024 1 15 14 31 0 0),
     Doc [("email_1705303830",
           {| EmailService.id := "email_1705303830";
              EmailService.recipient := "bob@example.com";
              EmailService.subject := "Hello";
              EmailService.body := "See you soon";
              EmailService.priority := "normal";
              EmailService.scheduled_time := mkdt 2024 1 15 14 31 0 0;
              EmailService.created_time := mkdt 2024 1 15 14 30 30 500000;
              EmailService.status := Pending;
              EmailService.sent_time := None;
              EmailService.error := None |})],
     []).
Proof. vm_compute. reflexivity. Qed.

(** ** A time string the resolver does not recognise *)




(** ** The identifiers of deferred items *)

Section StoreFacts.
Context {V : Type}.

Lemma dict_get_set (k : string) (v : V) d :
  dict_get k (dict_set k v d) = Some v.
Proof.
  induction d as [|[k' v'] d IH]; simpl.
  - now rewrite String.eqb_refl.
  - destruct (String.eqb k k') eqn:E; simpl; now rewrite E.
Qed.

Lemma dict_set_keys_present (k : string) (v : V) d :
  dict_get k d <> None -> keys (dict_set k v d) = keys d.
Proof.
  unfold keys. induction d as [|[k' v'] d IH]; simpl; [congruence|].
  destruct (String.eqb k k') eqn:E; simpl; [reflexivity|].
  intros H. f_equal. auto.
Qed.

End StoreFacts.

(** C9 (id uniqueness).  Two inserts whose clock readings fall within the
    same second are given the same id, and the second insert replaces the
    record of the first: the document holds one record under that id, the
    record of the second insert, and has not grown.  This holds for the
    email store and for the reminder store. *)
Theorem same_second_inserts_share_an_id :
  (forall data1 data2 sched1 sched2 now1 now2 created1 created2 f,
      raised (EmailService.load_pending_emails f) = false ->
      EmailService.int_timestamp now1 = EmailService.int_timestamp now2 ->
      exists email_id d1 d2 record2,
        EmailService.save_pending_email data1 sched1 now1 created1 f
        = Return (email_id, Doc d1)
        /\ EmailService.save_pending_email data2 sched2 now2 created2 (Doc d1)
           = Return (email_id, Doc d2)
        /\ dict_get email_id d2 = Some record2
        /\ EmailService.recipient record2 = EmailService.recipient_email data2
        /\ EmailService.scheduled_time record2 = sched2
        /\ keys d2 = keys d1)
  /\ (forall data1 data2 sched1 sched2 now1 now2 created1 created2 f,
        raised (ReminderService.load_pending_reminders f) = false ->
        EmailService.int_timestamp now1 = EmailService.int_timestamp now2 ->
        exists reminder_id d1 d2 record2,
          ReminderService.save_pending_reminder data1 sched1 now1 created1 f
          = Return (reminder_id, Doc d1)
          /\ ReminderService.save_pending_reminder data2 sched2 now2 created2
               (Doc d1)
             = Return (reminder_id, Doc d2)
          /\ dict_get reminder_id d2 = Some record2
          /\ ReminderService.reminder_text record2
             = ReminderService.rd_reminder_text data2
          /\ ReminderService.scheduled_time record2 = sched2
          /\ keys d2 = keys d1).
Proof.
  split.
  - intros data1 data2 sched1 sched2 now1 now2 created1 created2 f Hload Hsec.
    unfold EmailService.save_pending_email. rewrite <- Hsec.
    destruct (EmailService.load_pending_emails f) as [d|e]; [|discriminate].
    cbn [mbind result_bind Py.bind EmailService.load_pending_emails
         exists_ read try_except].
    eexists _, _, _, _. split; [reflexivity|]. split; [reflexivity|].
    split; [apply dict_get_set|].
    split; [reflexivity|]. split; [reflexivity|].
    apply dict_set_keys_present. rewrite dict_get_set. discriminate.
  - intros data1 data2 sched1 sched2 now1 now2 created1 created2 f Hload Hsec.
    unfold ReminderService.save_pending_reminder. rewrite <- Hsec.
    destruct (ReminderService.load_pending_reminders f) as [d|e];
      [|discriminate].
    cbn [mbind result_bind Py.bind ReminderService.load_pending_reminders
         exists_ read try_except].
    eexists _, _, _, _. split; [reflexivity|]. split; [reflexivity|].
    split; [apply dict_get_set|].
    split; [reflexivity|]. split; [reflexivity|].
    apply dict_set_keys_present. rewrite dict_get_set. discriminate.
Qed.

(** Two emails scheduled 0.4 s apart: one id, and only the second email is
    left in the document. *)
Lemma same_second_inserts_share_an_id_witness :
  exists email_id d1 d2 record2,
    EmailService.save_pending_email
      (Samples.email_for "ann@example.com" "First") (mkdt 2024 1 15 16 0 0 0)
      1705303830200000 (mkdt 2024 1 15 14 30 30 200000) Absent
    = Return (email_id, Doc d1)
    /\ EmailService.save_pending_email
         (Samples.email_for "bob@example.com" "Second")
         (mkdt 2024 1 15 17 0 0 0)
         1705303830600000 (mkdt 2024 1 15 14 30 30 600000) (Doc d1)
       = Return (email_id, Doc d2)
    /\ dict_get email_id d2 = Some record2
    /\ EmailService.recipient record2
       = EmailService.recipient_email
           (Samples.email_for "bob@example.com" "Second")
    /\ EmailService.scheduled_time record2 = mkdt 2024 1 15 17 0 0 0
    /\ keys d2 = keys d1.
Proof.
  apply (proj1 same_second_inserts_share_an_id); reflexivity.
Defined.

Example same_second_emails :
  (ids ← (r1 ← EmailService.save_pending_email
                  (Samples.email_for "ann@example.com" "First")
                  (mkdt 2024 1 15 16 0 0 0)
                  1705303830200000 (mkdt 2024 1 15 14 30 30 200000) Absent;
           r2 ← EmailService.save_pending_email
                  (Samples.email_for "bob@example.com" "Second")
                  (mkdt 2024 1 15 17 0 0 0)
                  1705303830600000 (mkdt 2024 1 15 14 30 30 600000) (snd r1);
           Return (fst r1, fst r2,
                   match snd r2 with
                   | Doc d => map (fun kv => EmailService.recipient (snd kv)) d
                   | _ => []
                   end));
   Return ids)
  = Return ("email_1705303830", "email_1705303830", ["bob@example.com"]).
Proof. vm_compute. reflexivity. Qed.

(** ** Loading the persistence documents *)

(** C8 (corrupt-persistence degradation).  What each loader does with a
    document whose reading raises [e]: the loader of the sent-reminder
    marks has no handler and lets every exception out, malformed content
    included; the loaders of the pending emails and of the pending
    reminders return the empty collection when [e] is a JSONDecodeError
    or a FileNotFoundError and let any other exception out.  A missing
    document loads as the empty collection in all three. *)
Theorem loaders_on_unreadable_documents :
  (forall e, CalendarHandler.load_sent_reminders (Broken e) = Raise e)
  /\ (forall e,
        EmailService.load_pending_emails (Broken e)
        = if caught_by [JSONDecodeError; FileNotFoundError] e
          then Return [] else Raise e)
  /\ (forall e,
        ReminderService.load_pending_reminders (Broken e)
        = if caught_by [JSONDecodeError; FileNotFoundError] e
          then Return [] else Raise e)
  /\ CalendarHandler.load_sent_reminders Absent = Return ∅
  /\ EmailService.load_pending_emails Absent = Return []
  /\ ReminderService.load_pending_reminders Absent = Return [].
Proof.
  split; [|split; [|split; [|repeat split]]].
  - intros e. reflexivity.
  - intros e. unfold EmailService.load_pending_emails, try_except.
    cbn [exists_ read]. now destruct (caught_by _ e).
  - intros e. unfold ReminderService.load_pending_reminders, try_except.
    cbn [exists_ read]. now destruct (caught_by _ e).
Qed.

(** A sent-reminders document with malformed content: the loader raises,
    where the loaders of the two pending documents return the empty
    collection. *)
Example malformed_documents :
  CalendarHandler.load_sent_reminders
    (Broken (Exn JSONDecodeError "Expecting value"))
  = Raise (Exn JSONDecodeError "Expecting value")
  /\ EmailService.load_pending_emails
       (Broken (Exn JSONDecodeError "Expecting value")) = Return []
  /\ ReminderService.load_pending_reminders
       (Broken (Exn JSONDecodeError "Expecting value")) = Return [].
Proof. repeat split. Qed.

(** A pending document that cannot be opened for lack of permission. *)
Example unreadable_pending_documents :
  EmailService.load_pending_emails
    (Broken (Exn PermissionError "Permission denied"))
  = Raise (Exn PermissionError "Permission denied")
  /\ ReminderService.load_pending_reminders
       (Broken (Exn PermissionError "Permission denied"))
     = Raise (Exn PermissionError "Permission denied").
Proof. repeat split. Qed.

(** ** The scans of the deferred items *)

Section ScanFacts.

Lemma send_email_now_log smtp log r sj b :
  snd (EmailService.send_email_now true smtp log r sj b)
  = (log ++ [(r, sj, b)])%list.
Proof.
  unfold EmailService.send_email_now. cbn [negb].
  now destruct (smtp _ _ _ _).
Qed.

Lemma send_email_now_success smtp log r sj b :
  EmailService.success (fst (EmailService.send_email_now true smtp log r sj b))
  = negb (raised (smtp (List.length log) r sj b)).
Proof.
  unfold EmailService.send_email_now. cbn [negb].
  now destruct (smtp _ _ _ _).
Qed.

(** One step of the scan of the emails. *)
Lemma email_scan_cons smtp now k e d log :
  EmailService.scan true smtp now ((k, e) :: d) log
  = if EmailService.due now (k, e) then
      let result :=
        fst (EmailService.send_email_now true smtp log
               (EmailService.recipient e) (EmailService.subject e)
               (EmailService.body e)) in
      let rest :=
        EmailService.scan true smtp now d
          (log ++ [EmailService.transaction (k, e)])%list in
      ((k, if EmailService.success result
           then EmailService.set_sent e now
           else EmailService.set_failed e (EmailService.message result))
         :: fst (fst rest),
       {| EmailService.se_email_id := k;
          EmailService.se_recipient := EmailService.recipient e;
          EmailService.se_subject := EmailService.subject e;
          EmailService.se_result := result |} :: snd (fst rest),
       snd rest)
    else
      let rest := EmailService.scan true smtp now d log in
      ((k, e) :: fst (fst rest), snd (fst rest), snd rest).
Proof.
  unfold EmailService.due. cbn [EmailService.scan fst snd].
  destruct (status_eqb (EmailService.status e) Pending); cbn [negb andb].
  - destruct (DateTime.leb (EmailService.scheduled_time e) now).
    + pose proof (send_email_now_log smtp log (EmailService.recipient e)
                    (EmailService.subject e) (EmailService.body e)) as Hlog.
      destruct (EmailService.send_email_now true smtp log _ _ _)
        as [result log1].
      cbn [fst snd] in *. subst log1. unfold EmailService.transaction.
      cbn [fst snd].
      now destruct (EmailService.scan true smtp now d _) as [[d' sent] log'].
    + now destruct (EmailService.scan true smtp now d log) as [[d' sent] log'].
  - now destruct (EmailService.scan true smtp now d log) as [[d' sent] log'].
Qed.

Lemma email_scan_log smtp now d : forall log,
  snd (EmailService.scan true smtp now d log)
  = (log ++ map EmailService.transaction (List.filter (EmailService.due now) d))%list.
Proof.
  induction d as [|[k e] d IH]; intros log.
  - simpl. now rewrite app_nil_r.
  - rewrite email_scan_cons. cbn [List.filter].
    destruct (EmailService.due now (k, e)); cbn [snd map].
    + now rewrite IH, <- app_assoc.
    + apply IH.
Qed.

Lemma email_scan_ids smtp now d : forall log,
  map EmailService.se_email_id (snd (fst (EmailService.scan true smtp now d log)))
  = map fst (List.filter (EmailService.due now) d).
Proof.
  induction d as [|[k e] d IH]; intros log; [reflexivity|].
  rewrite email_scan_cons. cbn [List.filter].
  destruct (EmailService.due now (k, e)); cbn [fst snd map].
  - now rewrite IH.
  - apply IH.
Qed.

Lemma reminder_scan_ids now d :
  map ReminderService.dr_reminder_id (snd (ReminderService.scan now d))
  = map fst (List.filter (ReminderService.due now) d).
Proof.
  induction d as [|[k r] d IH]; simpl; [reflexivity|].
  unfold ReminderService.due at 1. simpl.
  destruct (ReminderService.scan now d) as [d' due]. simpl in IH.
  destruct (status_eqb (ReminderService.status r) Pending); simpl; [|exact IH].
  destruct (DateTime.leb (ReminderService.scheduled_time r) now); simpl;
    [now rewrite IH|exact IH].
Qed.

Lemma deliver_ids telegram reminders : forall log,
  map fst (ReminderService.deliver telegram reminders log)
  = (map fst log ++ map ReminderService.dr_reminder_id reminders)%list.
Proof.
  induction reminders as [|r rs IH]; intros log; simpl.
  - now rewrite app_nil_r.
  - rewrite IH, map_app, <- app_assoc. reflexivity.
Qed.

End ScanFacts.

Section SortFacts.
Context {A : Type} (key : A -> string).

Lemma key_le_trans x y z : key_le key x y -> key_le key y z -> key_le key x z.
Proof.
  unfold key_le. intros Hxy Hyz.
  apply Is_true_true. apply Is_true_true in Hxy, Hyz.
  exact (transitivity (R := String.le) Hxy Hyz).
Qed.

Lemma key_le_total x y : String.leb (key x) (key y) = false -> key_le key y x.
Proof.
  unfold key_le. intros H.
  destruct (String.leb_total (key x) (key y)) as [H'|H']; congruence.
Qed.

Lemma insert_sorted_Forall (P : A -> Prop) x l :
  P x -> Forall P l -> Forall P (insert_sorted key x l).
Proof.
  intros Hx Hl. induction Hl as [|y l Hy Hl IH]; simpl.
  - constructor; [exact Hx|constructor].
  - destruct (String.leb (key x) (key y)); repeat constructor; auto.
Qed.

Lemma insert_sorted_sorted x l :
  StronglySorted (key_le key) l ->
  StronglySorted (key_le key) (insert_sorted key x l).
Proof.
  induction 1 as [|y l Hs IH Hall]; simpl.
  - repeat constructor.
  - destruct (String.leb (key x) (key y)) eqn:E.
    + constructor; [constructor; assumption|].
      constructor; [exact E|].
      apply (List.Forall_impl (P := key_le key y)); [|exact Hall].
      intros z Hz. exact (key_le_trans x y z E Hz).
    + constructor; [exact IH|].
      apply insert_sorted_Forall; [|exact Hall].
      now apply key_le_total.
Qed.

Lemma sort_by_sorted l : StronglySorted (key_le key) (sort_by key l).
Proof.
  induction l as [|x l IH]; simpl; [constructor|].
  now apply insert_sorted_sorted.
Qed.

End SortFacts.

(** C6, as stated, fails: the document holds an email for 10:00 inserted
    before an email for 09:00; the scan of 11:00 sends the 10:00 email
    first and the 09:00 email second, while the sorted listing of the
    pending emails names them the other way round. *)
Lemma due_emails_sent_in_insertion_order :
  snd (EmailService.check_and_send_scheduled_emails true Samples.smtp_ok
         (mkdt 2024 1 15 11 0 0 0) (Doc Samples.out_of_order) [])
  = [ ("ten@example.com", "At ten", "See you soon");
      ("nine@example.com", "At nine", "See you soon") ]
  /\ (l ← EmailService.get_pending_emails (Doc Samples.out_of_order);
      Return (map EmailService.recipient l))
     = Return ["nine@example.com"; "ten@example.com"].
Proof. split; vm_compute; reflexivity. Qed.

(** C6, amended.  Within one tick the due items are processed in the
    order of the stored document, which is the order of insertion: the
    emails handed to the transport and the entries of the returned list
    follow the document, and so do the reminders handed to the channel.
    Ascending order of the scheduled times is what the listings
    [get_pending_emails] and [get_pending_reminders] return. *)
Theorem due_items_processed_in_document_order :
  (forall smtp now d log,
      exists sent f',
        EmailService.check_and_send_scheduled_emails true smtp now (Doc d) log
        = (Return sent, f',
           (log ++ map EmailService.transaction
                       (List.filter (EmailService.due now) d))%list)
        /\ map EmailService.se_email_id sent
           = map fst (List.filter (EmailService.due now) d))
  /\ (forall chat telegram now cleanup d log,
        ReminderService.chat_id_set chat = true ->
        map fst (snd (ReminderService.send_scheduled_reminders chat telegram
                        now cleanup (Doc d) log))
        = (map fst log
           ++ map fst (List.filter (ReminderService.due now) d))%list)
  /\ (forall f l,
        EmailService.get_pending_emails f = Return l ->
        StronglySorted
          (key_le (fun x => DateTime.isoformat (EmailService.scheduled_time x)))
          l)
  /\ (forall f l,
        ReminderService.get_pending_reminders f = Return l ->
        StronglySorted
          (key_le (fun x =>
                     DateTime.isoformat (ReminderService.scheduled_time x)))
          l).
Proof.
  split; [|split; [|split]].
  - intros smtp now d log.
    unfold EmailService.check_and_send_scheduled_emails.
    cbn [negb EmailService.load_pending_emails exists_ read try_except].
    pose proof (email_scan_log smtp now d log) as Hlog.
    pose proof (email_scan_ids smtp now d log) as Hids.
    destruct (EmailService.scan true smtp now d log) as [[d' sent] log'].
    cbn [fst snd] in *. subst log'.
    destruct sent; eexists _, _; split; try reflexivity; exact Hids.
  - intros chat telegram now cleanup d log Hchat.
    unfold ReminderService.send_scheduled_reminders. rewrite Hchat.
    cbn [negb]. unfold ReminderService.check_and_send_scheduled_reminders.
    cbn [ReminderService.load_pending_reminders exists_ read try_except].
    pose proof (reminder_scan_ids now d) as Hids.
    destruct (ReminderService.scan now d) as [d' due]. cbn [snd] in Hids.
    destruct due as [|r due].
    + cbn [ReminderService.deliver snd]. rewrite <- Hids. simpl.
      now rewrite app_nil_r.
    + destruct (ReminderService.cleanup_old_reminders cleanup (Doc d'));
        cbn [snd]; now rewrite deliver_ids, Hids.
  - intros f l H. unfold EmailService.get_pending_emails in H.
    destruct (EmailService.load_pending_emails f) as [d|e];
      [|discriminate].
    cbn [mbind result_bind Py.bind] in H. injection H as <-.
    apply sort_by_sorted.
  - intros f l H. unfold ReminderService.get_pending_reminders in H.
    destruct (ReminderService.load_pending_reminders f) as [d|e];
      [|discriminate].
    cbn [mbind result_bind Py.bind] in H. injection H as <-.
    apply sort_by_sorted.
Qed.

Lemma due_items_processed_in_document_order_witness :
  map fst (snd (ReminderService.send_scheduled_reminders (Some 42%Z)
                  Samples.telegram_ok (mkdt 2024 1 15 14 0 30 0)
                  (mkdt 2024 1 15 14 0 31 0) (Doc Samples.one_reminder) []))
  = (map fst ([] : ReminderService.channel_log)
     ++ map fst (List.filter (ReminderService.due (mkdt 2024 1 15 14 0 30 0))
                             Samples.one_reminder))%list
  /\ exists l,
       EmailService.get_pending_emails (Doc Samples.out_of_order) = Return l
       /\ StronglySorted
            (key_le (fun x =>
                       DateTime.isoformat (EmailService.scheduled_time x)))
            l.
Proof.
  destruct due_items_processed_in_document_order as (_ & Hrem & Hsorted & _).
  split.
  - apply Hrem. reflexivity.
  - eexists. split; [reflexivity|].
    apply (Hsorted (Doc Samples.out_of_order)). reflexivity.
Defined.

(** ** The status a scan gives to a due item *)

Section MarkFacts.

Lemma email_scan_marks smtp now d : forall log,
  Forall2 (Marks.email_marked smtp now
             (snd (EmailService.scan true smtp now d log)))
          d (fst (fst (EmailService.scan true smtp now d log))).
Proof.
  induction d as [|[k e] d IH]; intros log; [constructor|].
  rewrite email_scan_cons.
  destruct (EmailService.due now (k, e)) eqn:Hdue; cbn [fst snd].
  - constructor; [|apply IH].
    split; [reflexivity|]. rewrite Hdue. exists (List.length log). split.
    + rewrite email_scan_log, <- app_assoc. cbn [app].
      now apply list_lookup_middle.
    + rewrite send_email_now_success. cbn [snd].
      now destruct (raised (smtp _ _ _ _)).
  - constructor; [|apply IH].
    split; [reflexivity|]. now rewrite Hdue.
Qed.


Lemma email_scan_nothing_due smtp now d : forall log,
  List.filter (EmailService.due now) d = [] ->
  fst (fst (EmailService.scan true smtp now d log)) = d.
Proof.
  induction d as [|[k e] d IH]; intros log H; [reflexivity|].
  rewrite email_scan_cons. cbn [List.filter] in H.
  destruct (EmailService.due now (k, e)); [discriminate|].
  cbn [fst]. now rewrite IH.
Qed.

Lemma reminder_scan_marks now d :
  Forall2 (Marks.reminder_marked now) d (fst (ReminderService.scan now d)).
Proof.
  induction d as [|[k r] d IH]; [constructor|].
  cbn [ReminderService.scan].
  destruct (ReminderService.scan now d) as [d' due]. cbn [fst] in IH.
  unfold Marks.reminder_marked at 1. unfold ReminderService.due.
  destruct (status_eqb (ReminderService.status r) Pending) eqn:Hp;
    cbn [negb andb fst snd].
  - destruct (DateTime.leb (ReminderService.scheduled_time r) now) eqn:Hd;
      cbn [fst]; constructor; auto; split; auto;
      cbn [fst snd]; rewrite Hp, Hd; reflexivity.
  - constructor; auto. split; auto. cbn [fst snd]. now rewrite Hp.
Qed.

Lemma reminder_scan_nothing_due now d :
  snd (ReminderService.scan now d) = [] ->
  fst (ReminderService.scan now d) = d.
Proof.
  induction d as [|[k r] d IH]; [reflexivity|].
  cbn [ReminderService.scan].
  destruct (ReminderService.scan now d) as [d' due]. cbn [fst snd] in *.
  destruct (status_eqb (ReminderService.status r) Pending); cbn [negb].
  - destruct (DateTime.leb (ReminderService.scheduled_time r) now);
      cbn [fst snd]; [discriminate|].
    intros H. now rewrite IH.
  - cbn [fst snd]. intros H. now rewrite IH.
Qed.

End MarkFacts.




(** ** Calendar reminders are not sent twice *)

Section AtMostOnce.
Import CalendarHandler.
Variables (minutes_before : Z) (at_event_time : bool) (telegram : channel).


Lemma omap_In {X Y : Type} (f : X -> option Y) l y :
  List.In y (omap f l) -> exists x, List.In x l /\ f x = Some y.
Proof.
  induction l as [|x l IH]; csimpl; [tauto|].
  destruct (f x) as [y'|] eqn:E.
  - intros [<-|H]; [exists x; auto|].
    destruct (IH H) as (x' & ? & ?). exists x'. auto.
  - intros H. destruct (IH H) as (x' & ? & ?). exists x'. auto.
Qed.













End AtMostOnce.




(** With a channel that delivers, the lecture is announced once. *)
Example lecture_announced_once :
  snd (CalendarHandler.run 15 true Samples.always_delivers Samples.two_ticks
         Samples.authenticated [])
  = [ ("evt1", CalendarHandler.before, true) ].
Proof. vm_compute. reflexivity. Qed.

(** Of two due emails, the one the transport refuses is marked failed and
    the other sent. *)
Example one_email_fails :
  (let '(_, f, _) :=
     EmailService.check_and_send_scheduled_emails true
       (fun n _ _ _ => match n with
                       | O => Raise (Exn OSError "Connection refused")
                       | S _ => Return tt
                       end)
       (mkdt 2024 1 15 11 0 0 0) (Doc Samples.out_of_order) [] in
   match f with
   | Doc d => map (fun kv => (fst kv, EmailService.status (snd kv))) d
   | _ => []
   end)
  = [("email_1705280400", Failed); ("email_1705280460", Sent)].
Proof. vm_compute. reflexivity. Qed.

(** * Further properties of the deferred-work stores *)

Section DictFacts.
Context {V : Type}.

Lemma dict_get_set_ne (k k' : string) (v : V) d :
  k <> k' -> dict_get k (dict_set k' v d) = dict_get k d.
Proof.
  intros Hne. induction d as [|[k0 v0] d IH]; simpl.
  - apply String.eqb_neq in Hne. now rewrite Hne.
  - destruct (String.eqb k' k0) eqn:E'; simpl.
    + apply String.eqb_eq in E'. subst k0.
      apply String.eqb_neq in Hne. now rewrite Hne.
    + now rewrite IH.
Qed.

Lemma dict_get_In (k : string) (v : V) d :
  dict_get k d = Some v -> List.In (k, v) d.
Proof.
  induction d as [|[k0 v0] d IH]; simpl; [discriminate|].
  destruct (String.eqb k k0) eqn:E.
  - apply String.eqb_eq in E. intros [= ->]. left. now subst.
  - intros H. right. auto.
Qed.

Lemma In_keys (k : string) (v : V) d : List.In (k, v) d -> List.In k (keys d).
Proof. intros H. unfold keys. apply in_map_iff. now exists (k, v). Qed.

Lemma In_dict_get (k : string) (v : V) d :
  Purge.unique_keys d -> List.In (k, v) d -> dict_get k d = Some v.
Proof.
  unfold Purge.unique_keys, keys.
  induction d as [|[k0 v0] d IH]; simpl; [tauto|].
  intros Hnd [H|H].
  - injection H as -> ->. now rewrite String.eqb_refl.
  - inversion Hnd as [|? ? Hnotin Hnd']; subst.
    destruct (String.eqb k k0) eqn:E; [|auto].
    apply String.eqb_eq in E. subst k0.
    exfalso. apply Hnotin. exact (In_keys k v d H).
Qed.

Lemma dict_set_keys_absent (k : string) (v : V) d :
  dict_get k d = None -> keys (dict_set k v d) = (keys d ++ [k])%list.
Proof.
  unfold keys. induction d as [|[k0 v0] d IH]; simpl; [reflexivity|].
  destruct (String.eqb k k0) eqn:E; [discriminate|].
  intros H. simpl. f_equal. auto.
Qed.

Lemma dict_get_None_keys (k : string) (d : dict V) :
  dict_get k d = None -> ~ List.In k (keys d).
Proof.
  unfold keys. induction d as [|[k0 v0] d IH]; simpl; [tauto|].
  destruct (String.eqb k k0) eqn:E; [discriminate|].
  apply String.eqb_neq in E. intros H [H'|H']; [congruence|]. now apply IH.
Qed.

Lemma dict_set_unique (k : string) (v : V) d :
  Purge.unique_keys d -> Purge.unique_keys (dict_set k v d).
Proof.
  unfold Purge.unique_keys. intros Hnd.
  destruct (dict_get k d) as [v0|] eqn:E.
  - rewrite dict_set_keys_present; [exact Hnd|congruence].
  - rewrite dict_set_keys_absent by exact E.
    pose proof (dict_get_None_keys _ _ E) as Hnotin.
    induction Hnd as [|x l Hx Hnd IH]; simpl.
    + constructor; [intros []|constructor].
    + constructor.
      * intros Hin. apply in_app_or in Hin as [Hin|[<-|[]]]; [auto|].
        apply Hnotin. now left.
      * apply IH. intros Hin. apply Hnotin. now right.
Qed.

(** Deleting a list of keys keeps exactly the items whose key is not in
    the list. *)
Lemma fold_dict_del (ks : list string) : forall d : dict V,
  fold_left (fun d k => Purge.dict_del k d) ks d
  = List.filter (fun kv => negb (existsb (String.eqb (fst kv)) ks)) d.
Proof.
  induction ks as [|k ks IH]; intros d; simpl.
  - induction d as [|kv d IHd]; simpl; [reflexivity|]. now rewrite <- IHd.
  - rewrite IH. unfold Purge.dict_del.
    induction d as [|kv d IHd]; simpl; [reflexivity|].
    rewrite (String.eqb_sym k (fst kv)).
    destruct (String.eqb (fst kv) k); simpl; [exact IHd|].
    destruct (existsb (String.eqb (fst kv)) ks); simpl; [exact IHd|].
    now rewrite IHd.
Qed.

(** Items related position by position, with equal ids, are found under
    the same ids. *)
Lemma Forall2_dict_get (P : string * V -> string * V -> Prop) d d' :
  Forall2 (fun kv kv' => fst kv' = fst kv /\ P kv kv') d d' ->
  forall k v,
    dict_get k d = Some v ->
    exists v', dict_get k d' = Some v' /\ P (k, v) (k, v').
Proof.
  induction 1 as [|[k0 v0] [k0' v0'] d d' [Hk HP] _ IH]; intros k v Hget;
    simpl in *; [discriminate|]. subst k0'.
  destruct (String.eqb k k0) eqn:E.
  - apply String.eqb_eq in E. subst k0. injection Hget as ->.
    exists v0'. split; [reflexivity|exact HP].
  - now apply IH.
Qed.

Lemma Forall2_keys (P : string * V -> string * V -> Prop) d d' :
  Forall2 (fun kv kv' => fst kv' = fst kv /\ P kv kv') d d' ->
  keys d' = keys d.
Proof.
  unfold keys. induction 1 as [|? ? ? ? [Hk _] _ IH]; simpl; congruence.
Qed.

End DictFacts.

Section TickFacts.

(** The email tick on a document that loads is the scan of its items. *)
Lemma email_tick_is_scan smtp now d log :
  EmailService.check_and_send_scheduled_emails true smtp now (Doc d) log
  = (Return (snd (fst (EmailService.scan true smtp now d log))),
     Doc (fst (fst (EmailService.scan true smtp now d log))),
     snd (EmailService.scan true smtp now d log)).
Proof.
  unfold EmailService.check_and_send_scheduled_emails.
  cbn [negb EmailService.load_pending_emails exists_ read try_except].
  pose proof (email_scan_ids smtp now d log) as Hids.
  pose proof (email_scan_nothing_due smtp now d log) as Hnone.
  destruct (EmailService.scan true smtp now d log) as [[d' sent] log'].
  cbn [fst snd] in *. destruct sent; [|reflexivity].
  rewrite Hnone; [reflexivity|].
  destruct (List.filter (EmailService.due now) d); [reflexivity|discriminate].
Qed.

(** The reminder tick on a document that loads is the scan of its items. *)
Lemma reminder_tick_is_scan now d :
  ReminderService.check_and_send_scheduled_reminders now (Doc d)
  = (Return (snd (ReminderService.scan now d)),
     Doc (fst (ReminderService.scan now d))).
Proof.
  unfold ReminderService.check_and_send_scheduled_reminders.
  cbn [ReminderService.load_pending_reminders exists_ read try_except].
  pose proof (reminder_scan_nothing_due now d) as Hnone.
  destruct (ReminderService.scan now d) as [d' due]. cbn [fst snd] in *.
  destruct due; [|reflexivity]. now rewrite Hnone.
Qed.

(** What is still due after a scan: the items that were not due at the
    scan. *)
Lemma email_due_after_scan smtp now1 now2 d : forall log,
  List.filter (EmailService.due now2)
              (fst (fst (EmailService.scan true smtp now1 d log)))
  = List.filter (fun kv => EmailService.due now2 kv
                           && negb (EmailService.due now1 kv)) d.
Proof.
  induction d as [|[k e] d IH]; intros log; [reflexivity|].
  rewrite email_scan_cons. cbn [List.filter].
  destruct (EmailService.due now1 (k, e)) eqn:H1; cbn [fst snd List.filter].
  - rewrite andb_false_r.
    replace (EmailService.due now2 _) with false; [apply IH|].
    unfold EmailService.due. cbn [snd].
    now destruct (EmailService.success _).
  - rewrite andb_true_r.
    destruct (EmailService.due now2 (k, e)); now rewrite IH.
Qed.

Lemma reminder_due_after_scan now1 now2 d :
  List.filter (ReminderService.due now2) (fst (ReminderService.scan now1 d))
  = List.filter (fun kv => ReminderService.due now2 kv
                           && negb (ReminderService.due now1 kv)) d.
Proof.
  induction d as [|[k r] d IH]; [reflexivity|].
  cbn [ReminderService.scan].
  destruct (ReminderService.scan now1 d) as [d' due]. cbn [fst] in IH.
  cbn [List.filter].
  destruct (ReminderService.due now1 (k, r)) eqn:H1.
  - unfold ReminderService.due in H1. cbn [snd] in H1.
    apply andb_prop in H1 as [Hp Hd]. rewrite Hp, Hd. cbn [negb fst List.filter].
    rewrite andb_false_r. unfold ReminderService.due at 1. cbn [snd].
    cbn [ReminderService.set_sent ReminderService.status status_eqb andb].
    exact IH.
  - rewrite andb_true_r.
    unfold ReminderService.due in H1. cbn [snd] in H1.
    destruct (status_eqb (ReminderService.status r) Pending) eqn:Hp;
      cbn [negb andb] in *.
    + rewrite H1. cbn [fst List.filter].
      destruct (ReminderService.due now2 (k, r)); now rewrite IH.
    + cbn [fst List.filter].
      destruct (ReminderService.due now2 (k, r)); now rewrite IH.
Qed.

End TickFacts.

(** X1.  No deferred item is acted on twice.  Of two successive ticks of
    the email scan, the first hands the transport the items due at its
    clock reading, in the order of the document, and the second only the
    items that are due at its own reading and were not due at the first;
    the same holds for the reminders the two ticks of the reminder scan
    collect. *)
Theorem deferred_items_processed_once :
  (forall smtp now1 now2 d log,
      let t1 :=
        EmailService.check_and_send_scheduled_emails true smtp now1
          (Doc d) log in
      let t2 :=
        EmailService.check_and_send_scheduled_emails true smtp now2
          (snd (fst t1)) (snd t1) in
      snd t1
      = (log ++ map EmailService.transaction
                    (List.filter (EmailService.due now1) d))%list
      /\ snd t2
         = (snd t1
            ++ map EmailService.transaction
                 (List.filter
                    (fun kv => EmailService.due now2 kv
                               && negb (EmailService.due now1 kv)) d))%list)
  /\ (forall now1 now2 d,
        let t1 :=
          ReminderService.check_and_send_scheduled_reminders now1 (Doc d) in
        let t2 :=
          ReminderService.check_and_send_scheduled_reminders now2 (snd t1) in
        exists due1 due2,
          fst t1 = Return due1 /\ fst t2 = Return due2
          /\ map ReminderService.dr_reminder_id due1
             = map fst (List.filter (ReminderService.due now1) d)
          /\ map ReminderService.dr_reminder_id due2
             = map fst
                 (List.filter
                    (fun kv => ReminderService.due now2 kv
                               && negb (ReminderService.due now1 kv)) d)).
Proof.
  split.
  - intros smtp now1 now2 d log. cbv zeta.
    rewrite email_tick_is_scan. cbn [fst snd].
    rewrite email_tick_is_scan. cbn [fst snd].
    split; [apply email_scan_log|].
    rewrite (email_scan_log smtp now2). now rewrite email_due_after_scan.
  - intros now1 now2 d. cbv zeta.
    rewrite reminder_tick_is_scan. cbn [fst snd].
    rewrite reminder_tick_is_scan. cbn [fst snd].
    eexists _, _. split; [reflexivity|]. split; [reflexivity|].
    split; [apply reminder_scan_ids|].
    rewrite reminder_scan_ids. now rewrite reminder_due_after_scan.
Qed.

(** X2.  Cancelling an email.  A cancellation that is refused leaves the
    document as it is; one that is accepted found the id present and
    pending, turned that item, in its place, into a cancelled one, and
    left every other item as it was. *)
Theorem cancel_pending_email_effect :
  (forall email_id f f',
      Purge.cancel_pending_email email_id f = Return (false, f') -> f' = f)
  /\ (forall email_id d f',
        Purge.cancel_pending_email email_id (Doc d) = Return (true, f') ->
        exists r,
          dict_get email_id d = Some r
          /\ EmailService.status r = Pending
          /\ f' = Doc (dict_set email_id (Purge.cancelled_email r) d)
          /\ keys (dict_set email_id (Purge.cancelled_email r) d) = keys d
          /\ dict_get email_id (dict_set email_id (Purge.cancelled_email r) d)
             = Some (Purge.cancelled_email r)
          /\ forall k, k <> email_id ->
               dict_get k (dict_set email_id (Purge.cancelled_email r) d)
               = dict_get k d).
Proof.
  split.
  - intros email_id f f' H. unfold Purge.cancel_pending_email in H.
    destruct (EmailService.load_pending_emails f) as [d|e]; [|discriminate].
    cbn [mbind result_bind Py.bind] in H.
    destruct (dict_get email_id d) as [r|]; [|congruence].
    destruct (status_eqb (EmailService.status r) Pending); congruence.
  - intros email_id d f' H. unfold Purge.cancel_pending_email in H.
    cbn [mbind result_bind Py.bind EmailService.load_pending_emails
         exists_ read try_except] in H.
    destruct (dict_get email_id d) as [r|] eqn:Hget; [|discriminate].
    destruct (status_eqb (EmailService.status r) Pending) eqn:Hp;
      [|discriminate].
    injection H as <-. exists r. split; [reflexivity|].
    split; [now destruct (EmailService.status r)|].
    split; [reflexivity|].
    split; [apply dict_set_keys_present; congruence|].
    split; [apply dict_get_set|].
    intros k Hk. now apply dict_get_set_ne.
Qed.

Lemma cancel_pending_email_effect_witness :
  exists r,
    dict_get "email_1704074400" MoreSamples.mixed_emails = Some r
    /\ EmailService.status r = Pending
    /\ Doc MoreSamples.mixed_emails_cancelled
       = Doc (dict_set "email_1704074400" (Purge.cancelled_email r)
                       MoreSamples.mixed_emails)
    /\ keys (dict_set "email_1704074400" (Purge.cancelled_email r)
                      MoreSamples.mixed_emails)
       = keys MoreSamples.mixed_emails
    /\ dict_get "email_1704074400"
                (dict_set "email_1704074400" (Purge.cancelled_email r)
                          MoreSamples.mixed_emails)
       = Some (Purge.cancelled_email r)
    /\ forall k, k <> "email_1704074400" ->
         dict_get k (dict_set "email_1704074400" (Purge.cancelled_email r)
                              MoreSamples.mixed_emails)
         = dict_get k MoreSamples.mixed_emails.
Proof.
  apply (proj2 cancel_pending_email_effect "email_1704074400"
           MoreSamples.mixed_emails (Doc MoreSamples.mixed_emails_cancelled)).
  reflexivity.
Defined.

Section CancelFacts.

Lemma email_scan_keeps_settled smtp now d : forall log k r,
  dict_get k d = Some r ->
  EmailService.status r <> Pending ->
  dict_get k (fst (fst (EmailService.scan true smtp now d log))) = Some r.
Proof.
  intros log k r Hget Hst.
  destruct (Forall2_dict_get _ _ _
              (email_scan_marks smtp now d log) k r Hget) as (r' & Hget' & Hm).
  cbn beta in Hm. rewrite Hget'.
  unfold EmailService.due in Hm. cbn [snd] in Hm.
  destruct (status_eqb (EmailService.status r) Pending) eqn:Hp.
  - exfalso. apply Hst. now destruct (EmailService.status r).
  - cbn [andb] in Hm. congruence.
Qed.

Lemma email_scan_settles smtp now d : forall log k r,
  dict_get k d = Some r ->
  EmailService.due now (k, r) = true ->
  exists r',
    dict_get k (fst (fst (EmailService.scan true smtp now d log))) = Some r'
    /\ EmailService.status r' <> Pending.
Proof.
  intros log k r Hget Hdue.
  destruct (Forall2_dict_get _ _ _
              (email_scan_marks smtp now d log) k r Hget) as (r' & Hget' & Hm).
  cbn beta in Hm. rewrite Hdue in Hm. destruct Hm as (n & _ & Hst).
  exists r'. split; [exact Hget'|]. cbn [snd] in Hst. rewrite Hst.
  now destruct (raised _).
Qed.

Lemma reminder_scan_keeps_settled now d k r :
  dict_get k d = Some r ->
  ReminderService.status r <> Pending ->
  dict_get k (fst (ReminderService.scan now d)) = Some r.
Proof.
  intros Hget Hst.
  destruct (Forall2_dict_get _ _ _ (reminder_scan_marks now d) k r Hget)
    as (r' & Hget' & Hm).
  cbn beta in Hm. rewrite Hget'.
  unfold ReminderService.due in Hm. cbn [snd] in Hm.
  destruct (status_eqb (ReminderService.status r) Pending) eqn:Hp.
  - exfalso. apply Hst. now destruct (ReminderService.status r).
  - cbn [andb] in Hm. congruence.
Qed.

Lemma reminder_scan_settles now d k r :
  dict_get k d = Some r ->
  ReminderService.due now (k, r) = true ->
  exists r',
    dict_get k (fst (ReminderService.scan now d)) = Some r'
    /\ ReminderService.status r' = Sent.
Proof.
  intros Hget Hdue.
  destruct (Forall2_dict_get _ _ _ (reminder_scan_marks now d) k r Hget)
    as (r' & Hget' & Hm).
  cbn beta in Hm. rewrite Hdue in Hm. eauto.
Qed.

End CancelFacts.

(** X3.  A cancelled item is never sent.  Once the cancellation of an id
    has been accepted, a tick of the scan at any later clock reading does
    not act on that id, and leaves the item cancelled, so that the same
    holds for every tick after it.  This holds for emails and for
    reminders. *)
Theorem cancelled_item_never_sent :
  (forall email_id d f' smtp now log,
      Purge.unique_keys d ->
      Purge.cancel_pending_email email_id (Doc d) = Return (true, f') ->
      exists r sent d'',
        dict_get email_id d = Some r
        /\ EmailService.check_and_send_scheduled_emails true smtp now f' log
           = (Return sent, Doc d'',
              snd (EmailService.check_and_send_scheduled_emails true smtp
                     now f' log))
        /\ ~ List.In email_id (map EmailService.se_email_id sent)
        /\ dict_get email_id d'' = Some (Purge.cancelled_email r)
        /\ Purge.unique_keys d'')
  /\ (forall reminder_id d f' now,
        Purge.unique_keys d ->
        Purge.cancel_pending_reminder reminder_id (Doc d) = Return (true, f') ->
        exists r due d'',
          dict_get reminder_id d = Some r
          /\ ReminderService.check_and_send_scheduled_reminders now f'
             = (Return due, Doc d'')
          /\ ~ List.In reminder_id (map ReminderService.dr_reminder_id due)
          /\ dict_get reminder_id d'' = Some (Purge.cancelled_reminder r)
          /\ Purge.unique_keys d'').
Proof.
  split.
  - intros email_id d f' smtp now log Huniq H.
    unfold Purge.cancel_pending_email in H.
    cbn [mbind result_bind Py.bind EmailService.load_pending_emails
         exists_ read try_except] in H.
    destruct (dict_get email_id d) as [r|] eqn:Hget; [|discriminate].
    destruct (status_eqb (EmailService.status r) Pending); [|discriminate].
    injection H as <-.
    set (d' := dict_set email_id (Purge.cancelled_email r) d).
    assert (Hget' : dict_get email_id d' = Some (Purge.cancelled_email r))
      by apply dict_get_set.
    assert (Huniq' : Purge.unique_keys d') by now apply dict_set_unique.
    exists r. rewrite email_tick_is_scan. cbn [snd]. eexists _, _.
    split; [reflexivity|]. split; [reflexivity|]. split; [|split].
    + rewrite email_scan_ids. intros Hin.
      apply in_map_iff in Hin as ([k e] & Hk & Hin). cbn [fst] in Hk. subst k.
      apply filter_In in Hin as [Hin Hdue].
      apply (In_dict_get _ _ _ Huniq') in Hin.
      rewrite Hget' in Hin. injection Hin as <-.
      unfold EmailService.due in Hdue. discriminate.
    + apply email_scan_keeps_settled; [exact Hget'|discriminate].
    + unfold Purge.unique_keys.
      now rewrite (Forall2_keys _ _ _ (email_scan_marks smtp now d' log)).
  - intros reminder_id d f' now Huniq H.
    unfold Purge.cancel_pending_reminder in H.
    cbn [mbind result_bind Py.bind ReminderService.load_pending_reminders
         exists_ read try_except] in H.
    destruct (dict_get reminder_id d) as [r|] eqn:Hget; [|discriminate].
    destruct (status_eqb (ReminderService.status r) Pending); [|discriminate].
    injection H as <-.
    set (d' := dict_set reminder_id (Purge.cancelled_reminder r) d).
    assert (Hget' : dict_get reminder_id d'
                    = Some (Purge.cancelled_reminder r))
      by apply dict_get_set.
    assert (Huniq' : Purge.unique_keys d') by now apply dict_set_unique.
    exists r. rewrite reminder_tick_is_scan. eexists _, _.
    split; [reflexivity|]. split; [reflexivity|]. split; [|split].
    + rewrite reminder_scan_ids. intros Hin.
      apply in_map_iff in Hin as ([k e] & Hk & Hin). cbn [fst] in Hk. subst k.
      apply filter_In in Hin as [Hin Hdue].
      apply (In_dict_get _ _ _ Huniq') in Hin.
      rewrite Hget' in Hin. injection Hin as <-.
      unfold ReminderService.due in Hdue. discriminate.
    + apply reminder_scan_keeps_settled; [exact Hget'|discriminate].
    + unfold Purge.unique_keys.
      now rewrite (Forall2_keys _ _ _ (reminder_scan_marks now d')).
Qed.

Lemma cancelled_item_never_sent_witness :
  exists r sent d'',
    dict_get "email_1704074400" MoreSamples.mixed_emails = Some r
    /\ EmailService.check_and_send_scheduled_emails true Samples.smtp_ok
         (mkdt 2024 3 1 9 0 30 0) (Doc MoreSamples.mixed_emails_cancelled) []
       = (Return sent, Doc d'',
          snd (EmailService.check_and_send_scheduled_emails true
                 Samples.smtp_ok (mkdt 2024 3 1 9 0 30 0)
                 (Doc MoreSamples.mixed_emails_cancelled) []))
    /\ ~ List.In "email_1704074400" (map EmailService.se_email_id sent)
    /\ dict_get "email_1704074400" d'' = Some (Purge.cancelled_email r)
    /\ Purge.unique_keys d''.
Proof.
  apply (proj1 cancelled_item_never_sent "email_1704074400"
           MoreSamples.mixed_emails (Doc MoreSamples.mixed_emails_cancelled)).
  - repeat constructor; simpl; intuition discriminate.
  - reflexivity.
Defined.

(** X4.  An item the scan has acted on can no longer be cancelled: after a
    tick at which the item was due, the cancellation of its id is refused
    and the document stays as the tick left it.  This holds for emails,
    whether the transport accepted them or not, and for reminders. *)
Theorem processed_item_cannot_be_cancelled :
  (forall smtp now d log email_id r,
      dict_get email_id d = Some r ->
      EmailService.due now (email_id, r) = true ->
      Purge.cancel_pending_email email_id
        (snd (fst (EmailService.check_and_send_scheduled_emails true smtp now
                     (Doc d) log)))
      = Return (false,
                snd (fst (EmailService.check_and_send_scheduled_emails true
                            smtp now (Doc d) log))))
  /\ (forall now d reminder_id r,
        dict_get reminder_id d = Some r ->
        ReminderService.due now (reminder_id, r) = true ->
        Purge.cancel_pending_reminder reminder_id
          (snd (ReminderService.check_and_send_scheduled_reminders now (Doc d)))
        = Return (false,
                  snd (ReminderService.check_and_send_scheduled_reminders now
                         (Doc d)))).
Proof.
  split.
  - intros smtp now d log email_id r Hget Hdue.
    rewrite email_tick_is_scan. cbn [fst snd].
    destruct (email_scan_settles smtp now d log email_id r Hget Hdue)
      as (r' & Hget' & Hst).
    unfold Purge.cancel_pending_email.
    cbn [mbind result_bind Py.bind EmailService.load_pending_emails
         exists_ read try_except].
    rewrite Hget'. now destruct (EmailService.status r').
  - intros now d reminder_id r Hget Hdue.
    rewrite reminder_tick_is_scan. cbn [fst snd].
    destruct (reminder_scan_settles now d reminder_id r Hget Hdue)
      as (r' & Hget' & Hst).
    unfold Purge.cancel_pending_reminder.
    cbn [mbind result_bind Py.bind ReminderService.load_pending_reminders
         exists_ read try_except].
    rewrite Hget', Hst. reflexivity.
Qed.

Lemma processed_item_cannot_be_cancelled_witness :
  Purge.cancel_pending_email "email_1704074400"
    (snd (fst (EmailService.check_and_send_scheduled_emails true
                 Samples.smtp_down (mkdt 2024 3 1 9 0 30 0)
                 (Doc MoreSamples.mixed_emails) [])))
  = Return (false,
            snd (fst (EmailService.check_and_send_scheduled_emails true
                        Samples.smtp_down (mkdt 2024 3 1 9 0 30 0)
                        (Doc MoreSamples.mixed_emails) []))).
Proof.
  apply (proj1 processed_item_cannot_be_cancelled Samples.smtp_down
           (mkdt 2024 3 1 9 0 30 0) MoreSamples.mixed_emails []
           "email_1704074400" MoreSamples.waiting_email);
    reflexivity.
Defined.

Section PurgeFacts.

Lemma filter_none {A} (p : A -> bool) (l : list A) :
  List.filter p l = [] -> List.filter (fun x => negb (p x)) l = l.
Proof.
  induction l as [|x l IH]; [reflexivity|]. cbn [List.filter].
  destruct (p x); [discriminate|]. intros H. cbn [negb]. now rewrite IH.
Qed.

Lemma unique_keys_item {V} (d : dict V) (kv kv' : string * V) :
  Purge.unique_keys d -> List.In kv d -> List.In kv' d ->
  fst kv = fst kv' -> kv = kv'.
Proof.
  intros Hu Hin Hin' Hk. destruct kv as [k v], kv' as [k' v'].
  cbn [fst] in Hk. subst k'.
  apply (In_dict_get _ _ _ Hu) in Hin, Hin'. congruence.
Qed.

(** Deleting the ids collected by a test of the items removes exactly the
    items that pass the test, when ids are unique. *)
Lemma delete_collected {V} (p : string * V -> bool) (d : dict V) :
  Purge.unique_keys d ->
  fold_left (fun d k => Purge.dict_del k d) (map fst (List.filter p d)) d
  = List.filter (fun kv => negb (p kv)) d.
Proof.
  intros Hu. rewrite fold_dict_del. apply filter_ext_in. intros kv Hin.
  f_equal. destruct (p kv) eqn:Hp.
  - apply existsb_exists. exists (fst kv). split; [|apply String.eqb_refl].
    apply in_map. apply filter_In. now split.
  - apply not_true_is_false. intros H.
    apply existsb_exists in H as (k & Hk & Heq).
    apply String.eqb_eq in Heq. subst k.
    apply in_map_iff in Hk as (kv' & Hfst & Hin').
    apply filter_In in Hin' as [Hin' Hp'].
    assert (kv' = kv) by now apply (unique_keys_item d).
    congruence.
Qed.

End PurgeFacts.

(** X5.  The purge of the pending-emails document removes exactly the
    items that are sent, failed or cancelled and were created before the
    cutoff, and keeps the others in their order; in particular every
    pending item, however old, and every item created at or after the
    cutoff survives it. *)
Theorem cleanup_old_emails_removes_exactly_the_old days_old now d :
  Purge.unique_keys d ->
  Purge.cleanup_old_emails days_old now (Doc d)
  = Return (Doc (List.filter
                   (fun kv => negb (Purge.old_email days_old now kv)) d))
  /\ (forall k r,
        List.In (k, r) d ->
        EmailService.status r = Pending
        \/ (DateTime.to_us now - days_old * 86400 * 1000000
            <= DateTime.to_us (EmailService.created_time r))%Z ->
        List.In (k, r)
          (List.filter (fun kv => negb (Purge.old_email days_old now kv)) d)).
Proof.
  intros Hu. split.
  - unfold Purge.cleanup_old_emails.
    cbn [mbind result_bind Py.bind EmailService.load_pending_emails
         exists_ read try_except]. cbv zeta.
    destruct (map fst (List.filter (Purge.old_email days_old now) d))
      as [|k ks] eqn:Hks.
    + apply map_eq_nil in Hks. now rewrite filter_none.
    + rewrite <- Hks. now rewrite delete_collected.
  - intros k r Hin H. apply filter_In. split; [exact Hin|].
    unfold Purge.old_email. cbn [snd]. destruct H as [H|H].
    + now rewrite H.
    + apply negb_true_iff, andb_false_intro2. now apply Z.ltb_ge.
Qed.

Lemma cleanup_old_emails_removes_exactly_the_old_witness :
  Purge.cleanup_old_emails 7 (mkdt 2024 1 15 0 0 0 0)
    (Doc MoreSamples.mixed_emails)
  = Return (Doc (List.filter
                   (fun kv => negb (Purge.old_email 7 (mkdt 2024 1 15 0 0 0 0)
                                                    kv))
                   MoreSamples.mixed_emails))
  /\ (forall k r,
        List.In (k, r) MoreSamples.mixed_emails ->
        EmailService.status r = Pending
        \/ (DateTime.to_us (mkdt 2024 1 15 0 0 0 0) - 7 * 86400 * 1000000
            <= DateTime.to_us (EmailService.created_time r))%Z ->
        List.In (k, r)
          (List.filter
             (fun kv => negb (Purge.old_email 7 (mkdt 2024 1 15 0 0 0 0) kv))
             MoreSamples.mixed_emails)).
Proof.
  apply (cleanup_old_emails_removes_exactly_the_old 7
           (mkdt 2024 1 15 0 0 0 0) MoreSamples.mixed_emails).
  repeat constructor; simpl; intuition discriminate.
Defined.

Section ListingFacts.

Lemma insert_sorted_perm {A} (key : A -> string) x l :
  Permutation (insert_sorted key x l) (x :: l).
Proof.
  induction l as [|y l IH]; [reflexivity|]. cbn [insert_sorted].
  destruct (String.leb (key x) (key y)); [reflexivity|].
  rewrite IH. apply perm_swap.
Qed.

Lemma sort_by_perm {A} (key : A -> string) l :
  Permutation (sort_by key l) l.
Proof.
  induction l as [|x l IH]; [reflexivity|]. cbn [sort_by fold_right].
  fold (sort_by key l). rewrite insert_sorted_perm. now constructor.
Qed.

(** What is still pending after a scan: the pending items that were not
    due at the scan. *)
Lemma email_pending_after_scan smtp now d : forall log,
  List.filter (fun kv => status_eqb (EmailService.status (snd kv)) Pending)
              (fst (fst (EmailService.scan true smtp now d log)))
  = List.filter (fun kv => status_eqb (EmailService.status (snd kv)) Pending
                           && negb (EmailService.due now kv)) d.
Proof.
  induction d as [|[k e] d IH]; intros log; [reflexivity|].
  rewrite email_scan_cons. cbn [List.filter].
  destruct (EmailService.due now (k, e)) eqn:H1; cbn [fst snd List.filter].
  - rewrite andb_false_r.
    replace (status_eqb _ Pending) with false; [apply IH|].
    now destruct (EmailService.success _).
  - rewrite andb_true_r.
    destruct (status_eqb (EmailService.status e) Pending); now rewrite IH.
Qed.

End ListingFacts.

(** X6.  The listing of pending emails holds exactly the pending items of
    the document, each once; and, read after a tick of the scan, exactly
    the pending items the tick did not act on, those scheduled after its
    clock reading. *)
Theorem pending_listing_is_what_the_scan_left :
  (forall d,
      exists l,
        EmailService.get_pending_emails (Doc d) = Return l
        /\ Permutation l
             (List.filter
                (fun e => status_eqb (EmailService.status e) Pending)
                (values d)))
  /\ (forall smtp now d log,
        exists l,
          EmailService.get_pending_emails
            (snd (fst (EmailService.check_and_send_scheduled_emails true smtp
                         now (Doc d) log)))
          = Return l
          /\ Permutation l
               (map snd
                  (List.filter
                     (fun kv =>
                        status_eqb (EmailService.status (snd kv)) Pending
                        && negb (DateTime.leb
                                   (EmailService.scheduled_time (snd kv)) now))
                     d))).
Proof.
  split.
  - intros d. eexists. split; [reflexivity|]. apply sort_by_perm.
  - intros smtp now d log. rewrite email_tick_is_scan. cbn [fst snd].
    eexists. split; [reflexivity|]. rewrite sort_by_perm.
    unfold values. rewrite filter_map_swap.
    rewrite email_pending_after_scan.
    erewrite filter_ext; [reflexivity|]. intros [k e].
    unfold EmailService.due. cbn [snd].
    now destruct (status_eqb (EmailService.status e) Pending).
Qed.

Section IdFacts.

Lemma digit_char_value n :
  (0 <= n < 10)%Z ->
  Regex.is_digit (DateTime.digit_char n) = true
  /\ Z.of_nat (nat_of_ascii (DateTime.digit_char n) - 48) = n.
Proof.
  intros H. rewrite <- (Z2Nat.id n) by lia.
  assert (Hk : (Z.to_nat n < 10)%nat) by lia.
  revert Hk. generalize (Z.to_nat n) as k. intros k Hk.
  do 10 (destruct k as [|k]; [split; reflexivity|]). lia.
Qed.

(** Reading the decimal digits of a number gives the number back. *)
Lemma dec_digits_int_of fuel : forall n acc,
  (0 <= n < 2 ^ Z.of_nat fuel)%Z ->
  PyStrptime.int_of 0%Z (DateTime.dec_digits fuel n acc)
  = PyStrptime.int_of n acc.
Proof.
  induction fuel as [|fuel IH]; intros n acc Hn.
  - cbn [DateTime.dec_digits]. change (2 ^ Z.of_nat 0)%Z with 1%Z in Hn.
    now replace n with 0%Z by lia.
  - cbn [DateTime.dec_digits]. cbv zeta.
    assert (Hpow : (2 ^ Z.of_nat (S fuel) = 2 * 2 ^ Z.of_nat fuel)%Z).
    { rewrite Nat2Z.inj_succ. apply Z.pow_succ_r. lia. }
    destruct (Z.ltb_spec n 10) as [Hlt|Hge].
    + cbn [PyStrptime.int_of].
      destruct (digit_char_value (n mod 10)) as [-> ->];
        [apply Z.mod_pos_bound; lia|].
      rewrite Z.mod_small by lia. reflexivity.
    + rewrite IH.
      * cbn [PyStrptime.int_of].
        destruct (digit_char_value (n mod 10)) as [-> ->];
          [apply Z.mod_pos_bound; lia|].
        f_equal. pose proof (Z.div_mod n 10). lia.
      * split; [apply Z.div_pos; lia|].
        apply Z.div_lt_upper_bound; lia.
Qed.

Lemma str_Z_int_of n :
  (0 <= n)%Z -> PyStrptime.int_of 0%Z (DateTime.str_Z n) = n.
Proof.
  intros Hn. unfold DateTime.str_Z.
  destruct (Z.ltb_spec n 0) as [|_]; [lia|].
  rewrite dec_digits_int_of; [reflexivity|].
  split; [exact Hn|].
  destruct (Z.eq_dec n 0%Z) as [->|Hne]; [reflexivity|].
  rewrite Nat2Z.inj_succ, Z2Nat.id by apply Z.log2_nonneg.
  apply Z.log2_spec. lia.
Qed.

Lemma str_Z_inj a b :
  (0 <= a)%Z -> (0 <= b)%Z -> DateTime.str_Z a = DateTime.str_Z b -> a = b.
Proof.
  intros Ha Hb H. apply (f_equal (PyStrptime.int_of 0)) in H.
  now rewrite !str_Z_int_of in H.
Qed.

Lemma string_app_inv_head (p a b : string) :
  (p ++ a = p ++ b)%string -> a = b.
Proof.
  induction p as [|c p IH]; [trivial|].
  rewrite !string_app_cons. intros H. injection H as H. auto.
Qed.

End IdFacts.

(** X7.  Two emails saved at clock readings that fall in different whole
    seconds get different ids, and the document holds both afterwards,
    each pending and with its own recipient, subject, body and time. *)
Theorem saves_in_different_seconds_are_both_kept
        data1 scheduled1 now1 created1 data2 scheduled2 now2 created2 d
        id1 f1 id2 f2 :
  (0 <= now1)%Z -> (0 <= now2)%Z ->
  EmailService.int_timestamp now1 <> EmailService.int_timestamp now2 ->
  EmailService.save_pending_email data1 scheduled1 now1 created1 (Doc d)
  = Return (id1, f1) ->
  EmailService.save_pending_email data2 scheduled2 now2 created2 f1
  = Return (id2, f2) ->
  id1 <> id2
  /\ exists d2 r1 r2,
      f2 = Doc d2
      /\ dict_get id1 d2 = Some r1
      /\ dict_get id2 d2 = Some r2
      /\ EmailService.recipient r1 = EmailService.recipient_email data1
      /\ EmailService.subject r1 = EmailService.ed_subject data1
      /\ EmailService.body r1 = EmailService.ed_body data1
      /\ EmailService.scheduled_time r1 = scheduled1
      /\ EmailService.status r1 = Pending
      /\ EmailService.recipient r2 = EmailService.recipient_email data2
      /\ EmailService.subject r2 = EmailService.ed_subject data2
      /\ EmailService.body r2 = EmailService.ed_body data2
      /\ EmailService.scheduled_time r2 = scheduled2
      /\ EmailService.status r2 = Pending.
Proof.
  intros H1 H2 Hne S1 S2.
  unfold EmailService.save_pending_email in S1.
  cbn [mbind result_bind Py.bind EmailService.load_pending_emails
       exists_ read try_except] in S1. cbv zeta in S1.
  injection S1 as <- <-.
  unfold EmailService.save_pending_email in S2.
  cbn [mbind result_bind Py.bind EmailService.load_pending_emails
       exists_ read try_except] in S2. cbv zeta in S2.
  injection S2 as <- <-.
  assert (Hid : ("email_" ++ DateTime.str_Z (EmailService.int_timestamp now1)
                 <> "email_" ++ DateTime.str_Z (EmailService.int_timestamp now2))
                %string).
  { intros H. apply string_app_inv_head in H. apply Hne.
    apply str_Z_inj; [| |exact H];
      unfold EmailService.int_timestamp; apply Z.quot_pos; lia. }
  split; [exact Hid|].
  eexists _, _, _. split; [reflexivity|].
  split; [rewrite dict_get_set_ne by exact Hid; apply dict_get_set|].
  split; [apply dict_get_set|].
  repeat split; reflexivity.
Qed.

Lemma saves_in_different_seconds_are_both_kept_witness :
  "email_1705305570" <> "email_1705305571"
  /\ exists d2 r1 r2,
      MoreSamples.after_second_save = Doc d2
      /\ dict_get "email_1705305570" d2 = Some r1
      /\ dict_get "email_1705305571" d2 = Some r2
      /\ EmailService.recipient r1
         = EmailService.recipient_email
             (Samples.email_for "ann@example.com" "First")
      /\ EmailService.subject r1
         = EmailService.ed_subject (Samples.email_for "ann@example.com" "First")
      /\ EmailService.body r1
         = EmailService.ed_body (Samples.email_for "ann@example.com" "First")
      /\ EmailService.scheduled_time r1 = mkdt 2024 1 15 16 0 0 0
      /\ EmailService.status r1 = Pending
      /\ EmailService.recipient r2
         = EmailService.recipient_email
             (Samples.email_for "bob@example.com" "Second")
      /\ EmailService.subject r2
         = EmailService.ed_subject
             (Samples.email_for "bob@example.com" "Second")
      /\ EmailService.body r2
         = EmailService.ed_body (Samples.email_for "bob@example.com" "Second")
      /\ EmailService.scheduled_time r2 = mkdt 2024 1 15 17 0 0 0
      /\ EmailService.status r2 = Pending.
Proof.
  apply (saves_in_different_seconds_are_both_kept
           (Samples.email_for "ann@example.com" "First")
           (mkdt 2024 1 15 16 0 0 0) 1705305570500000
           (mkdt 2024 1 15 14 59 30 500000)
           (Samples.email_for "bob@example.com" "Second")
           (mkdt 2024 1 15 17 0 0 0) 1705305571500000
           (mkdt 2024 1 15 14 59 31 500000)
           [] "email_1705305570" MoreSamples.after_first_save
           "email_1705305571" MoreSamples.after_second_save).
  - lia.
  - lia.
  - intros H; vm_compute in H; discriminate.
  - reflexivity.
  - reflexivity.
Defined.

Section NotifyFacts.

(** The loop over the returned list adds one notification for each entry
    that reports success, in order, and none for the others. *)
Lemma notify_each_ids telegram sent : forall log,
  exists new,
    Purge.notify_each telegram sent log = (log ++ new)%list
    /\ map fst new
       = map EmailService.se_email_id
           (List.filter
              (fun s => EmailService.success (EmailService.se_result s)) sent).
Proof.
  induction sent as [|s sent IH]; intros log.
  - exists []. split; [now rewrite app_nil_r|reflexivity].
  - cbn [Purge.notify_each List.filter].
    destruct (EmailService.success (EmailService.se_result s)).
    + destruct (IH (log ++ [(EmailService.se_email_id s,
                             negb (raised (telegram (List.length log) s)))])
                   %list) as (new & -> & Hnew).
      eexists (_ :: new). split; [now rewrite <- app_assoc|].
      cbn [map fst]. now rewrite Hnew.
    + apply IH.
Qed.

(** An entry of the returned list that reports success belongs to an item
    that was due and that the scan marked sent. *)
Lemma email_scan_success smtp now d : forall log s,
  List.In s (snd (fst (EmailService.scan true smtp now d log))) ->
  EmailService.success (EmailService.se_result s) = true ->
  exists r r',
    List.In (EmailService.se_email_id s, r) d
    /\ EmailService.due now (EmailService.se_email_id s, r) = true
    /\ List.In (EmailService.se_email_id s, r')
         (fst (fst (EmailService.scan true smtp now d log)))
    /\ EmailService.status r' = Sent.
Proof.
  induction d as [|[k e] d IH]; intros log s Hin Hok; [destruct Hin|].
  rewrite email_scan_cons in Hin |- *.
  destruct (EmailService.due now (k, e)) eqn:Hdue; cbn [fst snd] in Hin |- *.
  - destruct Hin as [<-|Hin].
    + cbn [EmailService.se_email_id EmailService.se_result] in Hok |- *.
      rewrite Hok. exists e, (EmailService.set_sent e now).
      repeat split; auto using in_eq.
    + destruct (IH _ s Hin Hok) as (r & r' & H1 & H2 & H3 & H4).
      exists r, r'. repeat split; auto using in_cons.
  - destruct (IH _ s Hin Hok) as (r & r' & H1 & H2 & H3 & H4).
    exists r, r'. repeat split; auto using in_cons.
Qed.

End NotifyFacts.

(** X8.  The notifications of the email task follow delivery.  On a tick
    that does not draw the purge, every notification added for the user
    names an item that was due at the tick and that the document now
    records as sent; and the document and the transport log the tick
    leaves behind are the same whatever the notification channel does and
    whether or not a chat is registered. *)
Theorem email_notifications_follow_delivery
        smtp telegram user_chat_id now cleanup_time dice w d :
  Purge.emails_file w = Doc d ->
  Purge.unique_keys d ->
  dice <> 1%Z ->
  exists d' new,
    Purge.emails_file
      (Purge.send_scheduled_emails true smtp telegram user_chat_id now
         cleanup_time dice w) = Doc d'
    /\ Purge.notifications
         (Purge.send_scheduled_emails true smtp telegram user_chat_id now
            cleanup_time dice w)
       = (Purge.notifications w ++ new)%list
    /\ (forall email_id ok,
          List.In (email_id, ok) new ->
          exists r r',
            dict_get email_id d = Some r
            /\ EmailService.due now (email_id, r) = true
            /\ dict_get email_id d' = Some r'
            /\ EmailService.status r' = Sent)
    /\ (forall telegram' user_chat_id',
          Purge.emails_file
            (Purge.send_scheduled_emails true smtp telegram' user_chat_id' now
               cleanup_time dice w) = Doc d'
          /\ Purge.transport_log
               (Purge.send_scheduled_emails true smtp telegram' user_chat_id'
                  now cleanup_time dice w)
             = Purge.transport_log
                 (Purge.send_scheduled_emails true smtp telegram user_chat_id
                    now cleanup_time dice w)).
Proof.
  intros Hf Hu Hdice.
  assert (Hd : (dice =? 1)%Z = false) by now apply Z.eqb_neq.
  unfold Purge.send_scheduled_emails. cbn [negb]. rewrite Hf.
  rewrite email_tick_is_scan. rewrite Hd.
  cbn [Purge.emails_file Purge.transport_log Purge.notifications].
  set (sc := EmailService.scan true smtp now d (Purge.transport_log w)).
  assert (Hu' : Purge.unique_keys (fst (fst sc))).
  { unfold Purge.unique_keys, sc.
    now rewrite (Forall2_keys _ _ _
                   (email_scan_marks smtp now d (Purge.transport_log w))). }
  assert (Hnew : exists new,
             match snd (fst sc) with
             | [] => Purge.notifications w
             | _ :: _ =>
                 if ReminderService.chat_id_set user_chat_id
                 then Purge.notify_each telegram (snd (fst sc))
                        (Purge.notifications w)
                 else Purge.notifications w
             end = (Purge.notifications w ++ new)%list
             /\ forall email_id, List.In email_id (map fst new) ->
                  exists s, List.In s (snd (fst sc))
                            /\ EmailService.success (EmailService.se_result s)
                               = true
                            /\ EmailService.se_email_id s = email_id).
  { destruct (snd (fst sc)) as [|s0 sent0] eqn:Hsent.
    - exists []. split; [now rewrite app_nil_r|]. intros ? [].
    - destruct (ReminderService.chat_id_set user_chat_id).
      + destruct (notify_each_ids telegram (s0 :: sent0)
                    (Purge.notifications w)) as (new & Hn & Hids).
        exists new. split; [exact Hn|]. intros email_id Hin.
        rewrite Hids in Hin. apply in_map_iff in Hin as (s & Hs & Hin).
        apply filter_In in Hin as [Hin Hok]. now exists s.
      + exists []. split; [now rewrite app_nil_r|]. intros ? []. }
  destruct Hnew as (new & Hn & Hids).
  exists (fst (fst sc)), new. split; [reflexivity|].
  split; [exact Hn|]. split; [|split; reflexivity].
  intros email_id ok Hin.
  destruct (Hids email_id) as (s & Hs & Hok & <-).
  { apply in_map_iff. now exists (email_id, ok). }
  destruct (email_scan_success smtp now d _ s Hs Hok)
    as (r & r' & H1 & H2 & H3 & H4).
  exists r, r'. split; [now apply In_dict_get|].
  split; [exact H2|]. split; [now apply In_dict_get|exact H4].
Qed.

Lemma email_notifications_follow_delivery_witness :
  exists d' new,
    Purge.emails_file
      (Purge.send_scheduled_emails true Samples.smtp_ok MoreSamples.notifier_ok (Some 42%Z) (mkdt 2024 3 1 9 0 30 0)
         (mkdt 2024 3 1 9 0 31 0) 7%Z MoreSamples.first_world) = Doc d'
    /\ Purge.notifications
         (Purge.send_scheduled_emails true Samples.smtp_ok MoreSamples.notifier_ok (Some 42%Z) (mkdt 2024 3 1 9 0 30 0)
            (mkdt 2024 3 1 9 0 31 0) 7%Z MoreSamples.first_world)
       = (Purge.notifications MoreSamples.first_world ++ new)%list
    /\ (forall email_id ok,
          List.In (email_id, ok) new ->
          exists r r',
            dict_get email_id MoreSamples.mixed_emails = Some r
            /\ EmailService.due (mkdt 2024 3 1 9 0 30 0) (email_id, r) = true
            /\ dict_get email_id d' = Some r'
            /\ EmailService.status r' = Sent)
    /\ (forall telegram' user_chat_id',
          Purge.emails_file
            (Purge.send_scheduled_emails true Samples.smtp_ok telegram' user_chat_id' (mkdt 2024 3 1 9 0 30 0)
               (mkdt 2024 3 1 9 0 31 0) 7%Z MoreSamples.first_world) = Doc d'
          /\ Purge.transport_log
               (Purge.send_scheduled_emails true Samples.smtp_ok telegram' user_chat_id'
                  (mkdt 2024 3 1 9 0 30 0) (mkdt 2024 3 1 9 0 31 0) 7%Z MoreSamples.first_world)
             = Purge.transport_log
                 (Purge.send_scheduled_emails true Samples.smtp_ok MoreSamples.notifier_ok (Some 42%Z)
                    (mkdt 2024 3 1 9 0 30 0) (mkdt 2024 3 1 9 0 31 0) 7%Z MoreSamples.first_world)).
Proof.
  apply (email_notifications_follow_delivery Samples.smtp_ok
           MoreSamples.notifier_ok (Some 42%Z) (mkdt 2024 3 1 9 0 30 0)
           (mkdt 2024 3 1 9 0 31 0) 7%Z MoreSamples.first_world
           MoreSamples.mixed_emails).
  - reflexivity.
  - repeat constructor; simpl; intuition discriminate.
  - discriminate.
Defined.

(** * Properties of the reply splitter *)

Section SplitFacts.
Import Splitter.

Lemma string_app_nil_r (s : string) : (s ++ "")%string = s.
Proof.
  induction s as [|c s IH]; [reflexivity|].
  now rewrite string_app_cons, IH.
Qed.

Lemma take_drop n : forall s, (take n s ++ drop n s)%string = s.
Proof.
  induction n as [|n IH]; intros [|c s]; try reflexivity.
  cbn [take drop]. now rewrite string_app_cons, IH.
Qed.

Lemma length_take n : forall s, (String.length (take n s) <= n)%nat.
Proof.
  induction n as [|n IH]; intros [|c s]; cbn [take String.length]; try lia.
  specialize (IH s). lia.
Qed.

Lemma length_drop n : forall s,
  String.length (drop n s) = (String.length s - n)%nat.
Proof.
  induction n as [|n IH]; intros [|c s]; cbn [drop String.length]; try lia.
  apply IH.
Qed.

Lemma drop_drop a : forall b s, drop a (drop b s) = drop (b + a) s.
Proof.
  intros b. induction b as [|b IH]; intros s; [reflexivity|].
  destruct s as [|c s]; cbn [drop Nat.add].
  - now destruct a.
  - apply IH.
Qed.

Lemma drop_all n s : (String.length s <= n)%nat -> drop n s = EmptyString.
Proof.
  intros H. pose proof (length_drop n s) as L.
  destruct (drop n s); [reflexivity|]. cbn [String.length] in L. lia.
Qed.

Lemma char_at_drop i s c :
  char_at i s = Some c -> drop i s = String c (drop (S i) s).
Proof.
  unfold char_at. intros H.
  replace (S i) with (i + 1)%nat by lia. rewrite <- drop_drop.
  destruct (drop i s) as [|d t]; [discriminate|]. now injection H as ->.
Qed.

(** A chunk and the rest of the message after it. *)
Lemma slice_drop s a b :
  (a <= b)%nat -> (slice s a b ++ drop b s)%string = drop a s.
Proof.
  intros H. unfold slice.
  replace (drop b s) with (drop (b - a) (drop a s)).
  - apply take_drop.
  - rewrite drop_drop. f_equal. lia.
Qed.

Lemma rfind_below_spec c s start n p :
  rfind_below c s start n = Some p ->
  (start <= p < start + n)%nat /\ char_at p s = Some c.
Proof.
  induction n as [|n IH]; cbn [rfind_below]; [discriminate|].
  destruct (char_at (start + n) s) as [d|] eqn:E.
  - destruct (Ascii.eqb_spec c d) as [->|_].
    + intros H. injection H as <-. split; [lia|exact E].
    + intros H. destruct (IH H). split; [lia|assumption].
  - intros H. destruct (IH H). split; [lia|assumption].
Qed.

Lemma rfind_spec c s start end_ p :
  rfind c s start end_ = Some p ->
  (start <= p < end_)%nat /\ char_at p s = Some c.
Proof.
  unfold rfind. intros H. apply rfind_below_spec in H as [H1 H2].
  split; [lia|assumption].
Qed.

(** The loop finishes within the fuel it is given, and what it adds to
    the chunks stands for the rest of the message. *)
Lemma split_loop_spec limit message :
  (0 < limit)%nat ->
  forall fuel current_pos chunks,
    (String.length message - current_pos < fuel)%nat ->
    exists new seps,
      split_loop limit fuel message current_pos chunks
      = Some (chunks ++ new)%list
      /\ List.length seps = List.length new
      /\ Forall separator seps
      /\ Forall (fun c => (String.length c <= limit)%nat) new
      /\ rejoined new seps = drop current_pos message.
Proof.
  intros Hlimit. induction fuel as [|fuel IH]; intros p chunks Hfuel; [lia|].
  cbn [split_loop]. unfold Text.len.
  destruct (Nat.ltb_spec p (String.length message)) as [Hp|Hp].
  - cbv zeta.
    destruct (Nat.leb_spec (String.length message) (p + limit)) as [He|He].
    + exists [drop p message], [EmptyString].
      split; [reflexivity|]. split; [reflexivity|].
      split; [repeat constructor|].
      split; [constructor; [rewrite length_drop; lia|constructor]|].
      cbn [rejoined]. now rewrite !string_app_nil_r.
    + assert (Hb : exists b sep,
                 match rfind newline message p (p + limit) with
                 | Some q => q
                 | None =>
                     match rfind " " message p (p + limit) with
                     | Some q => q
                     | None => (p + limit)%nat
                     end
                 end = b
                 /\ (p <= b <= p + limit)%nat
                 /\ separator sep
                 /\ (sep ++ drop (if (b <? p + limit)%nat then (b + 1)%nat
                                  else b) message)%string
                    = drop b message).
      { destruct (rfind newline message p (p + limit)) as [q|] eqn:E1.
        - apply rfind_spec in E1 as [Hq Hc].
          exists q, (String newline EmptyString).
          split; [reflexivity|]. split; [lia|].
          split; [right; right; reflexivity|].
          destruct (Nat.ltb_spec q (p + limit)); [|lia].
          rewrite (char_at_drop _ _ _ Hc).
          now replace (q + 1)%nat with (S q) by lia.
        - destruct (rfind " " message p (p + limit)) as [q|] eqn:E2.
          + apply rfind_spec in E2 as [Hq Hc].
            exists q, " "%string.
            split; [reflexivity|]. split; [lia|].
            split; [right; left; reflexivity|].
            destruct (Nat.ltb_spec q (p + limit)); [|lia].
            rewrite (char_at_drop _ _ _ Hc).
            now replace (q + 1)%nat with (S q) by lia.
          + exists (p + limit)%nat, EmptyString.
            split; [reflexivity|]. split; [lia|].
            split; [left; reflexivity|].
            destruct (Nat.ltb_spec (p + limit) (p + limit)); [lia|].
            reflexivity. }
      destruct Hb as (b & sep & -> & Hrange & Hsep & Hrest).
      destruct (IH (if (b <? p + limit)%nat then (b + 1)%nat else b)
                   (chunks ++ [slice message p b])%list)
        as (new & seps & -> & Hlen & Hseps & Hsize & Hjoin).
      { destruct (Nat.ltb_spec b (p + limit)); lia. }
      exists (slice message p b :: new), (sep :: seps).
      split; [now rewrite <- app_assoc|].
      split; [cbn [List.length]; now rewrite Hlen|].
      split; [now constructor|].
      split.
      * constructor; [|exact Hsize]. unfold slice.
        pose proof (length_take (b - p) (drop p message)). lia.
      * cbn [rejoined]. rewrite Hjoin, Hrest. apply slice_drop. lia.
  - exists [], []. split; [now rewrite app_nil_r|].
    split; [reflexivity|]. split; [constructor|]. split; [constructor|].
    cbn [rejoined]. symmetry. now apply drop_all.
Qed.

End SplitFacts.

(** X9.  Splitting a reply always finishes, no chunk is longer than the
    limit of 4000 characters, and nothing but separators is lost: the
    message is the chunks in order, each followed by nothing, by one blank
    or by one line break. *)
Theorem split_long_message_chunks message :
  exists chunks seps,
    Splitter.split_long_message message = Some chunks
    /\ Forall (fun c => (Text.len c <= Splitter.MAX_MESSAGE_LENGTH)%nat)
              chunks
    /\ List.length seps = List.length chunks
    /\ Forall Splitter.separator seps
    /\ Splitter.rejoined chunks seps = message.
Proof.
  unfold Splitter.split_long_message, Splitter.split_at, Text.len.
  destruct (Nat.leb_spec (String.length message)
                         Splitter.MAX_MESSAGE_LENGTH) as [H|H].
  - exists [message], [EmptyString].
    split; [reflexivity|]. split; [constructor; [exact H|constructor]|].
    split; [reflexivity|].
    split; [constructor; [left; reflexivity|constructor]|].
    cbn [Splitter.rejoined]. now rewrite !string_app_nil_r.
  - destruct (split_loop_spec Splitter.MAX_MESSAGE_LENGTH message)
      with (fuel := S (String.length message)) (current_pos := O)
           (chunks := @nil string)
      as (new & seps & Heq & Hlen & Hseps & Hsize & Hjoin).
    + unfold Splitter.MAX_MESSAGE_LENGTH. apply Nat.lt_0_succ.
    + lia.
    + exists new, seps. repeat split; assumption.
Qed.

Section EmptyChunk.
Import Splitter.

Lemma char_at_has_char i : forall s c,
  char_at i s = Some c -> Text.has_char c s = true.
Proof.
  unfold char_at. induction i as [|i IH]; intros [|d s] c; cbn [drop];
    try discriminate.
  - intros H. injection H as ->. cbn [Text.has_char].
    now rewrite Ascii.eqb_refl.
  - intros H. cbn [Text.has_char]. rewrite (IH s c H). apply orb_true_r.
Qed.

Lemma char_at_absent i s c :
  Text.has_char c s = false -> char_at i s <> Some c.
Proof. intros H E. apply char_at_has_char in E. congruence. Qed.

Lemma char_at_cons i a s : char_at (S i) (String a s) = char_at i s.
Proof. reflexivity. Qed.

Lemma rfind_below_head_none c a body n :
  Text.has_char c body = false -> Ascii.eqb c a = false ->
  rfind_below c (String a body) 0 n = None.
Proof.
  intros Hb Ha. induction n as [|n IH]; [reflexivity|].
  cbn [rfind_below Nat.add]. destruct n as [|k].
  - unfold char_at. cbn [drop]. now rewrite Ha.
  - rewrite char_at_cons. pose proof (char_at_absent k body c Hb) as Hk.
    destruct (char_at k body) as [d|]; [|exact IH].
    destruct (Ascii.eqb_spec c d) as [->|_]; [congruence|exact IH].
Qed.

Lemma rfind_below_head c body n :
  Text.has_char c body = false ->
  rfind_below c (String c body) 0 (S n) = Some O.
Proof.
  intros Hb. induction n as [|n IH].
  - cbn [rfind_below Nat.add]. unfold char_at. cbn [drop].
    now rewrite Ascii.eqb_refl.
  - cbn [rfind_below Nat.add] in IH |- *. rewrite char_at_cons.
    pose proof (char_at_absent n body c Hb) as Hn.
    destruct (char_at n body) as [d|]; [|exact IH].
    destruct (Ascii.eqb_spec c d) as [->|_]; [congruence|exact IH].
Qed.

Lemma split_at_leading_blank limit body :
  String.length body = limit -> (0 < limit)%nat ->
  Text.has_char newline body = false ->
  Text.has_char " " body = false ->
  split_at limit (String " " body) = Some [EmptyString; body].
Proof.
  intros Hlen Hpos Hnl Hsp. unfold split_at, Text.len.
  cbn [String.length]. rewrite Hlen.
  destruct (Nat.leb_spec (S limit) limit) as [|_]; [lia|].
  cbn [split_loop]. unfold Text.len. cbn [String.length Nat.add].
  rewrite Hlen.
  destruct (Nat.ltb_spec 0 (S limit)) as [_|]; [|lia].
  destruct (Nat.leb_spec (S limit) limit) as [|_]; [lia|].
  unfold rfind. rewrite Nat.sub_0_r.
  rewrite rfind_below_head_none by (exact Hnl || reflexivity).
  destruct limit as [|k]; [lia|].
  rewrite rfind_below_head by exact Hsp.
  destruct (Nat.ltb_spec 0 (S k)) as [_|]; [|lia].
  cbn [Nat.add app].
  destruct (Nat.ltb_spec 1 (S (S k))) as [_|]; [|lia].
  destruct (Nat.leb_spec (S (S k)) (S (S k))) as [_|]; [|lia].
  reflexivity.
Qed.

End EmptyChunk.

(** X10.  A chunk can be empty.  When a reply of 4001 characters begins
    with a blank and holds no other blank and no line break, the splitter
    breaks at that first blank: the first chunk it returns is the empty
    text and the second is the rest of the reply. *)
Theorem split_long_message_empty_chunk body :
  Text.len body = Splitter.MAX_MESSAGE_LENGTH ->
  Text.has_char Splitter.newline body = false ->
  Text.has_char " " body = false ->
  Splitter.split_long_message (String " " body) = Some [EmptyString; body].
Proof.
  intros Hlen Hnl Hsp. unfold Splitter.split_long_message.
  apply split_at_leading_blank; try assumption.
  unfold Splitter.MAX_MESSAGE_LENGTH. apply Nat.lt_0_succ.
Qed.

Lemma split_long_message_empty_chunk_witness :
  Splitter.split_long_message (String " " MoreSamples.long_word)
  = Some [EmptyString; MoreSamples.long_word].
Proof.
  apply (split_long_message_empty_chunk MoreSamples.long_word);
    vm_compute; reflexivity.
Defined.

(** * Properties of the bulk deletions *)

Section BulkDeleteFacts.
Import BulkDelete.

(** The loop asks for the deletion of each event it is given, once and in
    order, and counts each request as deleted or as failed. *)
Lemma delete_each_spec service events : forall deleted_count failed_count log,
  snd (delete_each service events deleted_count failed_count log)
  = (log ++ map event_id events)%list
  /\ (fst (fst (delete_each service events deleted_count failed_count log))
      + snd (fst (delete_each service events deleted_count failed_count log))
      = deleted_count + failed_count + List.length events)%nat.
Proof.
  induction events as [|event rest IH]; intros d f log.
  - cbn [delete_each fst snd map List.length]. rewrite app_nil_r.
    split; [reflexivity|lia].
  - cbn [delete_each map List.length].
    destruct (service (List.length log) (event_id event)).
    + destruct (IH (S d) f (log ++ [event_id event])%list) as [-> ->].
      rewrite <- app_assoc. split; [reflexivity|lia].
    + destruct (IH d (S f) (log ++ [event_id event])%list) as [-> ->].
      rewrite <- app_assoc. split; [reflexivity|lia].
Qed.

Lemma contains_empty s : Text.contains "" s = true.
Proof. now destruct s. Qed.

End BulkDeleteFacts.

(** X11.  What a bulk deletion asks the calendar service to delete.
    Deleting by title requests the deletion of exactly the listed events
    whose title contains the pattern, letter case aside, once each and in
    the order of the listing, and the two counts of its answer add up to
    their number; clearing requests every listed event; with the empty
    pattern deleting by title requests what clearing requests; and a
    listing that fails is answered as a calendar without events, with no
    request made. *)
Theorem bulk_deletion_requests :
  (forall is_authenticated listing service title_pattern log,
      snd (BulkDelete.delete_events_by_title is_authenticated listing service
             title_pattern log)
      = (log ++ map BulkDelete.event_id
                    (List.filter (BulkDelete.title_matches title_pattern)
                       (BulkDelete.get_events_data is_authenticated listing)))
        %list
      /\ forall p deleted_count failed_count,
          fst (BulkDelete.delete_events_by_title is_authenticated listing
                 service title_pattern log)
          = BulkDelete.DeletedMatching p deleted_count failed_count ->
          (deleted_count + failed_count
           = List.length
               (List.filter (BulkDelete.title_matches title_pattern)
                  (BulkDelete.get_events_data is_authenticated listing)))%nat)
  /\ (forall is_authenticated listing service log,
        snd (BulkDelete.clear_all_events is_authenticated listing service log)
        = (log ++ map BulkDelete.event_id
                      (BulkDelete.get_events_data is_authenticated listing))
          %list
        /\ snd (BulkDelete.delete_events_by_title is_authenticated listing
                  service "" log)
           = snd (BulkDelete.clear_all_events is_authenticated listing
                    service log))
  /\ (forall e service log,
        BulkDelete.clear_all_events true (Raise e) service log
        = (BulkDelete.NoUpcomingEvents, log)).
Proof.
  assert (Hby : forall is_authenticated listing service title_pattern log,
      snd (BulkDelete.delete_events_by_title is_authenticated listing service
             title_pattern log)
      = (log ++ map BulkDelete.event_id
                    (List.filter (BulkDelete.title_matches title_pattern)
                       (BulkDelete.get_events_data is_authenticated listing)))
        %list).
  { intros a listing service pattern log.
    unfold BulkDelete.delete_events_by_title.
    destruct a; cbn [negb]; [|cbn; now rewrite app_nil_r]. cbv zeta.
    destruct (List.filter _ _) as [|ev evs] eqn:E;
      [cbn; now rewrite app_nil_r|].
    pose proof (delete_each_spec service (ev :: evs) 0 0 log) as [H _].
    destruct (BulkDelete.delete_each service (ev :: evs) 0 0 log)
      as [[d f] log']. exact H. }
  assert (Hall : forall is_authenticated listing service log,
      snd (BulkDelete.clear_all_events is_authenticated listing service log)
      = (log ++ map BulkDelete.event_id
                    (BulkDelete.get_events_data is_authenticated listing))
        %list).
  { intros a listing service log. unfold BulkDelete.clear_all_events.
    destruct a; cbn [negb]; [|cbn; now rewrite app_nil_r]. cbv zeta.
    destruct (BulkDelete.get_events_data true listing) as [|ev evs] eqn:E;
      [cbn; now rewrite app_nil_r|].
    pose proof (delete_each_spec service (ev :: evs) 0 0 log) as [H _].
    destruct (BulkDelete.delete_each service (ev :: evs) 0 0 log)
      as [[d f] log']. exact H. }
  split; [|split].
  - intros a listing service pattern log. split; [apply Hby|].
    intros p d f. unfold BulkDelete.delete_events_by_title.
    destruct a; cbn [negb]; [|discriminate]. cbv zeta.
    destruct (List.filter _ _) as [|ev evs] eqn:E; [discriminate|].
    pose proof (delete_each_spec service (ev :: evs) 0 0 log) as [_ H].
    destruct (BulkDelete.delete_each service (ev :: evs) 0 0 log)
      as [[d' f'] log']. cbn [fst snd] in *. intros Heq.
    injection Heq as _ <- <-. lia.
  - intros a listing service log. split; [apply Hall|].
    rewrite Hby, Hall. do 2 f_equal.
    clear. induction (BulkDelete.get_events_data a listing) as [|ev evs IH];
      [reflexivity|].
    cbn [List.filter]. unfold BulkDelete.title_matches at 1.
    cbn [Text.lower]. rewrite contains_empty. now rewrite IH.
  - reflexivity.
Qed.

(** * Further properties of the calendar reminders *)

(** X12.  When a calendar reminder is chosen.  Every reminder the scan of
    a tick returns belongs to an event of that tick's listing which has not
    started yet; a reminder before the event is chosen only from
    [minutes_before] to [minutes_before + 5] minutes ahead of the start, a
    reminder at the event only when these are enabled and the start is at
    most five minutes ahead; and its identifier is not in the set of sent
    reminders. *)
Theorem calendar_reminder_windows h now minutes_before at_event_time listing
        info :
  List.In info
    (CalendarHandler.get_events_needing_reminders h now minutes_before
       at_event_time listing) ->
  CalendarHandler.is_authenticated h = true
  /\ exists events ev,
      listing = Return events
      /\ List.In ev events
      /\ CalendarHandler.ei_id info = CalendarHandler.ev_id ev
      /\ CalendarHandler.ei_start_datetime info
         = CalendarHandler.event_datetime ev
      /\ DateTime.leb (CalendarHandler.event_datetime ev) now = false
      /\ CalendarHandler.minutes_until info
         = Z.quot (DateTime.to_us (CalendarHandler.event_datetime ev)
                   - DateTime.to_us now) CalendarHandler.minute_us
      /\ match CalendarHandler.ei_reminder_type info with
         | CalendarHandler.before =>
             (minutes_before * CalendarHandler.minute_us
              <= DateTime.to_us (CalendarHandler.event_datetime ev)
                 - DateTime.to_us now
              <= (minutes_before + 5) * CalendarHandler.minute_us)%Z
         | CalendarHandler.at_time =>
             at_event_time = true
             /\ (0 <= DateTime.to_us (CalendarHandler.event_datetime ev)
                      - DateTime.to_us now
                 <= 5 * CalendarHandler.minute_us)%Z
         end
      /\ CalendarHandler.reminder_id info ∉ CalendarHandler.sent_reminders h.
Proof.
  unfold CalendarHandler.get_events_needing_reminders. intros Hin.
  destruct (CalendarHandler.is_authenticated h); cbn [negb] in Hin;
    [|destruct Hin].
  split; [reflexivity|].
  destruct listing as [events|e]; [|destruct Hin].
  apply omap_In in Hin as (ev & Hev & Hsome).
  exists events, ev. split; [reflexivity|]. split; [exact Hev|].
  unfold CalendarHandler.needs_reminder in Hsome.
  destruct (DateTime.leb (CalendarHandler.event_datetime ev) now);
    [discriminate|].
  cbv zeta in Hsome.
  match type of Hsome with (if ?b then _ else _) = _ =>
    destruct b eqn:E1 end.
  - injection Hsome as <-.
    cbn [CalendarHandler.ei_id CalendarHandler.ei_start_datetime
         CalendarHandler.minutes_until CalendarHandler.ei_reminder_type
         CalendarHandler.reminder_id].
    apply andb_prop in E1 as [E1 E3]. apply andb_prop in E1 as [E1 E2].
    apply Z.leb_le in E1, E2. apply negb_true_iff in E3.
    apply bool_decide_eq_false in E3.
    repeat split; auto.
  - match type of Hsome with (if ?b then _ else _) = _ =>
      destruct b eqn:E2 end; [|discriminate].
    injection Hsome as <-.
    cbn [CalendarHandler.ei_id CalendarHandler.ei_start_datetime
         CalendarHandler.minutes_until CalendarHandler.ei_reminder_type
         CalendarHandler.reminder_id].
    apply andb_prop in E2 as [E2 E5]. apply andb_prop in E2 as [E2 E4].
    apply andb_prop in E2 as [E2 E3].
    apply Z.leb_le in E3, E4. apply negb_true_iff in E5.
    apply bool_decide_eq_false in E5.
    repeat split; auto.
Qed.

Lemma calendar_reminder_windows_witness :
  CalendarHandler.is_authenticated Samples.authenticated = true
  /\ exists events ev,
      Return [Samples.lecture] = Return events
      /\ List.In ev events
      /\ CalendarHandler.ei_id MoreSamples.lecture_reminder
         = CalendarHandler.ev_id ev
      /\ CalendarHandler.ei_start_datetime MoreSamples.lecture_reminder
         = CalendarHandler.event_datetime ev
      /\ DateTime.leb (CalendarHandler.event_datetime ev)
                      (mkdt 2024 1 15 13 55 0 0) = false
      /\ CalendarHandler.minutes_until MoreSamples.lecture_reminder
         = Z.quot (DateTime.to_us (CalendarHandler.event_datetime ev)
                   - DateTime.to_us (mkdt 2024 1 15 13 55 0 0))
                  CalendarHandler.minute_us
      /\ match CalendarHandler.ei_reminder_type MoreSamples.lecture_reminder
         with
         | CalendarHandler.before =>
             (15 * CalendarHandler.minute_us
              <= DateTime.to_us (CalendarHandler.event_datetime ev)
                 - DateTime.to_us (mkdt 2024 1 15 13 55 0 0)
              <= (15 + 5) * CalendarHandler.minute_us)%Z
         | CalendarHandler.at_time =>
             true = true
             /\ (0 <= DateTime.to_us (CalendarHandler.event_datetime ev)
                      - DateTime.to_us (mkdt 2024 1 15 13 55 0 0)
                 <= 5 * CalendarHandler.minute_us)%Z
         end
      /\ CalendarHandler.reminder_id MoreSamples.lecture_reminder
         ∉ CalendarHandler.sent_reminders Samples.authenticated.
Proof.
  apply (calendar_reminder_windows Samples.authenticated
           (mkdt 2024 1 15 13 55 0 0) 15%Z true (Return [Samples.lecture])
           MoreSamples.lecture_reminder).
  left. reflexivity.
Defined.

Section BoundFacts.

Lemma cleanup_bounded h :
  (size (CalendarHandler.sent_reminders (CalendarHandler.cleanup_old_reminders h))
   <= 1000)%nat.
Proof.
  unfold CalendarHandler.cleanup_old_reminders.
  destruct (Z.ltb_spec 1000 (Z.of_nat (size (CalendarHandler.sent_reminders h))))
    as [H|H]; cbn [CalendarHandler.sent_reminders].
  - rewrite size_empty. lia.
  - lia.
Qed.

Lemma tick_bounded minutes_before at_event_time telegram t h log :
  (size (CalendarHandler.sent_reminders h) <= 1000)%nat ->
  (size (CalendarHandler.sent_reminders
           (fst (CalendarHandler.send_calendar_reminders minutes_before
                   at_event_time telegram t h log))) <= 1000)%nat.
Proof.
  intros H. unfold CalendarHandler.send_calendar_reminders.
  destruct (negb (ReminderService.chat_id_set _)); [exact H|].
  destruct (negb (CalendarHandler.is_authenticated h)); [exact H|].
  cbv zeta.
  destruct (CalendarHandler.get_events_needing_reminders h _ _ _ _)
    as [|ev evs].
  - exact H.
  - destruct (CalendarHandler.send_each telegram (ev :: evs) h log)
      as [h' log']. apply cleanup_bounded.
Qed.

End BoundFacts.

(** X13.  The set of sent calendar reminders stays bounded: when it holds
    at most 1000 identifiers, it holds at most 1000 after any sequence of
    ticks, whatever the listings and the deliveries. *)
Theorem sent_reminders_stay_bounded minutes_before at_event_time telegram
        ticks :
  forall h log,
    (size (CalendarHandler.sent_reminders h) <= 1000)%nat ->
    (size (CalendarHandler.sent_reminders
             (fst (CalendarHandler.run minutes_before at_event_time telegram
                     ticks h log))) <= 1000)%nat.
Proof.
  induction ticks as [|t ticks IH]; intros h log H; [exact H|].
  cbn [CalendarHandler.run].
  pose proof (tick_bounded minutes_before at_event_time telegram t h log H)
    as Ht.
  destruct (CalendarHandler.send_calendar_reminders minutes_before
              at_event_time telegram t h log) as [h' log'].
  now apply IH.
Qed.

Lemma sent_reminders_stay_bounded_witness :
  (size (CalendarHandler.sent_reminders
           (fst (CalendarHandler.run 15 true Samples.always_delivers
                   Samples.two_ticks Samples.authenticated [])))
   <= 1000)%nat.
Proof.
  apply (sent_reminders_stay_bounded 15 true Samples.always_delivers
           Samples.two_ticks Samples.authenticated []).
  vm_compute. lia.
Defined.

(** * Further properties of the dispatch *)

Section DispatchFacts.

Lemma lex_compare_antisym a : forall b,
  DateTime.lex_compare b a = CompOpp (DateTime.lex_compare a b).
Proof.
  induction a as [|x a IH]; intros [|y b]; cbn [DateTime.lex_compare];
    try reflexivity.
  rewrite (Z.compare_antisym x y).
  destruct (x ?= y)%Z; cbn [CompOpp]; auto.
Qed.

(** A time after the reference time is not yet due at it. *)
Lemma gtb_not_leb a b : DateTime.gtb a b = true -> DateTime.leb a b = false.
Proof.
  unfold DateTime.gtb, DateTime.ltb, DateTime.leb, DateTime.compare.
  rewrite (lex_compare_antisym (DateTime.fields a) (DateTime.fields b)).
  now destruct (DateTime.lex_compare (DateTime.fields a) (DateTime.fields b)).
Qed.

Lemma schedule_or_send_later send_time current_time t :
  Dispatcher.schedule_or_send send_time current_time = Return (Some t) ->
  DateTime.gtb t current_time = true.
Proof.
  unfold Dispatcher.schedule_or_send. destruct send_time as [s|];
    [|discriminate].
  destruct (DateTime.replace current_time None None (Some 0%Z) (Some 0%Z))
    as [cm|e]; cbn [mbind result_bind Py.bind]; [|discriminate].
  destruct (DateTime.replace s None None (Some 0%Z) (Some 0%Z))
    as [sm|e]; cbn [mbind result_bind Py.bind]; [|discriminate].
  destruct (if DateTime.eqb sm cm then _ else _) as [s'|e];
    cbn [mbind result_bind Py.bind]; [|discriminate].
  destruct (DateTime.gtb s' current_time) eqn:E; [|discriminate].
  intros H. injection H as <-. exact E.
Qed.

End DispatchFacts.

(** X14.  A dispatch stores or sends, never both.  When the answer of
    [execute_email_action] is that the email was scheduled, the transport
    was not contacted, the document holds under the returned id a pending
    item for the returned time, and that time is after the reference time
    of the dispatch, so that the item is not due at it.  With every other
    answer the document is the one the dispatch was given. *)
Theorem email_dispatch_stores_or_sends :
  forall (S : Strptime) available oracle smtp clk action msg f log,
    match fst (fst (Dispatcher.execute_email_action available oracle smtp
                      clk action msg f log)) with
    | Dispatcher.EmailScheduled email_id send_time =>
        snd (Dispatcher.execute_email_action available oracle smtp clk
               action msg f log) = log
        /\ DateTime.gtb send_time (Dispatcher.current_time clk) = true
        /\ exists d' r,
            snd (fst (Dispatcher.execute_email_action available oracle smtp
                        clk action msg f log)) = Doc d'
            /\ dict_get email_id d' = Some r
            /\ EmailService.status r = Pending
            /\ EmailService.scheduled_time r = send_time
            /\ EmailService.due (Dispatcher.current_time clk) (email_id, r)
               = false
    | _ =>
        snd (fst (Dispatcher.execute_email_action available oracle smtp clk
                    action msg f log)) = f
    end.
Proof.
  intros S available oracle smtp clk action msg f log.
  unfold Dispatcher.execute_email_action.
  destruct available; cbn [negb]; [|reflexivity].
  destruct action as [[a]|]; [|reflexivity].
  destruct (oracle msg) as [data|]; [|reflexivity]. cbv zeta.
  destruct (Dispatcher.schedule_or_send _ _) as [[t|]|e] eqn:Hs;
    [| |reflexivity].
  - apply schedule_or_send_later in Hs.
    unfold EmailService.save_pending_email. cbv zeta.
    destruct (EmailService.load_pending_emails f) as [d|e];
      cbn [mbind result_bind Py.bind mret result_ret fst snd];
      [|reflexivity].
    split; [reflexivity|]. split; [exact Hs|].
    eexists _, _. split; [reflexivity|].
    split; [apply dict_get_set|].
    split; [reflexivity|]. split; [reflexivity|].
    unfold EmailService.due. cbn [snd EmailService.scheduled_time
                                  EmailService.status status_eqb andb].
    now apply gtb_not_leb.
  - destruct (EmailService.send_email_now true smtp log _ _ _)
      as [result log'].
    now destruct (EmailService.success result).
Qed.

Section SaveFacts.

Lemma dict_set_absent {V} (k : string) (v : V) d :
  dict_get k d = None -> dict_set k v d = (d ++ [(k, v)])%list.
Proof.
  induction d as [|[k' v'] d IH]; cbn [dict_get dict_set app];
    [reflexivity|].
  destruct (String.eqb k k'); [discriminate|]. intros H. now rewrite IH.
Qed.

End SaveFacts.

(** X15.  A saved email goes out at the first tick at or after its time.
    When an email is saved under an id the document does not hold yet, a
    tick of the scan hands the transport the due items of the document as
    it was, in order, and after them the saved email, with its recipient,
    subject and body, if and only if its scheduled time is not after the
    clock reading of the tick. *)
Theorem saved_email_is_sent_when_due
        data scheduled now_us created d email_id f' smtp now log :
  EmailService.save_pending_email data scheduled now_us created (Doc d)
  = Return (email_id, f') ->
  dict_get email_id d = None ->
  snd (EmailService.check_and_send_scheduled_emails true smtp now f' log)
  = (log ++ map EmailService.transaction
              (List.filter (EmailService.due now) d)
         ++ (if DateTime.leb scheduled now
             then [(EmailService.recipient_email data,
                    EmailService.ed_subject data,
                    EmailService.ed_body data)]
             else []))%list.
Proof.
  intros Hsave Hfresh.
  unfold EmailService.save_pending_email in Hsave.
  cbn [mbind result_bind Py.bind EmailService.load_pending_emails
       exists_ read try_except] in Hsave. cbv zeta in Hsave.
  injection Hsave as <- <-.
  rewrite email_tick_is_scan. cbn [snd].
  rewrite email_scan_log, dict_set_absent by exact Hfresh.
  rewrite List.filter_app, List.map_app. do 2 f_equal.
  cbn [List.filter]. unfold EmailService.due at 1.
  cbn [snd EmailService.status EmailService.scheduled_time status_eqb andb].
  now destruct (DateTime.leb scheduled now).
Qed.

Lemma saved_email_is_sent_when_due_witness :
  snd (EmailService.check_and_send_scheduled_emails true Samples.smtp_ok
         (mkdt 2024 1 15 16 0 5 0) MoreSamples.after_first_save [])
  = ([] ++ map EmailService.transaction
             (List.filter (EmailService.due (mkdt 2024 1 15 16 0 5 0)) [])
        ++ (if DateTime.leb (mkdt 2024 1 15 16 0 0 0)
                            (mkdt 2024 1 15 16 0 5 0)
            then [(EmailService.recipient_email
                     (Samples.email_for "ann@example.com" "First"),
                   EmailService.ed_subject
                     (Samples.email_for "ann@example.com" "First"),
                   EmailService.ed_body
                     (Samples.email_for "ann@example.com" "First"))]
            else []))%list.
Proof.
  apply (saved_email_is_sent_when_due
           (Samples.email_for "ann@example.com" "First")
           (mkdt 2024 1 15 16 0 0 0) 1705305570500000
           (mkdt 2024 1 15 14 59 30 500000) [] "email_1705305570"
           MoreSamples.after_first_save Samples.smtp_ok
           (mkdt 2024 1 15 16 0 5 0) []);
    reflexivity.
Defined.

(** * Further properties of the intent detection *)

Section SubstringFacts.

Lemma startswith_app_contains p q : forall s,
  Text.startswith (p ++ q) s = true -> Text.contains q s = true.
Proof.
  induction p as [|a p IH]; intros s.
  - change (("" ++ q)%string) with q. intros H.
    destruct s; cbn [Text.contains]; now rewrite H.
  - rewrite string_app_cons. destruct s as [|b s]; cbn [Text.startswith].
    + discriminate.
    + intros H. apply andb_prop in H as [_ H]. apply IH in H.
      cbn [Text.contains]. rewrite H. apply orb_true_r.
Qed.

(** A text that holds [p ++ q] holds [q]. *)
Lemma contains_app p q : forall s,
  Text.contains (p ++ q) s = true -> Text.contains q s = true.
Proof.
  induction s as [|b s IH]; cbn [Text.contains]; intros H.
  - rewrite orb_false_r in H. apply startswith_app_contains in H.
    cbn [Text.contains] in H. exact H.
  - apply orb_prop in H as [H|H].
    + apply startswith_app_contains in H. cbn [Text.contains] in H. exact H.
    + rewrite (IH H). apply orb_true_r.
Qed.

End SubstringFacts.

(** X16.  A message that speaks of all my meetings or all my events never
    clears the calendar.  Whatever else it says, the calendar detection
    answers nothing, a creation, or the deletion of the events whose title
    holds the word meeting (when the message holds meetings) or the word
    event (otherwise); it never answers a clearing of the calendar,
    confirmed or not. *)
Theorem all_my_meetings_never_clears user_message :
  Text.contains "all my meetings" (Text.lower user_message)
  || Text.contains "all my events" (Text.lower user_message) = true ->
  (forall confirmed,
      Classifier.detect_calendar_action user_message
      <> Some (Classifier.CalClearAll confirmed))
  /\ (forall pattern,
        Classifier.detect_calendar_action user_message
        = Some (Classifier.CalDeletePattern pattern) ->
        pattern = if Text.contains "meetings" (Text.lower user_message)
                  then "meeting" else "event").
Proof.
  intros H.
  assert (Hword : Text.contains "meetings" (Text.lower user_message) = true
                  \/ (Text.contains "meetings" (Text.lower user_message) = false
                      /\ Text.contains "events" (Text.lower user_message)
                         = true)).
  { destruct (Text.contains "meetings" (Text.lower user_message)) eqn:Hm;
      [now left|right]. split; [reflexivity|].
    apply orb_prop in H as [H|H].
    - apply (contains_app "all my " "meetings") in H. congruence.
    - now apply (contains_app "all my " "events") in H. }
  unfold Classifier.detect_calendar_action. cbv zeta. rewrite H.
  destruct (Text.any_in Classifier.query_patterns _);
    [split; intros; discriminate|].
  destruct (Text.any_in Classifier.delete_patterns _).
  - destruct Hword as [->|[-> ->]]; split; intros; congruence.
  - destruct (Text.any_in Classifier.create_patterns _);
      split; intros; discriminate.
Qed.

Lemma all_my_meetings_never_clears_witness :
  (forall confirmed,
      Classifier.detect_calendar_action "yes, clear all my events"
      <> Some (Classifier.CalClearAll confirmed))
  /\ (forall pattern,
        Classifier.detect_calendar_action "yes, clear all my events"
        = Some (Classifier.CalDeletePattern pattern) ->
        pattern = if Text.contains "meetings"
                       (Text.lower "yes, clear all my events")
                  then "meeting" else "event").
Proof.
  apply (all_my_meetings_never_clears "yes, clear all my events").
  reflexivity.
Defined.

(** * The order of the pending listing *)

Section NumeralFacts.
Import Numerals.
Local Open Scope Z_scope.

Lemma string_length_app (u v : string) :
  String.length (u ++ v) = (String.length u + String.length v)%nat.
Proof.
  induction u as [|c u IH]; [reflexivity|].
  rewrite string_app_cons. cbn [String.length]. now rewrite IH.
Qed.

Lemma dec_digits_acc fuel : forall n acc,
  DateTime.dec_digits fuel n acc
  = (DateTime.dec_digits fuel n "" ++ acc)%string.
Proof.
  induction fuel as [|fuel IH]; intros n acc; [reflexivity|].
  cbn [DateTime.dec_digits]. cbv zeta.
  destruct (n <? 10); [reflexivity|].
  rewrite IH, (IH _ (String _ EmptyString)), <- string_app_assoc.
  reflexivity.
Qed.

Lemma dec_digits_fuel f1 : forall f2 n acc,
  0 <= n < 2 ^ Z.of_nat (S f1) -> n < 2 ^ Z.of_nat (S f2) ->
  DateTime.dec_digits (S f1) n acc = DateTime.dec_digits (S f2) n acc.
Proof.
  induction f1 as [|f1 IH]; intros f2 n acc H1 H2.
  - change (2 ^ Z.of_nat 1) with 2 in H1. cbn [DateTime.dec_digits].
    destruct (Z.ltb_spec n 10); [reflexivity|lia].
  - remember (S f1) as g1. cbn [DateTime.dec_digits]. cbv zeta.
    destruct (Z.ltb_spec n 10) as [|Hn]; [reflexivity|]. subst g1.
    assert (Hp1 : 2 ^ Z.of_nat (S (S f1)) = 2 * 2 ^ Z.of_nat (S f1)).
    { rewrite (Nat2Z.inj_succ (S f1)). apply Z.pow_succ_r. lia. }
    assert (Hp2 : 2 ^ Z.of_nat (S f2) = 2 * 2 ^ Z.of_nat f2).
    { rewrite Nat2Z.inj_succ. apply Z.pow_succ_r. lia. }
    assert (H10 : 1 <= n / 10) by (apply Z.div_le_lower_bound; lia).
    destruct f2 as [|f2].
    { change (2 ^ Z.of_nat 1) with 2 in H2. lia. }
    apply IH.
    + split; [lia|]. apply Z.div_lt_upper_bound; lia.
    + apply Z.div_lt_upper_bound; lia.
Qed.

Lemma log2_fuel n :
  0 <= n -> n < 2 ^ Z.of_nat (S (Z.to_nat (Z.log2 n))).
Proof.
  intros Hn. destruct (Z.eq_dec n 0) as [->|Hne]; [reflexivity|].
  rewrite Nat2Z.inj_succ, Z2Nat.id by apply Z.log2_nonneg.
  apply Z.log2_spec. lia.
Qed.

Lemma str_Z_small n :
  0 <= n < 10 -> DateTime.str_Z n = String (DateTime.digit_char n) "".
Proof.
  intros H. unfold DateTime.str_Z.
  destruct (Z.ltb_spec n 0); [lia|]. cbn [DateTime.dec_digits]. cbv zeta.
  destruct (Z.ltb_spec n 10); [|lia]. now rewrite Z.mod_small by lia.
Qed.

Lemma str_Z_step n :
  10 <= n ->
  DateTime.str_Z n
  = (DateTime.str_Z (n / 10)
     ++ String (DateTime.digit_char (n mod 10)) "")%string.
Proof.
  intros H. unfold DateTime.str_Z.
  assert (H10 : 1 <= n / 10) by (apply Z.div_le_lower_bound; lia).
  destruct (Z.ltb_spec n 0); [lia|].
  destruct (Z.ltb_spec (n / 10) 0); [lia|].
  cbn [DateTime.dec_digits]. cbv zeta.
  destruct (Z.ltb_spec n 10); [lia|].
  rewrite dec_digits_acc. f_equal.
  pose proof (log2_fuel n ltac:(lia)) as Hf.
  assert (Hlog : 3 <= Z.log2 n).
  { apply Z.log2_le_pow2; [lia|]. change (2 ^ 3) with 8. lia. }
  destruct (Z.to_nat (Z.log2 n)) as [|k] eqn:Hk; [lia|].
  apply dec_digits_fuel.
  - split; [lia|].
    assert (Hp : 2 ^ Z.of_nat (S (S k)) = 2 * 2 ^ Z.of_nat (S k)).
    { rewrite (Nat2Z.inj_succ (S k)). apply Z.pow_succ_r. lia. }
    apply Z.div_lt_upper_bound; lia.
  - apply log2_fuel. lia.
Qed.

Lemma zeros_snoc w :
  (DateTime.zeros w ++ "0")%string = String "0" (DateTime.zeros w).
Proof.
  induction w as [|w IH]; [reflexivity|].
  cbn [DateTime.zeros]. now rewrite string_app_cons, IH.
Qed.

Lemma fixed_width_zero w : fixed_width w 0 = DateTime.zeros w.
Proof.
  induction w as [|w IH]; [reflexivity|].
  cbn [fixed_width DateTime.zeros].
  change (0 / 10) with 0. change (0 mod 10) with 0. rewrite IH.
  apply zeros_snoc.
Qed.

Lemma length_str_Z_pos n : 0 <= n -> (1 <= String.length (DateTime.str_Z n))%nat.
Proof.
  intros H. destruct (Z.lt_ge_cases n 10).
  - rewrite str_Z_small by lia. cbn. lia.
  - rewrite str_Z_step by lia. rewrite string_length_app. cbn. lia.
Qed.

(** A zero-padded field is the numeral of fixed width. *)
Lemma pad_fixed_width w : forall n,
  0 <= n < 10 ^ Z.of_nat (S w) ->
  DateTime.pad (S w) n = fixed_width (S w) n.
Proof.
  induction w as [|w IH]; intros n Hn.
  - change (10 ^ Z.of_nat 1) with 10 in Hn.
    unfold DateTime.pad. cbv zeta. rewrite str_Z_small by lia.
    cbn [String.length Nat.sub DateTime.zeros fixed_width].
    rewrite Z.mod_small by lia. reflexivity.
  - assert (Hp : 10 ^ Z.of_nat (S (S w)) = 10 * 10 ^ Z.of_nat (S w)).
    { rewrite (Nat2Z.inj_succ (S w)). apply Z.pow_succ_r. lia. }
    remember (S w) as w1. cbn [fixed_width].
    destruct (Z.lt_ge_cases n 10) as [Hs|Hl].
    + unfold DateTime.pad. cbv zeta. rewrite str_Z_small by lia.
      cbn [String.length]. replace (S w1 - 1)%nat with w1 by lia.
      rewrite Z.div_small, Z.mod_small by lia.
      now rewrite fixed_width_zero.
    + rewrite <- IH.
      * unfold DateTime.pad. cbv zeta. rewrite (str_Z_step n) by lia.
        rewrite string_length_app. cbn [String.length].
        pose proof (length_str_Z_pos (n / 10)
                      ltac:(apply Z.div_pos; lia)) as Hl1.
        replace (S w1 - (String.length (DateTime.str_Z (n / 10)) + 1))%nat
          with (w1 - String.length (DateTime.str_Z (n / 10)))%nat by lia.
        now rewrite string_app_assoc.
      * split; [apply Z.div_pos; lia|]. apply Z.div_lt_upper_bound; lia.
Qed.

Lemma digit_char_compare i j :
  0 <= i < 10 -> 0 <= j < 10 ->
  Ascii.compare (DateTime.digit_char i) (DateTime.digit_char j) = (i ?= j).
Proof.
  intros Hi Hj.
  rewrite <- (Z2Nat.id i), <- (Z2Nat.id j) by lia.
  assert (Ha : (Z.to_nat i < 10)%nat) by lia.
  assert (Hb : (Z.to_nat j < 10)%nat) by lia.
  revert Ha Hb. generalize (Z.to_nat i) as a, (Z.to_nat j) as b.
  intros a b Ha Hb.
  do 10 (destruct a as [|a];
         [do 10 (destruct b as [|b]; [reflexivity|]); lia|]).
  lia.
Qed.

(** Numerals of the same width compare as their numbers, and what
    follows them decides between equal ones. *)
Lemma fixed_width_compare w : forall x y s t,
  0 <= x < 10 ^ Z.of_nat w -> 0 <= y < 10 ^ Z.of_nat w ->
  String.compare (fixed_width w x ++ s) (fixed_width w y ++ t)
  = match x ?= y with
    | Eq => String.compare s t
    | c => c
    end.
Proof.
  induction w as [|w IH]; intros x y s t Hx Hy.
  - change (10 ^ Z.of_nat 0) with 1 in *.
    replace x with 0 by lia. replace y with 0 by lia. reflexivity.
  - assert (Hp : 10 ^ Z.of_nat (S w) = 10 * 10 ^ Z.of_nat w).
    { rewrite Nat2Z.inj_succ. apply Z.pow_succ_r. lia. }
    cbn [fixed_width]. rewrite <- !string_app_assoc, !string_app_cons.
    change (("" ++ s)%string) with s. change (("" ++ t)%string) with t.
    rewrite IH.
    2:{ split; [apply Z.div_pos; lia|]. apply Z.div_lt_upper_bound; lia. }
    2:{ split; [apply Z.div_pos; lia|]. apply Z.div_lt_upper_bound; lia. }
    cbn [String.compare].
    pose proof (Z.mod_pos_bound x 10 ltac:(lia)) as Mx.
    pose proof (Z.mod_pos_bound y 10 ltac:(lia)) as My.
    rewrite digit_char_compare by assumption.
    pose proof (Z.div_mod x 10 ltac:(lia)) as Dx.
    pose proof (Z.div_mod y 10 ltac:(lia)) as Dy.
    destruct (Z.compare_spec (x / 10) (y / 10)) as [Hq|Hq|Hq];
      destruct (Z.compare_spec (x mod 10) (y mod 10)) as [Hr|Hr|Hr];
      destruct (Z.compare_spec x y) as [Hc|Hc|Hc];
      try reflexivity; lia.
Qed.

End NumeralFacts.

Section IsoformatFacts.
Import Numerals.
Local Open Scope Z_scope.

Lemma string_app_nil_l (s : string) : ("" ++ s)%string = s.
Proof. reflexivity. Qed.

Lemma compare_cons_same c s t :
  String.compare (String c s) (String c t) = String.compare s t.
Proof.
  cbn [String.compare]. unfold Ascii.compare. now rewrite N.compare_refl.
Qed.

Lemma in_range_spec lo hi x :
  DateTime.in_range lo hi x = true -> lo <= x <= hi.
Proof.
  unfold DateTime.in_range. intros H. apply andb_prop in H as [H1 H2].
  apply Z.leb_le in H1, H2. lia.
Qed.

Lemma days_in_month_le y mo : DateTime.days_in_month y mo <= 31.
Proof.
  unfold DateTime.days_in_month.
  destruct (mo =? 2); [destruct (DateTime.is_leap y); lia|].
  destruct ((mo =? 4) || (mo =? 6) || (mo =? 9) || (mo =? 11))%bool; lia.
Qed.

(** The ranges of the fields of a timestamp the constructor accepts. *)
Lemma valid_ranges d :
  DateTime.valid d = true ->
  1 <= DateTime.year d <= 9999 /\ 1 <= DateTime.month d <= 12
  /\ 1 <= DateTime.day d <= 31 /\ 0 <= DateTime.hour d <= 23
  /\ 0 <= DateTime.minute d <= 59 /\ 0 <= DateTime.second d <= 59
  /\ 0 <= DateTime.microsecond d <= 999999.
Proof.
  unfold DateTime.valid. intros H.
  repeat (apply andb_prop in H as [H ?]).
  repeat match goal with
         | h : DateTime.in_range _ _ _ = true |- _ =>
             apply in_range_spec in h
         end.
  pose proof (days_in_month_le (DateTime.year d) (DateTime.month d)).
  lia.
Qed.

(** A field of fixed width followed by a separator. *)
Lemma field_compare w x y c s t :
  0 <= x < 10 ^ Z.of_nat w -> 0 <= y < 10 ^ Z.of_nat w ->
  String.compare (fixed_width w x ++ String c s)
                 (fixed_width w y ++ String c t)
  = match x ?= y with
    | Eq => String.compare s t
    | r => r
    end.
Proof.
  intros Hx Hy. rewrite fixed_width_compare by assumption.
  now rewrite compare_cons_same.
Qed.

Lemma fraction_compare x y :
  0 <= x <= 999999 -> 0 <= y <= 999999 ->
  String.compare
    ((if x =? 0 then "" else "." ++ DateTime.pad 6 x) ++ "+07:00")
    ((if y =? 0 then "" else "." ++ DateTime.pad 6 y) ++ "+07:00")
  = match x ?= y with
    | Eq => Eq
    | r => r
    end.
Proof.
  intros Hx Hy.
  assert (H6 : 10 ^ Z.of_nat 6 = 1000000) by reflexivity.
  destruct (Z.eqb_spec x 0) as [->|Hx0]; destruct (Z.eqb_spec y 0) as [->|Hy0].
  - reflexivity.
  - rewrite string_app_nil_l, !string_app_cons, string_app_nil_l.
    replace (0 ?= y) with Lt by (symmetry; apply Z.compare_lt_iff; lia).
    reflexivity.
  - rewrite string_app_nil_l, !string_app_cons, string_app_nil_l.
    replace (x ?= 0) with Gt by (symmetry; apply Z.compare_gt_iff; lia).
    reflexivity.
  - rewrite !string_app_cons, !string_app_nil_l, compare_cons_same.
    rewrite !(pad_fixed_width 5) by lia.
    rewrite fixed_width_compare by lia.
    now destruct (x ?= y).
Qed.

(** The order of the texts [isoformat] gives is the order of the
    timestamps. *)
Lemma isoformat_compare a b :
  DateTime.valid a = true -> DateTime.valid b = true ->
  String.compare (DateTime.isoformat a) (DateTime.isoformat b)
  = DateTime.compare a b.
Proof.
  intros Ha Hb.
  apply valid_ranges in Ha as (Ya & Ma & Da & ha & ma & sa & ua).
  apply valid_ranges in Hb as (Yb & Mb & Db & hb & mb & sb & ub).
  assert (H4 : 10 ^ Z.of_nat 4 = 10000) by reflexivity.
  assert (H2 : 10 ^ Z.of_nat 2 = 100) by reflexivity.
  unfold DateTime.isoformat.
  rewrite !(pad_fixed_width 3), !(pad_fixed_width 1) by lia.
  rewrite !string_app_cons, !string_app_nil_l.
  rewrite !field_compare by lia.
  rewrite fixed_width_compare by lia.
  rewrite fraction_compare by lia.
  unfold DateTime.compare, DateTime.fields. cbn [DateTime.lex_compare].
  reflexivity.
Qed.

Lemma isoformat_leb a b :
  DateTime.valid a = true -> DateTime.valid b = true ->
  String.leb (DateTime.isoformat a) (DateTime.isoformat b)
  = DateTime.leb a b.
Proof.
  intros Ha Hb. unfold String.leb, DateTime.leb.
  now rewrite isoformat_compare.
Qed.

Lemma StronglySorted_weaken {A} (R R' : A -> A -> Prop) (P : A -> Prop) l :
  (forall x y, P x -> P y -> R x y -> R' x y) ->
  Forall P l -> StronglySorted R l -> StronglySorted R' l.
Proof.
  intros Himp HP Hs. induction Hs as [|x l Hs IH Hall]; [constructor|].
  apply Forall_cons_iff in HP as [Hx HP]. constructor; [now apply IH|].
  rewrite List.Forall_forall in Hall, HP |- *. intros y Hy.
  apply Himp; auto.
Qed.

End IsoformatFacts.

(** X17.  The listing of pending emails is in chronological order.  When
    the scheduled times of the document are timestamps the constructor
    accepts, of a year from 1921 on, where the home zone is at +07:00,
    the listing, which is sorted on the text of those times, holds the
    pending items with no item scheduled later than one that follows
    it. *)
Theorem pending_listing_is_chronological d :
  Forall (fun kv =>
            Numerals.at_plus_seven (EmailService.scheduled_time (snd kv))
            = true) d ->
  exists l,
    EmailService.get_pending_emails (Doc d) = Return l
    /\ StronglySorted Numerals.scheduled_le l.
Proof.
  intros Hplus.
  assert (Hvalid : Forall (fun kv =>
                             DateTime.valid
                               (EmailService.scheduled_time (snd kv)) = true)
                          d).
  { eapply List.Forall_impl; [|exact Hplus]. intros kv H. cbn beta in H.
    unfold Numerals.at_plus_seven in H. now apply andb_prop in H as [H _]. }
  clear Hplus.
  eexists. split; [reflexivity|].
  set (key := fun x => DateTime.isoformat (EmailService.scheduled_time x)).
  set (pending := List.filter _ (values d)).
  apply (StronglySorted_weaken (key_le key) Numerals.scheduled_le
           (fun e => DateTime.valid (EmailService.scheduled_time e) = true)).
  - intros x y Hx Hy Hle. unfold key_le, key in Hle.
    unfold Numerals.scheduled_le. now rewrite <- isoformat_leb.
  - assert (Hp : Forall (fun e => DateTime.valid
                                    (EmailService.scheduled_time e) = true)
                        pending).
    { rewrite List.Forall_forall in Hvalid |- *. intros e He.
      apply filter_In in He as [He _]. unfold values in He.
      apply in_map_iff in He as (kv & <- & Hkv). now apply Hvalid. }
    rewrite List.Forall_forall in Hp |- *. intros e He. apply Hp.
    eapply Permutation_in; [apply sort_by_perm|exact He].
  - apply sort_by_sorted.
Qed.

Lemma pending_listing_is_chronological_witness :
  exists l,
    EmailService.get_pending_emails (Doc Samples.out_of_order) = Return l
    /\ StronglySorted Numerals.scheduled_le l.
Proof.
  apply (pending_listing_is_chronological Samples.out_of_order).
  repeat constructor.
Defined.

(** X18.  Every call to the calendar collaborator is called for by the
    action.  What one execution of [execute_calendar_action] adds to the
    calls is added only with an authenticated handler; a clearing of the
    calendar is requested only for a confirmed clearing, a deletion by
    title only for the pattern of a pattern deletion and never with the
    empty pattern, the reading of a meeting request only for a creation
    and for the message itself, and the creation of an event only with
    the details that reading returned. *)
Theorem calendar_calls_are_called_for api calendar_handler action_info
        user_message calls :
  exists new,
    snd (Dispatcher.execute_calendar_action api calendar_handler action_info
           user_message calls) = (calls ++ new)%list
    /\ (new <> [] ->
        exists h, calendar_handler = Some h
                  /\ CalendarHandler.is_authenticated h = true)
    /\ forall call,
        List.In call new ->
        match call with
        | Dispatcher.CallClearAllEvents =>
            action_info = Some (Classifier.CalClearAll true)
        | Dispatcher.CallDeleteEventsByTitle pattern =>
            action_info = Some (Classifier.CalDeletePattern pattern)
            /\ pattern <> ""
        | Dispatcher.CallParseMeetingRequest message =>
            action_info = Some Classifier.CalCreate
            /\ message = user_message
        | Dispatcher.CallCreateCalendarEvent details =>
            action_info = Some Classifier.CalCreate
            /\ Dispatcher.parse_meeting_request api user_message
               = Return (Some details)
        end.
Proof.
  assert (Hnone : exists new : list Dispatcher.calendar_call,
             calls = (calls ++ new)%list
             /\ (new <> [] ->
                 exists h, calendar_handler = Some h
                           /\ CalendarHandler.is_authenticated h = true)
             /\ forall call, List.In call new ->
                  match call with
                  | Dispatcher.CallClearAllEvents =>
                      action_info = Some (Classifier.CalClearAll true)
                  | Dispatcher.CallDeleteEventsByTitle pattern =>
                      action_info = Some (Classifier.CalDeletePattern pattern)
                      /\ pattern <> ""
                  | Dispatcher.CallParseMeetingRequest message =>
                      action_info = Some Classifier.CalCreate
                      /\ message = user_message
                  | Dispatcher.CallCreateCalendarEvent details =>
                      action_info = Some Classifier.CalCreate
                      /\ Dispatcher.parse_meeting_request api user_message
                         = Return (Some details)
                  end).
  { exists []. split; [now rewrite app_nil_r|].
    split; [congruence|intros ? []]. }
  unfold Dispatcher.execute_calendar_action. cbv zeta.
  destruct calendar_handler as [h|]; cbn [negb snd]; [|exact Hnone].
  destruct (CalendarHandler.is_authenticated h) eqn:Hauth; cbn [negb snd];
    [|exact Hnone].
  assert (Hh : exists h0, Some h = Some h0
                          /\ CalendarHandler.is_authenticated h0 = true)
    by (now exists h).
  destruct action_info as [[|pattern|confirmed]|]; [| | |exact Hnone].
  - destruct (Dispatcher.parse_meeting_request api user_message)
      as [[details|]|e] eqn:Hparse.
    + exists [Dispatcher.CallParseMeetingRequest user_message;
              Dispatcher.CallCreateCalendarEvent details].
      split; [destruct (Dispatcher.create_calendar_event api details);
              cbn [snd]; now rewrite <- app_assoc|].
      split; [intros _; exact Hh|].
      intros call [<-|[<-|[]]]; split; reflexivity.
    + exists [Dispatcher.CallParseMeetingRequest user_message].
      split; [reflexivity|]. split; [intros _; exact Hh|].
      intros call [<-|[]]; split; reflexivity.
    + exists [Dispatcher.CallParseMeetingRequest user_message].
      split; [reflexivity|]. split; [intros _; exact Hh|].
      intros call [<-|[]]; split; reflexivity.
  - destruct (Text.len pattern =? 0)%nat eqn:Hlen; cbn [negb];
      [exact Hnone|].
    exists [Dispatcher.CallDeleteEventsByTitle pattern].
    split; [destruct (Dispatcher.delete_events_by_title api pattern);
            reflexivity|].
    split; [intros _; exact Hh|].
    intros call [<-|[]]. split; [reflexivity|].
    intros ->. discriminate.
  - destruct confirmed; [|exact Hnone].
    exists [Dispatcher.CallClearAllEvents].
    split; [destruct (Dispatcher.clear_all_events api); reflexivity|].
    split; [intros _; exact Hh|].
    intros call [<-|[]]. reflexivity.
Qed.
